(** * PF_Tek air-exchange controller: uptime accumulator and air-cycle machine

    Shallow embedding of the three Arduino sketches of the repository:

    - [Tek12]: the single-timestamp sketch (PF_Tek1_2.ino and its copy
      without the sensor code; both have the same timekeeping and air
      functions, statement for statement);
    - [Tek13]: the dual-timestamp sketch (the "completely new design").

    Conventions.  [uint32_t] and [unsigned long] are 32 bits wide on the
    AVR, [uint8_t] and [byte] are 8 bits wide; values are integers in [Z]
    and every operation writes its wrap-around out.  The EEPROM is a
    byte-addressed store, accessed through the EEPROMex calls the sketches
    use (little-endian 32-bit cells, as avr-libc lays them out).  Each
    call of [millis()] is an input of the cycle.  Serial output and the
    temperature and humidity sampling do not touch the variables of the
    timekeeping and the air machine and are not part of [loop] here; the
    uptime print of PF_Tek1.3 and the temperature sampling of
    PF_Tek1_2.ino are modelled on their own at the end.  The humidity
    computation is floating point and is left out. *)

From Stdlib Require Import ZArith Lia List Bool.
From Stdlib Require String.
Import ListNotations.
Open Scope Z_scope.

(** ** Unsigned 32-bit arithmetic *)

Module U32.

Definition modulus : Z := 4294967296.

Definition wrap (z : Z) : Z := z mod modulus.

Definition add (a b : Z) : Z := wrap (a + b).
Definition sub (a b : Z) : Z := wrap (a - b).
Definition mul (a b : Z) : Z := wrap (a * b).

Definition in_range (z : Z) : Prop := 0 <= z < modulus.

Lemma wrap_range z : in_range (wrap z).
Proof. unfold in_range, wrap, modulus. apply Z.mod_pos_bound. lia. Qed.

Lemma wrap_small z : in_range z -> wrap z = z.
Proof. unfold in_range, wrap. intros H. apply Z.mod_small. exact H. Qed.

Lemma wrap_wrap z : wrap (wrap z) = wrap z.
Proof. apply wrap_small, wrap_range. Qed.

Lemma add_wrap_l a b : add (wrap a) b = add a b.
Proof. unfold add, wrap, modulus. apply Zplus_mod_idemp_l. Qed.

Lemma add_wrap_r a b : add a (wrap b) = add a b.
Proof. unfold add, wrap, modulus. apply Zplus_mod_idemp_r. Qed.

Lemma sub_wrap_l a b : sub (wrap a) b = sub a b.
Proof. unfold sub, wrap, modulus. apply Zminus_mod_idemp_l. Qed.

Lemma sub_wrap_r a b : sub a (wrap b) = sub a b.
Proof. unfold sub, wrap, modulus. apply Zminus_mod_idemp_r. Qed.

Lemma add_range a b : in_range (add a b).
Proof. apply wrap_range. Qed.

Lemma sub_range a b : in_range (sub a b).
Proof. apply wrap_range. Qed.

Lemma sub_diag a : sub a a = 0.
Proof. unfold sub, wrap. rewrite Z.sub_diag. reflexivity. Qed.

Lemma sub_small a b : 0 <= a - b < modulus -> sub a b = a - b.
Proof. intros H. unfold sub. apply wrap_small. exact H. Qed.

Lemma add_small a b : 0 <= a + b < modulus -> add a b = a + b.
Proof. intros H. unfold add. apply wrap_small. exact H. Qed.

(** Subtracting the old tick from the tick that lies [d] later gives [d]
    back, whatever the tick counter did in between. *)
Lemma sub_add_cancel p d : sub (add p d) p = wrap d.
Proof.
  unfold add. rewrite sub_wrap_l. unfold sub. f_equal. lia.
Qed.

End U32.

(** ** The EEPROM as a byte store, read and written as EEPROMex does *)

Module EEPROM.

(** Cell address to stored value; a read keeps the low eight bits. *)
Definition t : Type := Z -> Z.

Definition blank : t := fun _ => 0.

Definition readByte (e : t) (a : Z) : Z := e a mod 256.

Definition writeByte (e : t) (a v : Z) : t :=
  fun x => if x =? a then v mod 256 else e x.

(** [update] writes a cell only when the value differs from the stored one. *)
Definition updateByte (e : t) (a v : Z) : t :=
  if readByte e a =? v mod 256 then e else writeByte e a v.

Definition readLong (e : t) (a : Z) : Z :=
  readByte e a + 256 * readByte e (a + 1)
  + 65536 * readByte e (a + 2) + 16777216 * readByte e (a + 3).

Definition writeLong (e : t) (a v : Z) : t :=
  writeByte (writeByte (writeByte (writeByte e a v)
    (a + 1) (v / 256)) (a + 2) (v / 65536)) (a + 3) (v / 16777216).

Definition updateLong (e : t) (a v : Z) : t :=
  updateByte (updateByte (updateByte (updateByte e a v)
    (a + 1) (v / 256)) (a + 2) (v / 65536)) (a + 3) (v / 16777216).

(** [EEPROM.getAddress(n)]: hand out the next free address and reserve
    [n] bytes after it.  The allocator starts at address 0. *)
Definition getAddress (noOfBytes : Z) (next : Z) : Z * Z :=
  (next, next + noOfBytes).

Lemma readByte_range e a : 0 <= readByte e a < 256.
Proof. unfold readByte. apply Z.mod_pos_bound. lia. Qed.

Lemma readLong_range e a : U32.in_range (readLong e a).
Proof.
  unfold U32.in_range, U32.modulus, readLong.
  pose proof (readByte_range e a).
  pose proof (readByte_range e (a + 1)).
  pose proof (readByte_range e (a + 2)).
  pose proof (readByte_range e (a + 3)).
  lia.
Qed.

Lemma readByte_writeByte e a v b :
  readByte (writeByte e a v) b = if b =? a then v mod 256 else readByte e b.
Proof.
  unfold readByte, writeByte. destruct (b =? a); [|reflexivity].
  apply Z.mod_small. apply Z.mod_pos_bound. lia.
Qed.

Lemma readByte_updateByte e a v b :
  readByte (updateByte e a v) b = if b =? a then v mod 256 else readByte e b.
Proof.
  unfold updateByte. destruct (readByte e a =? v mod 256) eqn:E.
  - destruct (b =? a) eqn:Eb; [|reflexivity].
    apply Z.eqb_eq in E, Eb. subst b. exact E.
  - apply readByte_writeByte.
Qed.

(** An update and a write leave the same contents behind. *)
Lemma readByte_updateLong e a v b :
  readByte (updateLong e a v) b = readByte (writeLong e a v) b.
Proof.
  unfold updateLong, writeLong.
  rewrite !readByte_updateByte, !readByte_writeByte. reflexivity.
Qed.

Lemma readLong_updateLong e a v b :
  readLong (updateLong e a v) b = readLong (writeLong e a v) b.
Proof. unfold readLong. rewrite !readByte_updateLong. reflexivity. Qed.

Lemma readByte_writeLong_other e a v b :
  b < a \/ a + 4 <= b -> readByte (writeLong e a v) b = readByte e b.
Proof.
  intros H. unfold writeLong. rewrite !readByte_writeByte.
  destruct (b =? a + 3) eqn:E3; [apply Z.eqb_eq in E3; lia|].
  destruct (b =? a + 2) eqn:E2; [apply Z.eqb_eq in E2; lia|].
  destruct (b =? a + 1) eqn:E1; [apply Z.eqb_eq in E1; lia|].
  destruct (b =? a) eqn:E0; [apply Z.eqb_eq in E0; lia|].
  reflexivity.
Qed.

Lemma readLong_writeLong_other e a v b :
  b + 4 <= a \/ a + 4 <= b -> readLong (writeLong e a v) b = readLong e b.
Proof.
  intros H. unfold readLong.
  rewrite !readByte_writeLong_other by lia. reflexivity.
Qed.

Lemma readLong_writeByte_other e a v b :
  a < b \/ b + 4 <= a -> readLong (writeByte e a v) b = readLong e b.
Proof.
  intros H. unfold readLong. rewrite !readByte_writeByte.
  destruct (b =? a) eqn:E0; [apply Z.eqb_eq in E0; lia|].
  destruct (b + 1 =? a) eqn:E1; [apply Z.eqb_eq in E1; lia|].
  destruct (b + 2 =? a) eqn:E2; [apply Z.eqb_eq in E2; lia|].
  destruct (b + 3 =? a) eqn:E3; [apply Z.eqb_eq in E3; lia|].
  reflexivity.
Qed.

Lemma readLong_updateByte_other e a v b :
  a < b \/ b + 4 <= a -> readLong (updateByte e a v) b = readLong e b.
Proof.
  intros H. unfold updateByte. destruct (readByte e a =? v mod 256).
  - reflexivity.
  - apply readLong_writeByte_other, H.
Qed.

(** Four bytes written, the same 32-bit value read back. *)
Lemma readLong_writeLong_same e a v :
  readLong (writeLong e a v) a = U32.wrap v.
Proof.
  unfold readLong, writeLong. rewrite !readByte_writeByte.
  rewrite Z.eqb_refl.
  replace (a =? a + 3) with false by (symmetry; apply Z.eqb_neq; lia).
  replace (a =? a + 2) with false by (symmetry; apply Z.eqb_neq; lia).
  replace (a =? a + 1) with false by (symmetry; apply Z.eqb_neq; lia).
  replace (a + 1 =? a + 3) with false by (symmetry; apply Z.eqb_neq; lia).
  replace (a + 1 =? a + 2) with false by (symmetry; apply Z.eqb_neq; lia).
  replace (a + 2 =? a + 3) with false by (symmetry; apply Z.eqb_neq; lia).
  rewrite !Z.eqb_refl.
  unfold U32.wrap, U32.modulus.
  Z.div_mod_to_equations. lia.
Qed.

End EEPROM.

(** ** The board: EEPROM, output port, and the trace of what was done *)

(** What a cycle does to the outside world, newest event first. *)
Inductive event : Type :=
| EepromUpdateByte (address value : Z)
| EepromUpdateLong (address value : Z)
| EepromWriteLong (address value : Z)
| DigitalWrite (pin : Z) (level : bool).

Module Board.

Record t : Type := mk {
  eeprom : EEPROM.t;
  port : Z -> bool;
  trace : list event
}.

Definition readByte (b : t) (a : Z) : Z := EEPROM.readByte (eeprom b) a.
Definition readLong (b : t) (a : Z) : Z := EEPROM.readLong (eeprom b) a.

Definition updateByte (a v : Z) (b : t) : t :=
  mk (EEPROM.updateByte (eeprom b) a v) (port b)
     (EepromUpdateByte a (v mod 256) :: trace b).

Definition updateLong (a v : Z) (b : t) : t :=
  mk (EEPROM.updateLong (eeprom b) a v) (port b)
     (EepromUpdateLong a (U32.wrap v) :: trace b).

Definition writeLong (a v : Z) (b : t) : t :=
  mk (EEPROM.writeLong (eeprom b) a v) (port b)
     (EepromWriteLong a (U32.wrap v) :: trace b).

Definition digitalRead (b : t) (p : Z) : bool := port b p.

Definition digitalWrite (p : Z) (level : bool) (b : t) : t :=
  mk (eeprom b) (fun q => if q =? p then level else port b q)
     (DigitalWrite p level :: trace b).

(** A board just powered on: the EEPROM holds what it held, every output
    is low, nothing has been done yet. *)
Definition power_on (e : EEPROM.t) : t := mk e (fun _ => false) [].

End Board.

(** The actuator line. *)
Definition PIN_AIR : Z := 6.
Definition PIN_LIFE : Z := 13.

(** Event classes the claims speak about. *)
Definition is_digitalWrite (p : Z) (ev : event) : bool :=
  match ev with DigitalWrite q _ => q =? p | _ => false end.

Definition is_write_to (a : Z) (ev : event) : bool :=
  match ev with
  | EepromUpdateByte q _ | EepromUpdateLong q _ | EepromWriteLong q _ => q =? a
  | DigitalWrite _ _ => false
  end.

(** ** PF_Tek1.3: the dual-timestamp sketch *)

Module Tek13.

Definition AIR_INTERVAL : Z := 3600.
Definition AIR_DURATION : Z := 120.
Definition UPTIME_STORE_INTERVAL : Z := 60.

(** [(unsigned long)X*1000] *)
Definition TO_MACHINE_TIME (x : Z) : Z := U32.mul (U32.wrap x) 1000.

Record layout : Type := mkLayout {
  l_uptime : Z; l_airStatus : Z; l_airStart : Z; l_airStop : Z
}.

(** [sizeof(long)] is 4 and [sizeof(byte)] is 1. *)
Definition initEepromAddressing : layout :=
  let '(a0, next) := EEPROM.getAddress 4 0 in
  let '(a1, next) := EEPROM.getAddress 1 next in
  let '(a2, next) := EEPROM.getAddress 4 next in
  let '(a3, _) := EEPROM.getAddress 4 next in
  mkLayout a0 a1 a2 a3.

Definition addressUptime : Z := l_uptime initEepromAddressing.
Definition addressAirStatus : Z := l_airStatus initEepromAddressing.
Definition addressAirStart : Z := l_airStart initEepromAddressing.
Definition addressAirStop : Z := l_airStop initEepromAddressing.

(** The global variables of the sketch, and the board it runs on. *)
Record state : Type := mkState {
  uptime : Z;
  uptimeStoreTime : Z;
  previousUptime : Z;
  airStatus : Z;
  airStart : Z;
  airStop : Z;
  board : Board.t
}.

Definition set_uptime (v : Z) (s : state) : state :=
  mkState v (uptimeStoreTime s) (previousUptime s)
          (airStatus s) (airStart s) (airStop s) (board s).
Definition set_uptimeStoreTime (v : Z) (s : state) : state :=
  mkState (uptime s) v (previousUptime s)
          (airStatus s) (airStart s) (airStop s) (board s).
Definition set_previousUptime (v : Z) (s : state) : state :=
  mkState (uptime s) (uptimeStoreTime s) v
          (airStatus s) (airStart s) (airStop s) (board s).
Definition set_airStatus (v : Z) (s : state) : state :=
  mkState (uptime s) (uptimeStoreTime s) (previousUptime s)
          v (airStart s) (airStop s) (board s).
Definition set_airStart (v : Z) (s : state) : state :=
  mkState (uptime s) (uptimeStoreTime s) (previousUptime s)
          (airStatus s) v (airStop s) (board s).
Definition set_airStop (v : Z) (s : state) : state :=
  mkState (uptime s) (uptimeStoreTime s) (previousUptime s)
          (airStatus s) (airStart s) v (board s).
Definition on_board (f : Board.t -> Board.t) (s : state) : state :=
  mkState (uptime s) (uptimeStoreTime s) (previousUptime s)
          (airStatus s) (airStart s) (airStop s) (f (board s)).

(** All globals are zero-initialised. *)
Definition reset (b : Board.t) : state := mkState 0 0 0 0 0 0 b.

Definition initUptime (s : state) : state :=
  let s := set_uptime (Board.readLong (board s) addressUptime) s in
  set_uptimeStoreTime (uptime s) s.

(** [setup]: the delays, the serial port and the address allocation leave
    the globals alone; the first [loop] runs about 2050 ms after reset. *)
Definition setup (b : Board.t) : state := initUptime (reset b).

(** [countTime] calls [millis()] twice: [m1] then [m2]. *)
Definition countTime (m1 m2 : Z) (s : state) : state :=
  let s := set_uptime (U32.add (uptime s) (U32.sub m1 (previousUptime s))) s in
  set_previousUptime (U32.wrap m2) s.

Definition scheduledAir (s : state) : bool :=
  U32.sub (uptime s) (airStop s) >? TO_MACHINE_TIME AIR_INTERVAL.

Definition airOn (s : state) : bool := airStatus s =? 1.

Definition deviceSetOn (s : state) : state :=
  on_board (Board.digitalWrite PIN_AIR true) s.

Definition deviceSetOff (s : state) : state :=
  on_board (Board.digitalWrite PIN_AIR false) s.

Definition needAir (s : state) : bool :=
  U32.sub (uptime s) (airStart s) <? TO_MACHINE_TIME AIR_DURATION.

Definition storeUptime (s : state) : state :=
  let s := set_uptimeStoreTime (uptime s) s in
  on_board (Board.writeLong addressUptime (uptime s)) s.

Definition setAirOn (s : state) : state :=
  let s := on_board (Board.updateByte addressAirStatus 1) s in
  let s := on_board (Board.updateLong addressAirStart (uptime s)) s in
  storeUptime s.

Definition setAirOff (s : state) : state :=
  let s := on_board (Board.updateByte addressAirStatus 0) s in
  let s := on_board (Board.updateLong addressAirStop (uptime s)) s in
  storeUptime s.

Definition periodicUptimeSave (s : state) : bool :=
  uptime s >? U32.add (uptimeStoreTime s) (TO_MACHINE_TIME UPTIME_STORE_INTERVAL).

(** The top of [loop]: advance the uptime, then read the air state and
    both timestamps back from the EEPROM. *)
Definition readBack (m1 m2 : Z) (s : state) : state :=
  let s := countTime m1 m2 s in
  let s := set_airStatus (Board.readByte (board s) addressAirStatus) s in
  let s := set_airStart (Board.readLong (board s) addressAirStart) s in
  set_airStop (Board.readLong (board s) addressAirStop) s.

(** The two [if] blocks of [loop] that drive the air machine. *)
Definition airMachine (s : state) : state :=
  let s := if negb (airOn s)
           then (if scheduledAir s then setAirOn s else s)
           else s in
  if airOn s
  then (if needAir s then deviceSetOn s else deviceSetOff (setAirOff s))
  else s.

Definition checkpoint (s : state) : state :=
  if periodicUptimeSave s then storeUptime s else s.

(** One pass of [loop]; the closing [delay(1000)] shows in the next
    cycle's tick readings. *)
Definition loop (m1 m2 : Z) (s : state) : state :=
  checkpoint (airMachine (readBack m1 m2 s)).

(** Cycle after cycle, each with its two tick readings. *)
Fixpoint run (ticks : list (Z * Z)) (s : state) : state :=
  match ticks with
  | [] => s
  | (m1, m2) :: rest => run rest (loop m1 m2 s)
  end.

(** The uptime each cycle of a run works with. *)
Fixpoint uptimes (ticks : list (Z * Z)) (s : state) : list Z :=
  match ticks with
  | [] => []
  | (m1, m2) :: rest =>
      uptime (loop m1 m2 s) :: uptimes rest (loop m1 m2 s)
  end.

(** An EEPROM image with the four cells filled in. *)
Definition snapshot (u st start stop : Z) : EEPROM.t :=
  EEPROM.writeLong
    (EEPROM.writeLong
       (EEPROM.writeByte (EEPROM.writeLong EEPROM.blank addressUptime u)
          addressAirStatus st)
       addressAirStart start)
    addressAirStop stop.

End Tek13.

(** ** PF_Tek1.2: the single-timestamp sketch *)

Module Tek12.

Definition AIR_INTERVAL : Z := 3600.
Definition AIR_DURATION : Z := 120.
Definition UPTIME_STORE_INTERVAL : Z := 60.

(** [(unsigned long)X*1000] *)
Definition TO_MACHINE_UPTIME (x : Z) : Z := U32.mul (U32.wrap x) 1000.

Record layout : Type := mkLayout {
  l_uptime : Z; l_airStatus : Z; l_airTime : Z
}.

Definition initEepromAddressing : layout :=
  let '(a0, next) := EEPROM.getAddress 4 0 in
  let '(a1, next) := EEPROM.getAddress 1 next in
  let '(a2, _) := EEPROM.getAddress 4 next in
  mkLayout a0 a1 a2.

Definition addressUptime : Z := l_uptime initEepromAddressing.
Definition addressAirStatus : Z := l_airStatus initEepromAddressing.
Definition addressAirTime : Z := l_airTime initEepromAddressing.

(** The global variables the timekeeping and air functions use
    ([localUptime] is declared in the sketch and never touched). *)
Record state : Type := mkState {
  uptime : Z;
  uptimeStoreTime : Z;
  previousUptime : Z;
  lastAir : Z;
  airStatus : Z;
  airStart : Z;
  timeSinceAir : Z;
  board : Board.t
}.

Definition set_uptime (v : Z) (s : state) : state :=
  mkState v (uptimeStoreTime s) (previousUptime s) (lastAir s)
          (airStatus s) (airStart s) (timeSinceAir s) (board s).
Definition set_uptimeStoreTime (v : Z) (s : state) : state :=
  mkState (uptime s) v (previousUptime s) (lastAir s)
          (airStatus s) (airStart s) (timeSinceAir s) (board s).
Definition set_previousUptime (v : Z) (s : state) : state :=
  mkState (uptime s) (uptimeStoreTime s) v (lastAir s)
          (airStatus s) (airStart s) (timeSinceAir s) (board s).
Definition set_lastAir (v : Z) (s : state) : state :=
  mkState (uptime s) (uptimeStoreTime s) (previousUptime s) v
          (airStatus s) (airStart s) (timeSinceAir s) (board s).
Definition set_airStatus (v : Z) (s : state) : state :=
  mkState (uptime s) (uptimeStoreTime s) (previousUptime s) (lastAir s)
          v (airStart s) (timeSinceAir s) (board s).
Definition set_airStart (v : Z) (s : state) : state :=
  mkState (uptime s) (uptimeStoreTime s) (previousUptime s) (lastAir s)
          (airStatus s) v (timeSinceAir s) (board s).
Definition set_timeSinceAir (v : Z) (s : state) : state :=
  mkState (uptime s) (uptimeStoreTime s) (previousUptime s) (lastAir s)
          (airStatus s) (airStart s) v (board s).
Definition on_board (f : Board.t -> Board.t) (s : state) : state :=
  mkState (uptime s) (uptimeStoreTime s) (previousUptime s) (lastAir s)
          (airStatus s) (airStart s) (timeSinceAir s) (f (board s)).

Definition reset (b : Board.t) : state := mkState 0 0 0 0 0 0 0 b.

Definition initUptime (s : state) : state :=
  let s := set_uptime (Board.readLong (board s) addressUptime) s in
  set_uptimeStoreTime (uptime s) s.

Definition initAir (s : state) : state :=
  set_airStart (Board.readLong (board s) addressAirTime) s.

Definition setup (b : Board.t) : state := initAir (initUptime (reset b)).

(** [updateLocalUptime] calls [millis()] twice: [m1] then [m2]. *)
Definition updateLocalUptime (m1 m2 : Z) (s : state) : state :=
  let s := set_uptime (U32.add (uptime s) (U32.sub m1 (previousUptime s))) s in
  set_previousUptime (U32.wrap m2) s.

Definition calculateTimeSinceAir (s : state) : state :=
  set_timeSinceAir (U32.sub (uptime s) (lastAir s)) s.

Definition isAir (s : state) : bool := airStatus s =? 1.

Definition needAir (s : state) : bool :=
  if isAir s
  then U32.sub (uptime s) (airStart s) <? TO_MACHINE_UPTIME AIR_DURATION
  else timeSinceAir s >? TO_MACHINE_UPTIME AIR_INTERVAL.

Definition continueAir (s : state) : state := s.

Definition startAir (s : state) : state :=
  let s := set_airStart (uptime s) s in
  let s := on_board (Board.updateByte addressAirStatus 1) s in
  on_board (Board.digitalWrite PIN_AIR true) s.

Definition stopAir (s : state) : state :=
  let s := on_board (Board.updateLong addressAirTime (uptime s)) s in
  let s := on_board (Board.updateByte addressAirStatus 0) s in
  on_board (Board.digitalWrite PIN_AIR false) s.

Definition periodicUptimeSave (s : state) : bool :=
  uptime s
  >? U32.add (uptimeStoreTime s) (TO_MACHINE_UPTIME UPTIME_STORE_INTERVAL).

Definition storeUptime (s : state) : state :=
  let s := set_uptimeStoreTime (uptime s) s in
  on_board (Board.writeLong addressUptime (uptime s)) s.

(** The top of [loop]: advance the uptime, read the air state and the
    air time back from the EEPROM, and derive [timeSinceAir]. *)
Definition readBack (m1 m2 : Z) (s : state) : state :=
  let s := updateLocalUptime m1 m2 s in
  let s := set_airStatus (Board.readByte (board s) addressAirStatus) s in
  let s := set_lastAir (Board.readLong (board s) addressAirTime) s in
  calculateTimeSinceAir s.

Definition airMachine (s : state) : state :=
  let s := if isAir s then continueAir s else s in
  if needAir s
  then (if negb (isAir s) then startAir s else s)
  else (if isAir s then stopAir s else s).

Definition checkpoint (s : state) : state :=
  if periodicUptimeSave s then storeUptime s else s.

(** "Indicate life": toggle the LED pin. *)
Definition indicateLife (s : state) : state :=
  on_board (fun b =>
    Board.digitalWrite PIN_LIFE (negb (Board.digitalRead b PIN_LIFE)) b) s.

Definition loop (m1 m2 : Z) (s : state) : state :=
  indicateLife (checkpoint (airMachine (readBack m1 m2 s))).

Fixpoint run (ticks : list (Z * Z)) (s : state) : state :=
  match ticks with
  | [] => s
  | (m1, m2) :: rest => run rest (loop m1 m2 s)
  end.

Fixpoint uptimes (ticks : list (Z * Z)) (s : state) : list Z :=
  match ticks with
  | [] => []
  | (m1, m2) :: rest =>
      uptime (loop m1 m2 s) :: uptimes rest (loop m1 m2 s)
  end.

(** An EEPROM image with the three cells filled in. *)
Definition snapshot (u st air : Z) : EEPROM.t :=
  EEPROM.writeLong
    (EEPROM.writeByte (EEPROM.writeLong EEPROM.blank addressUptime u)
       addressAirStatus st)
    addressAirTime air.

End Tek12.

(** ** Tick readings of a steady cadence *)

(** [n] cycles, [period] ms apart, the first reading at [first]; both
    readings of a cycle see the same tick. *)
Fixpoint cadence (n : nat) (first period : Z) : list (Z * Z) :=
  match n with
  | O => []
  | S k => (U32.wrap first, U32.wrap first) :: cadence k (first + period) period
  end.

(** Tick readings made from elapsed times.  [t] is the time of the last
    reading, in ms since reset and not wrapped; in each cycle [d] ms pass
    up to the first reading and [g] more up to the second; [millis()]
    returns the time wrapped to 32 bits. *)
Fixpoint readings (t : Z) (dgs : list (Z * Z)) : list (Z * Z) :=
  match dgs with
  | [] => []
  | (d, g) :: rest =>
      (U32.wrap (t + d), U32.wrap (t + d + g)) :: readings (t + d + g) rest
  end.

(** The sum of the per-cycle deltas [d]. *)
Fixpoint sum_deltas (dgs : list (Z * Z)) : Z :=
  match dgs with
  | [] => 0
  | (d, _) :: rest => d + sum_deltas rest
  end.

(** The deltas the advance step computes from raw tick readings, summed:
    each first reading minus the previous second reading, in 32 bits. *)
Fixpoint elapsed (prev : Z) (ticks : list (Z * Z)) : Z :=
  match ticks with
  | [] => 0
  | (m1, m2) :: rest => U32.sub m1 prev + elapsed (U32.wrap m2) rest
  end.

(** ** Observers used by the statements *)

(** The events a later trace has on top of an earlier one. *)
Definition events_since (old new : list event) : list event :=
  firstn (length new - length old) new.

Definition count_events (f : event -> bool) (evs : list event) : nat :=
  length (filter f evs).

Lemma events_since_app evs old : events_since old (evs ++ old) = evs.
Proof.
  unfold events_since. rewrite length_app.
  replace (length evs + length old - length old)%nat with (length evs) by lia.
  rewrite firstn_app, firstn_all, Nat.sub_diag. cbn. apply app_nil_r.
Qed.

Lemma events_since_refl old : events_since old old = [].
Proof. apply (events_since_app [] old). Qed.

(** Rewriting EEPROM reads through the writes before them.  The
    addresses are numerals by the time this runs. *)
Ltac ee_read :=
  repeat first
    [ rewrite EEPROM.readLong_updateLong
    | rewrite EEPROM.readByte_updateLong
    | rewrite EEPROM.readLong_writeLong_same
    | rewrite EEPROM.readLong_writeLong_other by lia
    | rewrite EEPROM.readByte_writeLong_other by lia
    | rewrite EEPROM.readLong_updateByte_other by lia
    | rewrite EEPROM.readByte_updateByte ].

Module Tek13Facts.
Import Tek13.

Definition stored_uptime (s : state) : Z := Board.readLong (board s) addressUptime.
Definition stored_status (s : state) : Z := Board.readByte (board s) addressAirStatus.
Definition stored_start (s : state) : Z := Board.readLong (board s) addressAirStart.
Definition stored_stop (s : state) : Z := Board.readLong (board s) addressAirStop.

Definition actuator (s : state) : bool := Board.port (board s) PIN_AIR.

Definition cycle_events (m1 m2 : Z) (s : state) : list event :=
  events_since (Board.trace (board s)) (Board.trace (board (loop m1 m2 s))).

(** The uptime a cycle works with, once [countTime] has run. *)
Definition advanced (m1 : Z) (s : state) : Z :=
  U32.add (uptime s) (U32.sub m1 (previousUptime s)).

(** Which way the air machine goes in a cycle. *)
Inductive branch : Type := Idle | Start | Continue | Stop.

Definition branch_of (r : state) : branch :=
  if airOn r
  then (if needAir r then Continue else Stop)
  else (if scheduledAir r then Start else Idle).

Definition branch_events (br : branch) (u : Z) : list event :=
  match br with
  | Idle => []
  | Start => [EepromWriteLong addressUptime u;
              EepromUpdateLong addressAirStart u;
              EepromUpdateByte addressAirStatus 1]
  | Continue => [DigitalWrite PIN_AIR true]
  | Stop => [DigitalWrite PIN_AIR false;
             EepromWriteLong addressUptime u;
             EepromUpdateLong addressAirStop u;
             EepromUpdateByte addressAirStatus 0]
  end.

Lemma layout13 :
  addressUptime = 0 /\ addressAirStatus = 4 /\
  addressAirStart = 5 /\ addressAirStop = 9.
Proof. repeat split. Qed.

Lemma interval13 : TO_MACHINE_TIME AIR_INTERVAL = 3600000.
Proof. reflexivity. Qed.

Lemma duration13 : TO_MACHINE_TIME AIR_DURATION = 120000.
Proof. reflexivity. Qed.

Lemma store_interval13 : TO_MACHINE_TIME UPTIME_STORE_INTERVAL = 60000.
Proof. reflexivity. Qed.

Ltac layout13 :=
  change addressUptime with 0 in *; change addressAirStatus with 4 in *;
  change addressAirStart with 5 in *; change addressAirStop with 9 in *.

(** Unfold the actions down to the EEPROM calls. *)
Ltac open13 :=
  cbv [setAirOn setAirOff storeUptime deviceSetOn deviceSetOff on_board
       set_uptimeStoreTime];
  cbn [board uptime uptimeStoreTime Board.eeprom Board.port Board.trace
       Board.writeLong Board.updateLong Board.updateByte Board.digitalWrite].

(** *** The top of the loop *)

Lemma readBack_uptime13 m1 m2 s : uptime (readBack m1 m2 s) = advanced m1 s.
Proof. reflexivity. Qed.

Lemma readBack_board13 m1 m2 s : board (readBack m1 m2 s) = board s.
Proof. reflexivity. Qed.

Lemma readBack_storeTime13 m1 m2 s :
  uptimeStoreTime (readBack m1 m2 s) = uptimeStoreTime s.
Proof. reflexivity. Qed.

Lemma readBack_previous13 m1 m2 s :
  previousUptime (readBack m1 m2 s) = U32.wrap m2.
Proof. reflexivity. Qed.

Lemma readBack_airStatus13 m1 m2 s :
  airStatus (readBack m1 m2 s) = stored_status s.
Proof. reflexivity. Qed.

Lemma readBack_airStart13 m1 m2 s :
  airStart (readBack m1 m2 s) = stored_start s.
Proof. reflexivity. Qed.

Lemma readBack_airStop13 m1 m2 s :
  airStop (readBack m1 m2 s) = stored_stop s.
Proof. reflexivity. Qed.

Lemma advanced_range13 m1 s : U32.in_range (advanced m1 s).
Proof. apply U32.add_range. Qed.

(** *** The air machine, branch by branch *)

Lemma airMachine_branch13 r :
  airMachine r =
  match branch_of r with
  | Idle => r
  | Start => setAirOn r
  | Continue => deviceSetOn r
  | Stop => deviceSetOff (setAirOff r)
  end.
Proof.
  unfold airMachine, branch_of.
  destruct (airOn r) eqn:On; cbn [negb].
  - rewrite On. destruct (needAir r); reflexivity.
  - destruct (scheduledAir r).
    + change (airOn (setAirOn r)) with (airOn r). rewrite On. reflexivity.
    + rewrite On. reflexivity.
Qed.

Lemma airMachine_uptime13 r : uptime (airMachine r) = uptime r.
Proof. rewrite airMachine_branch13. destruct (branch_of r); reflexivity. Qed.

Lemma airMachine_previous13 r : previousUptime (airMachine r) = previousUptime r.
Proof. rewrite airMachine_branch13. destruct (branch_of r); reflexivity. Qed.

Lemma airMachine_storeTime13 r :
  uptimeStoreTime (airMachine r) =
  match branch_of r with
  | Start | Stop => uptime r
  | Idle | Continue => uptimeStoreTime r
  end.
Proof. rewrite airMachine_branch13. destruct (branch_of r); reflexivity. Qed.

Lemma airMachine_trace13 r :
  Board.trace (board (airMachine r)) =
  branch_events (branch_of r) (U32.wrap (uptime r)) ++ Board.trace (board r).
Proof. rewrite airMachine_branch13. destruct (branch_of r); reflexivity. Qed.

Lemma airMachine_actuator13 r :
  actuator (airMachine r) =
  match branch_of r with
  | Idle | Start => actuator r
  | Continue => true
  | Stop => false
  end.
Proof. rewrite airMachine_branch13. destruct (branch_of r); reflexivity. Qed.

Lemma airMachine_stored_status13 r :
  stored_status (airMachine r) =
  match branch_of r with
  | Idle | Continue => stored_status r
  | Start => 1
  | Stop => 0
  end.
Proof.
  rewrite airMachine_branch13. unfold stored_status, Board.readByte.
  destruct (branch_of r); try reflexivity;
    open13; layout13; ee_read; reflexivity.
Qed.

Lemma airMachine_stored_start13 r :
  stored_start (airMachine r) =
  match branch_of r with
  | Start => U32.wrap (uptime r)
  | Idle | Continue | Stop => stored_start r
  end.
Proof.
  rewrite airMachine_branch13. unfold stored_start, Board.readLong.
  destruct (branch_of r); try reflexivity;
    open13; layout13; ee_read; reflexivity.
Qed.

Lemma airMachine_stored_stop13 r :
  stored_stop (airMachine r) =
  match branch_of r with
  | Stop => U32.wrap (uptime r)
  | Idle | Continue | Start => stored_stop r
  end.
Proof.
  rewrite airMachine_branch13. unfold stored_stop, Board.readLong.
  destruct (branch_of r); try reflexivity;
    open13; layout13; ee_read; reflexivity.
Qed.

Lemma airMachine_stored_uptime13 r :
  stored_uptime (airMachine r) =
  match branch_of r with
  | Start | Stop => U32.wrap (uptime r)
  | Idle | Continue => stored_uptime r
  end.
Proof.
  rewrite airMachine_branch13. unfold stored_uptime, Board.readLong.
  destruct (branch_of r); try reflexivity;
    open13; layout13; ee_read; reflexivity.
Qed.

(** *** The periodic checkpoint *)

Definition checkpoint_events (due : bool) (u : Z) : list event :=
  if due then [EepromWriteLong addressUptime u] else [].

Lemma checkpoint_uptime13 r : uptime (checkpoint r) = uptime r.
Proof. unfold checkpoint. destruct (periodicUptimeSave r); reflexivity. Qed.

Lemma checkpoint_previous13 r : previousUptime (checkpoint r) = previousUptime r.
Proof. unfold checkpoint. destruct (periodicUptimeSave r); reflexivity. Qed.

Lemma checkpoint_storeTime13 r :
  uptimeStoreTime (checkpoint r) =
  if periodicUptimeSave r then uptime r else uptimeStoreTime r.
Proof. unfold checkpoint. destruct (periodicUptimeSave r); reflexivity. Qed.

Lemma checkpoint_trace13 r :
  Board.trace (board (checkpoint r)) =
  checkpoint_events (periodicUptimeSave r) (U32.wrap (uptime r))
  ++ Board.trace (board r).
Proof. unfold checkpoint. destruct (periodicUptimeSave r); reflexivity. Qed.

Lemma checkpoint_actuator13 r : actuator (checkpoint r) = actuator r.
Proof. unfold checkpoint. destruct (periodicUptimeSave r); reflexivity. Qed.

Lemma checkpoint_stored_status13 r :
  stored_status (checkpoint r) = stored_status r.
Proof.
  unfold checkpoint, stored_status, Board.readByte.
  destruct (periodicUptimeSave r); [|reflexivity].
  open13; layout13; ee_read; reflexivity.
Qed.

Lemma checkpoint_stored_start13 r :
  stored_start (checkpoint r) = stored_start r.
Proof.
  unfold checkpoint, stored_start, Board.readLong.
  destruct (periodicUptimeSave r); [|reflexivity].
  open13; layout13; ee_read; reflexivity.
Qed.

Lemma checkpoint_stored_stop13 r :
  stored_stop (checkpoint r) = stored_stop r.
Proof.
  unfold checkpoint, stored_stop, Board.readLong.
  destruct (periodicUptimeSave r); [|reflexivity].
  open13; layout13; ee_read; reflexivity.
Qed.

Lemma checkpoint_stored_uptime13 r :
  stored_uptime (checkpoint r) =
  if periodicUptimeSave r then U32.wrap (uptime r) else stored_uptime r.
Proof.
  unfold checkpoint, stored_uptime, Board.readLong.
  destruct (periodicUptimeSave r); [|reflexivity].
  open13; layout13; ee_read; reflexivity.
Qed.

(** *** One cycle *)

(** The branch a cycle takes, read off the state it starts from. *)
Lemma branch_readBack13 m1 m2 s :
  branch_of (readBack m1 m2 s) =
  if stored_status s =? 1
  then (if U32.sub (advanced m1 s) (stored_start s) <? 120000
        then Continue else Stop)
  else (if U32.sub (advanced m1 s) (stored_stop s) >? 3600000
        then Start else Idle).
Proof. reflexivity. Qed.

Lemma loop_uptime13 m1 m2 s : uptime (loop m1 m2 s) = advanced m1 s.
Proof.
  unfold loop. rewrite checkpoint_uptime13, airMachine_uptime13. reflexivity.
Qed.

Lemma loop_previous13 m1 m2 s : previousUptime (loop m1 m2 s) = U32.wrap m2.
Proof.
  unfold loop. rewrite checkpoint_previous13, airMachine_previous13.
  reflexivity.
Qed.

Lemma loop_stored_status13 m1 m2 s :
  stored_status (loop m1 m2 s) =
  match branch_of (readBack m1 m2 s) with
  | Idle | Continue => stored_status s
  | Start => 1
  | Stop => 0
  end.
Proof.
  unfold loop. rewrite checkpoint_stored_status13, airMachine_stored_status13.
  reflexivity.
Qed.

Lemma loop_stored_start13 m1 m2 s :
  stored_start (loop m1 m2 s) =
  match branch_of (readBack m1 m2 s) with
  | Start => advanced m1 s
  | Idle | Continue | Stop => stored_start s
  end.
Proof.
  unfold loop. rewrite checkpoint_stored_start13, airMachine_stored_start13.
  rewrite readBack_uptime13, (U32.wrap_small _ (advanced_range13 m1 s)).
  reflexivity.
Qed.

Lemma loop_stored_stop13 m1 m2 s :
  stored_stop (loop m1 m2 s) =
  match branch_of (readBack m1 m2 s) with
  | Stop => advanced m1 s
  | Idle | Continue | Start => stored_stop s
  end.
Proof.
  unfold loop. rewrite checkpoint_stored_stop13, airMachine_stored_stop13.
  rewrite readBack_uptime13, (U32.wrap_small _ (advanced_range13 m1 s)).
  reflexivity.
Qed.

Lemma loop_actuator13 m1 m2 s :
  actuator (loop m1 m2 s) =
  match branch_of (readBack m1 m2 s) with
  | Idle | Start => actuator s
  | Continue => true
  | Stop => false
  end.
Proof.
  unfold loop. rewrite checkpoint_actuator13, airMachine_actuator13.
  reflexivity.
Qed.

Lemma loop_trace13 m1 m2 s :
  Board.trace (board (loop m1 m2 s)) =
  (checkpoint_events (periodicUptimeSave (airMachine (readBack m1 m2 s)))
     (advanced m1 s)
   ++ branch_events (branch_of (readBack m1 m2 s)) (advanced m1 s))
  ++ Board.trace (board s).
Proof.
  unfold loop. rewrite checkpoint_trace13, airMachine_trace13.
  rewrite airMachine_uptime13, readBack_uptime13, readBack_board13.
  rewrite (U32.wrap_small _ (advanced_range13 m1 s)).
  apply app_assoc.
Qed.

Lemma cycle_events13 m1 m2 s :
  cycle_events m1 m2 s =
  checkpoint_events (periodicUptimeSave (airMachine (readBack m1 m2 s)))
    (advanced m1 s)
  ++ branch_events (branch_of (readBack m1 m2 s)) (advanced m1 s).
Proof.
  unfold cycle_events. rewrite loop_trace13. apply events_since_app.
Qed.

(** A cycle that changes the air state leaves the uptime checkpointed,
    whether or not the periodic write fires after it. *)
Lemma loop_checkpointed13 m1 m2 s :
  match branch_of (readBack m1 m2 s) with
  | Start | Stop =>
      stored_uptime (loop m1 m2 s) = advanced m1 s /\
      uptimeStoreTime (loop m1 m2 s) = advanced m1 s
  | Idle | Continue => True
  end.
Proof.
  unfold loop.
  rewrite checkpoint_stored_uptime13, checkpoint_storeTime13.
  rewrite airMachine_stored_uptime13, airMachine_storeTime13.
  rewrite airMachine_uptime13, readBack_uptime13.
  rewrite (U32.wrap_small _ (advanced_range13 m1 s)).
  destruct (branch_of (readBack m1 m2 s)); try exact I;
    destruct (periodicUptimeSave _); split; reflexivity.
Qed.

(** *** While the air is on *)

(** Events that leave the air on: no write to the state byte, no low
    level on the actuator line. *)
Definition keeps_on (ev : event) : Prop :=
  is_write_to addressAirStatus ev = false /\ ev <> DigitalWrite PIN_AIR false.

Lemma continue13 m1 m2 s :
  stored_status s = 1 ->
  stored_start s <= advanced m1 s < stored_start s + 120000 ->
  branch_of (readBack m1 m2 s) = Continue.
Proof.
  intros On W. rewrite branch_readBack13, On. cbn [Z.eqb Pos.eqb].
  rewrite U32.sub_small by (unfold U32.modulus; lia).
  destruct (Z.ltb_spec (advanced m1 s - stored_start s) 120000);
    [reflexivity | lia].
Qed.

Lemma stop13 m1 m2 s :
  stored_status s = 1 ->
  stored_start s + 120000 <= advanced m1 s ->
  branch_of (readBack m1 m2 s) = Stop.
Proof.
  intros On W. rewrite branch_readBack13, On. cbn [Z.eqb Pos.eqb].
  pose proof (advanced_range13 m1 s) as Ru.
  pose proof (EEPROM.readLong_range (Board.eeprom (board s)) addressAirStart)
    as Rt.
  fold (Board.readLong (board s) addressAirStart) in Rt.
  fold (stored_start s) in Rt.
  unfold U32.in_range in Ru, Rt.
  rewrite U32.sub_small by lia.
  destruct (Z.ltb_spec (advanced m1 s - stored_start s) 120000);
    [lia | reflexivity].
Qed.

Lemma continue_events13 due u :
  Forall keeps_on (checkpoint_events due u ++ branch_events Continue u).
Proof.
  destruct due; cbn; repeat constructor; discriminate.
Qed.

Lemma stays_on13 ticks : forall s,
  stored_status s = 1 ->
  Forall (fun u => stored_start s <= u < stored_start s + 120000)
         (uptimes ticks s) ->
  stored_status (run ticks s) = 1 /\
  stored_start (run ticks s) = stored_start s /\
  (ticks <> [] -> actuator (run ticks s) = true) /\
  exists evs,
    Board.trace (board (run ticks s)) = evs ++ Board.trace (board s) /\
    Forall keeps_on evs.
Proof.
  induction ticks as [|[m1 m2] rest IH]; intros s On W.
  - cbn [run]. split; [exact On|]. split; [reflexivity|].
    split; [congruence|].
    exists []. split; [reflexivity | constructor].
  - cbn [run uptimes] in W |- *.
    apply Forall_cons_iff in W. destruct W as [Wu Wrest].
    rewrite loop_uptime13 in Wu.
    pose proof (continue13 m1 m2 s On Wu) as Br.
    assert (On' : stored_status (loop m1 m2 s) = 1)
      by (rewrite loop_stored_status13, Br; exact On).
    assert (St' : stored_start (loop m1 m2 s) = stored_start s)
      by (rewrite loop_stored_start13, Br; reflexivity).
    rewrite <- St' in Wrest.
    destruct (IH (loop m1 m2 s) On' Wrest) as (A & B & C & evs & D & E).
    split; [exact A|]. split; [congruence|]. split.
    + intros _. destruct rest as [|t rest'].
      * cbn [run]. rewrite loop_actuator13, Br. reflexivity.
      * apply C. discriminate.
    + exists (evs ++ checkpoint_events
                       (periodicUptimeSave (airMachine (readBack m1 m2 s)))
                       (advanced m1 s)
                   ++ branch_events Continue (advanced m1 s)).
      split.
      * rewrite D, loop_trace13, Br, <- !app_assoc. reflexivity.
      * apply Forall_app. split; [exact E | apply continue_events13].
Qed.

End Tek13Facts.

Module Tek12Facts.
Import Tek12.

Definition stored_uptime (s : state) : Z := Board.readLong (board s) addressUptime.
Definition stored_status (s : state) : Z := Board.readByte (board s) addressAirStatus.
Definition stored_airTime (s : state) : Z := Board.readLong (board s) addressAirTime.

Definition actuator (s : state) : bool := Board.port (board s) PIN_AIR.

Definition cycle_events (m1 m2 : Z) (s : state) : list event :=
  events_since (Board.trace (board s)) (Board.trace (board (loop m1 m2 s))).

Definition advanced (m1 : Z) (s : state) : Z :=
  U32.add (uptime s) (U32.sub m1 (previousUptime s)).

Inductive branch : Type := Idle | Start | Continue | Stop.

Definition branch_of (r : state) : branch :=
  if needAir r
  then (if isAir r then Continue else Start)
  else (if isAir r then Stop else Idle).

Definition branch_events (br : branch) (u : Z) : list event :=
  match br with
  | Idle | Continue => []
  | Start => [DigitalWrite PIN_AIR true;
              EepromUpdateByte addressAirStatus 1]
  | Stop => [DigitalWrite PIN_AIR false;
             EepromUpdateByte addressAirStatus 0;
             EepromUpdateLong addressAirTime u]
  end.

Definition checkpoint_events (due : bool) (u : Z) : list event :=
  if due then [EepromWriteLong addressUptime u] else [].

Lemma layout12 :
  addressUptime = 0 /\ addressAirStatus = 4 /\ addressAirTime = 5.
Proof. repeat split. Qed.

Lemma interval12 : TO_MACHINE_UPTIME AIR_INTERVAL = 3600000.
Proof. reflexivity. Qed.

Lemma duration12 : TO_MACHINE_UPTIME AIR_DURATION = 120000.
Proof. reflexivity. Qed.

Lemma store_interval12 : TO_MACHINE_UPTIME UPTIME_STORE_INTERVAL = 60000.
Proof. reflexivity. Qed.

Ltac layout12 :=
  change addressUptime with 0 in *; change addressAirStatus with 4 in *;
  change addressAirTime with 5 in *.

Ltac open12 :=
  cbv [startAir stopAir storeUptime indicateLife on_board set_airStart
       set_uptimeStoreTime];
  cbn [board uptime uptimeStoreTime airStart Board.eeprom Board.port
       Board.trace Board.writeLong Board.updateLong Board.updateByte
       Board.digitalWrite].

(** *** The top of the loop *)

Lemma readBack_uptime12 m1 m2 s : uptime (readBack m1 m2 s) = advanced m1 s.
Proof. reflexivity. Qed.

Lemma readBack_board12 m1 m2 s : board (readBack m1 m2 s) = board s.
Proof. reflexivity. Qed.

Lemma readBack_airStart12 m1 m2 s : airStart (readBack m1 m2 s) = airStart s.
Proof. reflexivity. Qed.

Lemma readBack_airStatus12 m1 m2 s :
  airStatus (readBack m1 m2 s) = stored_status s.
Proof. reflexivity. Qed.

Lemma readBack_lastAir12 m1 m2 s :
  lastAir (readBack m1 m2 s) = stored_airTime s.
Proof. reflexivity. Qed.

Lemma readBack_timeSinceAir12 m1 m2 s :
  timeSinceAir (readBack m1 m2 s) = U32.sub (advanced m1 s) (stored_airTime s).
Proof. reflexivity. Qed.

Lemma advanced_range12 m1 s : U32.in_range (advanced m1 s).
Proof. apply U32.add_range. Qed.

(** *** The air machine, branch by branch *)

Lemma airMachine_branch12 r :
  airMachine r =
  match branch_of r with
  | Idle | Continue => r
  | Start => startAir r
  | Stop => stopAir r
  end.
Proof.
  unfold airMachine, branch_of, continueAir.
  replace (if isAir r then r else r) with r by (destruct (isAir r); reflexivity).
  destruct (needAir r), (isAir r); reflexivity.
Qed.

Lemma airMachine_uptime12 r : uptime (airMachine r) = uptime r.
Proof. rewrite airMachine_branch12. destruct (branch_of r); reflexivity. Qed.

Lemma airMachine_previous12 r : previousUptime (airMachine r) = previousUptime r.
Proof. rewrite airMachine_branch12. destruct (branch_of r); reflexivity. Qed.

Lemma airMachine_storeTime12 r :
  uptimeStoreTime (airMachine r) = uptimeStoreTime r.
Proof. rewrite airMachine_branch12. destruct (branch_of r); reflexivity. Qed.

Lemma airMachine_airStart12 r :
  airStart (airMachine r) =
  match branch_of r with
  | Start => uptime r
  | Idle | Continue | Stop => airStart r
  end.
Proof. rewrite airMachine_branch12. destruct (branch_of r); reflexivity. Qed.

Lemma airMachine_trace12 r :
  Board.trace (board (airMachine r)) =
  branch_events (branch_of r) (U32.wrap (uptime r)) ++ Board.trace (board r).
Proof. rewrite airMachine_branch12. destruct (branch_of r); reflexivity. Qed.

Lemma airMachine_actuator12 r :
  actuator (airMachine r) =
  match branch_of r with
  | Idle | Continue => actuator r
  | Start => true
  | Stop => false
  end.
Proof. rewrite airMachine_branch12. destruct (branch_of r); reflexivity. Qed.

Lemma airMachine_stored_status12 r :
  stored_status (airMachine r) =
  match branch_of r with
  | Idle | Continue => stored_status r
  | Start => 1
  | Stop => 0
  end.
Proof.
  rewrite airMachine_branch12. unfold stored_status, Board.readByte.
  destruct (branch_of r); try reflexivity;
    open12; layout12; ee_read; reflexivity.
Qed.

Lemma airMachine_stored_airTime12 r :
  stored_airTime (airMachine r) =
  match branch_of r with
  | Stop => U32.wrap (uptime r)
  | Idle | Continue | Start => stored_airTime r
  end.
Proof.
  rewrite airMachine_branch12. unfold stored_airTime, Board.readLong.
  destruct (branch_of r); try reflexivity;
    open12; layout12; ee_read; reflexivity.
Qed.

Lemma airMachine_stored_uptime12 r :
  stored_uptime (airMachine r) = stored_uptime r.
Proof.
  rewrite airMachine_branch12. unfold stored_uptime, Board.readLong.
  destruct (branch_of r); try reflexivity;
    open12; layout12; ee_read; reflexivity.
Qed.

(** *** The periodic checkpoint *)

Lemma checkpoint_uptime12 r : uptime (checkpoint r) = uptime r.
Proof. unfold checkpoint. destruct (periodicUptimeSave r); reflexivity. Qed.

Lemma checkpoint_previous12 r : previousUptime (checkpoint r) = previousUptime r.
Proof. unfold checkpoint. destruct (periodicUptimeSave r); reflexivity. Qed.

Lemma checkpoint_airStart12 r : airStart (checkpoint r) = airStart r.
Proof. unfold checkpoint. destruct (periodicUptimeSave r); reflexivity. Qed.

Lemma checkpoint_storeTime12 r :
  uptimeStoreTime (checkpoint r) =
  if periodicUptimeSave r then uptime r else uptimeStoreTime r.
Proof. unfold checkpoint. destruct (periodicUptimeSave r); reflexivity. Qed.

Lemma checkpoint_trace12 r :
  Board.trace (board (checkpoint r)) =
  checkpoint_events (periodicUptimeSave r) (U32.wrap (uptime r))
  ++ Board.trace (board r).
Proof. unfold checkpoint. destruct (periodicUptimeSave r); reflexivity. Qed.

Lemma checkpoint_actuator12 r : actuator (checkpoint r) = actuator r.
Proof. unfold checkpoint. destruct (periodicUptimeSave r); reflexivity. Qed.

Lemma checkpoint_stored_status12 r :
  stored_status (checkpoint r) = stored_status r.
Proof.
  unfold checkpoint, stored_status, Board.readByte.
  destruct (periodicUptimeSave r); [|reflexivity].
  open12; layout12; ee_read; reflexivity.
Qed.

Lemma checkpoint_stored_airTime12 r :
  stored_airTime (checkpoint r) = stored_airTime r.
Proof.
  unfold checkpoint, stored_airTime, Board.readLong.
  destruct (periodicUptimeSave r); [|reflexivity].
  open12; layout12; ee_read; reflexivity.
Qed.

Lemma checkpoint_stored_uptime12 r :
  stored_uptime (checkpoint r) =
  if periodicUptimeSave r then U32.wrap (uptime r) else stored_uptime r.
Proof.
  unfold checkpoint, stored_uptime, Board.readLong.
  destruct (periodicUptimeSave r); [|reflexivity].
  open12; layout12; ee_read; reflexivity.
Qed.

(** *** The life LED *)

Lemma indicateLife_uptime12 r : uptime (indicateLife r) = uptime r.
Proof. reflexivity. Qed.

Lemma indicateLife_previous12 r : previousUptime (indicateLife r) = previousUptime r.
Proof. reflexivity. Qed.

Lemma indicateLife_airStart12 r : airStart (indicateLife r) = airStart r.
Proof. reflexivity. Qed.

Lemma indicateLife_storeTime12 r :
  uptimeStoreTime (indicateLife r) = uptimeStoreTime r.
Proof. reflexivity. Qed.

Lemma indicateLife_stored_status12 r :
  stored_status (indicateLife r) = stored_status r.
Proof. reflexivity. Qed.

Lemma indicateLife_stored_airTime12 r :
  stored_airTime (indicateLife r) = stored_airTime r.
Proof. reflexivity. Qed.

Lemma indicateLife_stored_uptime12 r :
  stored_uptime (indicateLife r) = stored_uptime r.
Proof. reflexivity. Qed.

Lemma indicateLife_actuator12 r : actuator (indicateLife r) = actuator r.
Proof. reflexivity. Qed.

Lemma indicateLife_trace12 r :
  Board.trace (board (indicateLife r)) =
  DigitalWrite PIN_LIFE (negb (Board.digitalRead (board r) PIN_LIFE))
  :: Board.trace (board r).
Proof. reflexivity. Qed.

(** *** One cycle *)

Lemma branch_readBack12 m1 m2 s :
  branch_of (readBack m1 m2 s) =
  if stored_status s =? 1
  then (if U32.sub (advanced m1 s) (airStart s) <? 120000
        then Continue else Stop)
  else (if U32.sub (advanced m1 s) (stored_airTime s) >? 3600000
        then Start else Idle).
Proof.
  unfold branch_of, needAir, isAir.
  rewrite readBack_airStatus12, readBack_uptime12, readBack_airStart12.
  rewrite readBack_timeSinceAir12.
  change (TO_MACHINE_UPTIME AIR_DURATION) with 120000.
  change (TO_MACHINE_UPTIME AIR_INTERVAL) with 3600000.
  destruct (stored_status s =? 1); reflexivity.
Qed.

Lemma loop_uptime12 m1 m2 s : uptime (loop m1 m2 s) = advanced m1 s.
Proof.
  unfold loop. rewrite indicateLife_uptime12.
  rewrite checkpoint_uptime12, airMachine_uptime12. reflexivity.
Qed.

Lemma loop_previous12 m1 m2 s : previousUptime (loop m1 m2 s) = U32.wrap m2.
Proof.
  unfold loop. rewrite indicateLife_previous12.
  rewrite checkpoint_previous12, airMachine_previous12. reflexivity.
Qed.

Lemma loop_airStart12 m1 m2 s :
  airStart (loop m1 m2 s) =
  match branch_of (readBack m1 m2 s) with
  | Start => advanced m1 s
  | Idle | Continue | Stop => airStart s
  end.
Proof.
  unfold loop. rewrite indicateLife_airStart12.
  rewrite checkpoint_airStart12, airMachine_airStart12. reflexivity.
Qed.

Lemma loop_storeTime12 m1 m2 s :
  uptimeStoreTime (loop m1 m2 s) =
  if periodicUptimeSave (airMachine (readBack m1 m2 s))
  then advanced m1 s else uptimeStoreTime s.
Proof.
  unfold loop.
  rewrite indicateLife_storeTime12.
  rewrite checkpoint_storeTime12, airMachine_storeTime12, airMachine_uptime12.
  reflexivity.
Qed.

Lemma loop_stored_status12 m1 m2 s :
  stored_status (loop m1 m2 s) =
  match branch_of (readBack m1 m2 s) with
  | Idle | Continue => stored_status s
  | Start => 1
  | Stop => 0
  end.
Proof.
  unfold loop. rewrite indicateLife_stored_status12.
  rewrite checkpoint_stored_status12, airMachine_stored_status12.
  reflexivity.
Qed.

Lemma loop_stored_airTime12 m1 m2 s :
  stored_airTime (loop m1 m2 s) =
  match branch_of (readBack m1 m2 s) with
  | Stop => advanced m1 s
  | Idle | Continue | Start => stored_airTime s
  end.
Proof.
  unfold loop. rewrite indicateLife_stored_airTime12.
  rewrite checkpoint_stored_airTime12, airMachine_stored_airTime12.
  rewrite readBack_uptime12, (U32.wrap_small _ (advanced_range12 m1 s)).
  reflexivity.
Qed.

Lemma loop_stored_uptime12 m1 m2 s :
  stored_uptime (loop m1 m2 s) =
  if periodicUptimeSave (airMachine (readBack m1 m2 s))
  then advanced m1 s else stored_uptime s.
Proof.
  unfold loop. rewrite indicateLife_stored_uptime12.
  rewrite checkpoint_stored_uptime12, airMachine_stored_uptime12.
  rewrite airMachine_uptime12, readBack_uptime12.
  rewrite (U32.wrap_small _ (advanced_range12 m1 s)).
  reflexivity.
Qed.

Lemma loop_actuator12 m1 m2 s :
  actuator (loop m1 m2 s) =
  match branch_of (readBack m1 m2 s) with
  | Idle | Continue => actuator s
  | Start => true
  | Stop => false
  end.
Proof.
  unfold loop. rewrite indicateLife_actuator12.
  rewrite checkpoint_actuator12, airMachine_actuator12.
  reflexivity.
Qed.

Lemma loop_trace12 m1 m2 s :
  exists level,
  Board.trace (board (loop m1 m2 s)) =
  (DigitalWrite PIN_LIFE level
   :: checkpoint_events (periodicUptimeSave (airMachine (readBack m1 m2 s)))
        (advanced m1 s)
   ++ branch_events (branch_of (readBack m1 m2 s)) (advanced m1 s))
  ++ Board.trace (board s).
Proof.
  unfold loop.
  eexists.
  rewrite indicateLife_trace12.
  rewrite checkpoint_trace12, airMachine_trace12.
  rewrite airMachine_uptime12, readBack_uptime12, readBack_board12.
  rewrite (U32.wrap_small _ (advanced_range12 m1 s)).
  cbn [app]. rewrite app_assoc. reflexivity.
Qed.

Lemma cycle_events12 m1 m2 s :
  exists level,
  cycle_events m1 m2 s =
  DigitalWrite PIN_LIFE level
  :: checkpoint_events (periodicUptimeSave (airMachine (readBack m1 m2 s)))
       (advanced m1 s)
  ++ branch_events (branch_of (readBack m1 m2 s)) (advanced m1 s).
Proof.
  destruct (loop_trace12 m1 m2 s) as [level H].
  exists level. unfold cycle_events. rewrite H. apply events_since_app.
Qed.

(** *** While the air is on *)

Definition keeps_on (ev : event) : Prop :=
  is_write_to addressAirStatus ev = false /\ ev <> DigitalWrite PIN_AIR false.

Lemma continue12 m1 m2 s :
  stored_status s = 1 ->
  airStart s <= advanced m1 s < airStart s + 120000 ->
  branch_of (readBack m1 m2 s) = Continue.
Proof.
  intros On W. rewrite branch_readBack12, On. cbn [Z.eqb Pos.eqb].
  rewrite U32.sub_small by (unfold U32.modulus; lia).
  destruct (Z.ltb_spec (advanced m1 s - airStart s) 120000);
    [reflexivity | lia].
Qed.

Lemma stop12 m1 m2 s :
  stored_status s = 1 ->
  0 <= airStart s ->
  airStart s + 120000 <= advanced m1 s ->
  branch_of (readBack m1 m2 s) = Stop.
Proof.
  intros On Rt W. rewrite branch_readBack12, On. cbn [Z.eqb Pos.eqb].
  pose proof (advanced_range12 m1 s) as Ru. unfold U32.in_range in Ru.
  rewrite U32.sub_small by lia.
  destruct (Z.ltb_spec (advanced m1 s - airStart s) 120000);
    [lia | reflexivity].
Qed.

Lemma continue_events12 level due u :
  Forall keeps_on
    (DigitalWrite PIN_LIFE level
     :: checkpoint_events due u ++ branch_events Continue u).
Proof.
  destruct due; cbn; repeat constructor; discriminate.
Qed.

Lemma stays_on12 ticks : forall s,
  stored_status s = 1 ->
  Forall (fun u => airStart s <= u < airStart s + 120000) (uptimes ticks s) ->
  stored_status (run ticks s) = 1 /\
  airStart (run ticks s) = airStart s /\
  actuator (run ticks s) = actuator s /\
  exists evs,
    Board.trace (board (run ticks s)) = evs ++ Board.trace (board s) /\
    Forall keeps_on evs.
Proof.
  induction ticks as [|[m1 m2] rest IH]; intros s On W.
  - cbn [run]. split; [exact On|]. split; [reflexivity|].
    split; [reflexivity|].
    exists []. split; [reflexivity | constructor].
  - cbn [run uptimes] in W |- *.
    apply Forall_cons_iff in W. destruct W as [Wu Wrest].
    rewrite loop_uptime12 in Wu.
    pose proof (continue12 m1 m2 s On Wu) as Br.
    assert (On' : stored_status (loop m1 m2 s) = 1)
      by (rewrite loop_stored_status12, Br; exact On).
    assert (St' : airStart (loop m1 m2 s) = airStart s)
      by (rewrite loop_airStart12, Br; reflexivity).
    assert (Ac' : actuator (loop m1 m2 s) = actuator s)
      by (rewrite loop_actuator12, Br; reflexivity).
    rewrite <- St' in Wrest.
    destruct (IH (loop m1 m2 s) On' Wrest) as (A & B & C & evs & D & E).
    destruct (loop_trace12 m1 m2 s) as [level T]. rewrite Br in T.
    split; [exact A|]. split; [congruence|]. split; [congruence|].
    eexists. split.
    + rewrite D, T, app_assoc. reflexivity.
    + apply Forall_app. split; [exact E | apply continue_events12].
Qed.

End Tek12Facts.

(** * The claims *)

(** ** At most one transition per cycle *)

(** C10.  In every control cycle, from any state, at most one air-state
    transition occurs: the cycle writes the durable air-state byte at most
    once, and a cycle that takes the OFF -> ON branch (writes 1 there)
    neither writes 0 there nor drives the actuator line low; in the
    dual-timestamp sketch it does not enter the ON block at all, so it
    does not touch the actuator line.  Both sketches. *)
Theorem C10_one_transition_per_cycle :
  forall m1 m2 : Z,
    (forall s : Tek13.state,
        let evs := Tek13Facts.cycle_events m1 m2 s in
        (count_events (is_write_to Tek13.addressAirStatus) evs <= 1)%nat /\
        (In (EepromUpdateByte Tek13.addressAirStatus 1) evs ->
         ~ In (EepromUpdateByte Tek13.addressAirStatus 0) evs /\
         ~ In (DigitalWrite PIN_AIR false) evs /\
         count_events (is_digitalWrite PIN_AIR) evs = 0%nat)) /\
    (forall s : Tek12.state,
        let evs := Tek12Facts.cycle_events m1 m2 s in
        (count_events (is_write_to Tek12.addressAirStatus) evs <= 1)%nat /\
        (In (EepromUpdateByte Tek12.addressAirStatus 1) evs ->
         ~ In (EepromUpdateByte Tek12.addressAirStatus 0) evs /\
         ~ In (DigitalWrite PIN_AIR false) evs)).
Proof.
  intros m1 m2. split; intros s evs; subst evs.
  - rewrite Tek13Facts.cycle_events13.
    destruct (Tek13Facts.branch_of _),
             (Tek13.periodicUptimeSave _);
      cbn; (split; [lia|]); intros H;
      repeat (destruct H as [H|H]; try discriminate H);
      try contradiction;
      (split; [|split; [|reflexivity]]); intros K;
      repeat (destruct K as [K|K]; try discriminate K); contradiction.
  - destruct (Tek12Facts.cycle_events12 m1 m2 s) as [level ->].
    destruct (Tek12Facts.branch_of _),
             (Tek12.periodicUptimeSave _);
      cbn; (split; [lia|]); intros H;
      repeat (destruct H as [H|H]; try discriminate H);
      try contradiction;
      split; intros K;
      repeat (destruct K as [K|K]; try discriminate K); contradiction.
Qed.

(** ** How long the air stays on *)

(** C7.  A machine that is ON with start timestamp [t0] stays ON through
    every cycle whose uptime lies in [t0, t0 + AIR_DURATION_MS): the
    state byte stays 1, the start timestamp stays [t0], no event writes
    the state byte or drives the actuator line low.  At the first cycle
    after them whose uptime reaches [t0 + AIR_DURATION_MS] it goes OFF:
    the state byte becomes 0, the stop timestamp is that cycle's uptime
    and the actuator line is driven low.  In the dual-timestamp sketch
    [t0] is the stored start timestamp; in the single-timestamp sketch
    it is the variable [airStart] that [needAir] compares with. *)
Theorem C7_air_stays_on_for_duration :
  (forall (s : Tek13.state) (ticks : list (Z * Z)) (m1 m2 : Z),
      Tek13Facts.stored_status s = 1 ->
      Forall (fun u =>
                Tek13Facts.stored_start s <= u
                < Tek13Facts.stored_start s
                  + Tek13.TO_MACHINE_TIME Tek13.AIR_DURATION)
             (Tek13.uptimes ticks s) ->
      (Tek13Facts.stored_status (Tek13.run ticks s) = 1 /\
       Tek13Facts.stored_start (Tek13.run ticks s) = Tek13Facts.stored_start s /\
       (ticks <> [] -> Tek13Facts.actuator (Tek13.run ticks s) = true) /\
       Forall Tek13Facts.keeps_on
         (events_since (Board.trace (Tek13.board s))
                       (Board.trace (Tek13.board (Tek13.run ticks s))))) /\
      (Tek13Facts.stored_start s + Tek13.TO_MACHINE_TIME Tek13.AIR_DURATION
       <= Tek13.uptime (Tek13.loop m1 m2 (Tek13.run ticks s)) ->
       Tek13Facts.stored_status (Tek13.loop m1 m2 (Tek13.run ticks s)) = 0 /\
       Tek13Facts.stored_stop (Tek13.loop m1 m2 (Tek13.run ticks s))
       = Tek13.uptime (Tek13.loop m1 m2 (Tek13.run ticks s)) /\
       Tek13Facts.actuator (Tek13.loop m1 m2 (Tek13.run ticks s)) = false /\
       In (DigitalWrite PIN_AIR false)
          (Tek13Facts.cycle_events m1 m2 (Tek13.run ticks s)))) /\
  (forall (s : Tek12.state) (ticks : list (Z * Z)) (m1 m2 : Z),
      Tek12Facts.stored_status s = 1 ->
      0 <= Tek12.airStart s ->
      Forall (fun u =>
                Tek12.airStart s <= u
                < Tek12.airStart s
                  + Tek12.TO_MACHINE_UPTIME Tek12.AIR_DURATION)
             (Tek12.uptimes ticks s) ->
      (Tek12Facts.stored_status (Tek12.run ticks s) = 1 /\
       Tek12.airStart (Tek12.run ticks s) = Tek12.airStart s /\
       Tek12Facts.actuator (Tek12.run ticks s) = Tek12Facts.actuator s /\
       Forall Tek12Facts.keeps_on
         (events_since (Board.trace (Tek12.board s))
                       (Board.trace (Tek12.board (Tek12.run ticks s))))) /\
      (Tek12.airStart s + Tek12.TO_MACHINE_UPTIME Tek12.AIR_DURATION
       <= Tek12.uptime (Tek12.loop m1 m2 (Tek12.run ticks s)) ->
       Tek12Facts.stored_status (Tek12.loop m1 m2 (Tek12.run ticks s)) = 0 /\
       Tek12Facts.stored_airTime (Tek12.loop m1 m2 (Tek12.run ticks s))
       = Tek12.uptime (Tek12.loop m1 m2 (Tek12.run ticks s)) /\
       Tek12Facts.actuator (Tek12.loop m1 m2 (Tek12.run ticks s)) = false /\
       In (DigitalWrite PIN_AIR false)
          (Tek12Facts.cycle_events m1 m2 (Tek12.run ticks s)))).
Proof.
  split.
  - intros s ticks m1 m2 On W.
    rewrite Tek13Facts.duration13 in *.
    destruct (Tek13Facts.stays_on13 ticks s On W)
      as (A & B & C & evs & D & E).
    split.
    + split; [exact A|]. split; [exact B|]. split; [exact C|].
      rewrite D, events_since_app. exact E.
    + rewrite Tek13Facts.loop_uptime13. intros Late.
      rewrite <- B in Late.
      pose proof (Tek13Facts.stop13 m1 m2 _ A Late) as Br.
      rewrite Tek13Facts.loop_stored_status13, Tek13Facts.loop_stored_stop13,
        Tek13Facts.loop_actuator13, Tek13Facts.cycle_events13, Br.
      split; [reflexivity|]. split; [reflexivity|]. split; [reflexivity|].
      apply in_or_app. right. left. reflexivity.
  - intros s ticks m1 m2 On Pos W.
    rewrite Tek12Facts.duration12 in *.
    destruct (Tek12Facts.stays_on12 ticks s On W)
      as (A & B & C & evs & D & E).
    split.
    + split; [exact A|]. split; [exact B|]. split; [exact C|].
      rewrite D, events_since_app. exact E.
    + rewrite Tek12Facts.loop_uptime12. intros Late.
      rewrite <- B in Late, Pos.
      pose proof (Tek12Facts.stop12 m1 m2 _ A Pos Late) as Br.
      destruct (Tek12Facts.cycle_events12 m1 m2 (Tek12.run ticks s))
        as [level Ev].
      rewrite Tek12Facts.loop_stored_status12,
        Tek12Facts.loop_stored_airTime12,
        Tek12Facts.loop_actuator12, Ev, Br.
      split; [reflexivity|]. split; [reflexivity|]. split; [reflexivity|].
      right. apply in_or_app. right. left. reflexivity.
Qed.

(** Closed facts about concrete runs, by evaluation. *)
Ltac by_eval :=
  vm_compute;
  repeat match goal with |- _ /\ _ => split end;
  first [ reflexivity | discriminate | (intro; discriminate) | lia ].

Ltac forall_by_eval :=
  let u := fresh "u" in
  let Hu := fresh "Hu" in
  apply Forall_forall; intros u Hu; vm_compute in Hu;
  repeat (destruct Hu as [<- | Hu]; [by_eval |]);
  contradiction.

(** C7 at work.  Dual-timestamp: booted ON with uptime 100 000 and start
    0, three cycles one second apart stay ON and the cycle at 120 000
    goes OFF.  Single-timestamp: the same with [airStart] loaded as 0. *)
Lemma C7_air_stays_on_for_duration_witness :
  (Tek13Facts.stored_status
     (Tek13.run (cadence 3 1000 1000)
        (Tek13.setup (Board.power_on (Tek13.snapshot 100000 1 0 0)))) = 1 /\
   Tek13Facts.stored_status
     (Tek13.loop 20000 20000
        (Tek13.run (cadence 3 1000 1000)
           (Tek13.setup (Board.power_on (Tek13.snapshot 100000 1 0 0))))) = 0)
  /\
  (Tek12Facts.stored_status
     (Tek12.run (cadence 3 1000 1000)
        (Tek12.setup (Board.power_on (Tek12.snapshot 100000 1 0)))) = 1 /\
   Tek12Facts.stored_status
     (Tek12.loop 20000 20000
        (Tek12.run (cadence 3 1000 1000)
           (Tek12.setup (Board.power_on (Tek12.snapshot 100000 1 0))))) = 0).
Proof.
  destruct C7_air_stays_on_for_duration as [H13 H12].
  split.
  - destruct (H13 (Tek13.setup (Board.power_on (Tek13.snapshot 100000 1 0 0)))
                  (cadence 3 1000 1000) 20000 20000) as [[A _] B].
    + by_eval.
    + forall_by_eval.
    + split; [exact A|]. exact (proj1 (B ltac:(by_eval))).
  - destruct (H12 (Tek12.setup (Board.power_on (Tek12.snapshot 100000 1 0)))
                  (cadence 3 1000 1000) 20000 20000) as [[A _] B].
    + by_eval.
    + by_eval.
    + forall_by_eval.
    + split; [exact A|]. exact (proj1 (B ltac:(by_eval))).
Defined.

(** ** The OFF -> ON transition *)

(** C1, as the code has it.  With the machine OFF and the interval
    elapsed, the cycle stores the state byte 1 in the EEPROM.
    Dual-timestamp sketch: it also stores the start timestamp, equal to
    the cycle's uptime; the actuator line is not touched in that cycle
    (the ON block tests the copy of the state byte read at the top of the
    cycle); the next cycle reads state 1 and that start timestamp back
    and, unless the air duration has elapsed by then, drives the line
    high.  Single-timestamp sketch: the variable [airStart] becomes the
    cycle's uptime and the line is driven high in the same cycle. *)
Theorem C1_off_to_on :
  (forall (s : Tek13.state) (m1 m2 : Z),
      Tek13Facts.stored_status s <> 1 ->
      U32.sub (Tek13.uptime (Tek13.loop m1 m2 s)) (Tek13Facts.stored_stop s)
      > Tek13.TO_MACHINE_TIME Tek13.AIR_INTERVAL ->
      Tek13Facts.stored_status (Tek13.loop m1 m2 s) = 1 /\
      Tek13Facts.stored_start (Tek13.loop m1 m2 s)
      = Tek13.uptime (Tek13.loop m1 m2 s) /\
      Tek13Facts.actuator (Tek13.loop m1 m2 s) = Tek13Facts.actuator s /\
      count_events (is_digitalWrite PIN_AIR) (Tek13Facts.cycle_events m1 m2 s)
      = 0%nat /\
      forall n1 n2 : Z,
        Tek13.airStatus (Tek13.readBack n1 n2 (Tek13.loop m1 m2 s)) = 1 /\
        Tek13.airStart (Tek13.readBack n1 n2 (Tek13.loop m1 m2 s))
        = Tek13.uptime (Tek13.loop m1 m2 s) /\
        (U32.sub (Tek13.uptime (Tek13.loop n1 n2 (Tek13.loop m1 m2 s)))
                 (Tek13.uptime (Tek13.loop m1 m2 s))
         < Tek13.TO_MACHINE_TIME Tek13.AIR_DURATION ->
         Tek13Facts.actuator (Tek13.loop n1 n2 (Tek13.loop m1 m2 s)) = true /\
         In (DigitalWrite PIN_AIR true)
            (Tek13Facts.cycle_events n1 n2 (Tek13.loop m1 m2 s)))) /\
  (forall (s : Tek12.state) (m1 m2 : Z),
      Tek12Facts.stored_status s <> 1 ->
      U32.sub (Tek12.uptime (Tek12.loop m1 m2 s)) (Tek12Facts.stored_airTime s)
      > Tek12.TO_MACHINE_UPTIME Tek12.AIR_INTERVAL ->
      Tek12Facts.stored_status (Tek12.loop m1 m2 s) = 1 /\
      Tek12.airStart (Tek12.loop m1 m2 s) = Tek12.uptime (Tek12.loop m1 m2 s) /\
      Tek12Facts.actuator (Tek12.loop m1 m2 s) = true /\
      In (DigitalWrite PIN_AIR true) (Tek12Facts.cycle_events m1 m2 s)).
Proof.
  split.
  - intros s m1 m2 Off Due.
    rewrite Tek13Facts.loop_uptime13, Tek13Facts.interval13 in Due.
    assert (Br : Tek13Facts.branch_of (Tek13.readBack m1 m2 s)
                 = Tek13Facts.Start).
    { rewrite Tek13Facts.branch_readBack13.
      apply Z.eqb_neq in Off. rewrite Off.
      apply Z.gt_lt, Z.gtb_lt in Due. rewrite Due. reflexivity. }
    assert (On : Tek13Facts.stored_status (Tek13.loop m1 m2 s) = 1)
      by (rewrite Tek13Facts.loop_stored_status13, Br; reflexivity).
    assert (St : Tek13Facts.stored_start (Tek13.loop m1 m2 s)
                 = Tek13.uptime (Tek13.loop m1 m2 s))
      by (rewrite Tek13Facts.loop_stored_start13, Br,
            Tek13Facts.loop_uptime13; reflexivity).
    split; [exact On|]. split; [exact St|].
    split; [rewrite Tek13Facts.loop_actuator13, Br; reflexivity|].
    split.
    { rewrite Tek13Facts.cycle_events13, Br.
      destruct (Tek13.periodicUptimeSave _); reflexivity. }
    intros n1 n2.
    rewrite Tek13Facts.readBack_airStatus13, Tek13Facts.readBack_airStart13.
    split; [exact On|]. split; [exact St|].
    rewrite Tek13Facts.duration13. intros Need.
    assert (Br' : Tek13Facts.branch_of
                    (Tek13.readBack n1 n2 (Tek13.loop m1 m2 s))
                  = Tek13Facts.Continue).
    { rewrite Tek13Facts.branch_readBack13, On, St.
      rewrite Tek13Facts.loop_uptime13 in Need.
      apply Z.ltb_lt in Need. rewrite Need. reflexivity. }
    rewrite Tek13Facts.loop_actuator13, Tek13Facts.cycle_events13, Br'.
    split; [reflexivity|].
    apply in_or_app. right. left. reflexivity.
  - intros s m1 m2 Off Due.
    rewrite Tek12Facts.loop_uptime12, Tek12Facts.interval12 in Due.
    assert (Br : Tek12Facts.branch_of (Tek12.readBack m1 m2 s)
                 = Tek12Facts.Start).
    { rewrite Tek12Facts.branch_readBack12.
      apply Z.eqb_neq in Off. rewrite Off.
      apply Z.gt_lt, Z.gtb_lt in Due. rewrite Due. reflexivity. }
    destruct (Tek12Facts.cycle_events12 m1 m2 s) as [level Ev].
    rewrite Tek12Facts.loop_stored_status12, Tek12Facts.loop_airStart12,
      Tek12Facts.loop_actuator12, Tek12Facts.loop_uptime12, Ev, Br.
    split; [reflexivity|]. split; [reflexivity|]. split; [reflexivity|].
    right. apply in_or_app. right. left. reflexivity.
Qed.

(** C1 at work: booted OFF with uptime 3 600 000 and the last stop at 0,
    the first cycle takes the transition in both sketches. *)
Lemma C1_off_to_on_witness :
  (Tek13Facts.stored_status
     (Tek13.loop 2050 2050
        (Tek13.setup (Board.power_on (Tek13.snapshot 3600000 0 0 0)))) = 1 /\
   Tek13Facts.stored_start
     (Tek13.loop 2050 2050
        (Tek13.setup (Board.power_on (Tek13.snapshot 3600000 0 0 0))))
   = 3602050 /\
   Tek13Facts.actuator
     (Tek13.loop 3050 3050
        (Tek13.loop 2050 2050
           (Tek13.setup (Board.power_on (Tek13.snapshot 3600000 0 0 0)))))
   = true) /\
  (Tek12Facts.stored_status
     (Tek12.loop 1 1
        (Tek12.setup (Board.power_on (Tek12.snapshot 3600000 0 0)))) = 1 /\
   Tek12Facts.actuator
     (Tek12.loop 1 1
        (Tek12.setup (Board.power_on (Tek12.snapshot 3600000 0 0)))) = true).
Proof.
  destruct C1_off_to_on as [H13 H12].
  split.
  - destruct (H13 (Tek13.setup (Board.power_on (Tek13.snapshot 3600000 0 0 0)))
                  2050 2050) as (A & B & _ & _ & C).
    + by_eval.
    + by_eval.
    + split; [exact A|]. split; [rewrite B; by_eval|].
      destruct (C 3050 3050) as (_ & _ & D).
      exact (proj1 (D ltac:(by_eval))).
  - destruct (H12 (Tek12.setup (Board.power_on (Tek12.snapshot 3600000 0 0)))
                  1 1) as (A & _ & C & _).
    + by_eval.
    + by_eval.
    + split; [exact A | exact C].
Defined.

(** C1 as stated fails.  Dual-timestamp sketch: the cycle that takes
    the transition (it stores state 1) leaves the actuator line low and
    writes nothing to it.  Single-timestamp sketch: the cycle that takes
    the transition sets [airStart] to the uptime 3 600 001 and writes
    nothing to the air-time cell, which still holds 0. *)
Lemma C1_counterexample :
  (Tek13Facts.stored_status
     (Tek13.loop 2050 2050
        (Tek13.setup (Board.power_on (Tek13.snapshot 3600000 0 0 0)))) = 1 /\
   Tek13Facts.actuator
     (Tek13.loop 2050 2050
        (Tek13.setup (Board.power_on (Tek13.snapshot 3600000 0 0 0))))
   = false /\
   count_events (is_digitalWrite PIN_AIR)
     (Tek13Facts.cycle_events 2050 2050
        (Tek13.setup (Board.power_on (Tek13.snapshot 3600000 0 0 0))))
   = 0%nat) /\
  (Tek12Facts.stored_status
     (Tek12.loop 1 1
        (Tek12.setup (Board.power_on (Tek12.snapshot 3600000 0 0)))) = 1 /\
   Tek12.airStart
     (Tek12.loop 1 1
        (Tek12.setup (Board.power_on (Tek12.snapshot 3600000 0 0))))
   = 3600001 /\
   Tek12Facts.stored_airTime
     (Tek12.loop 1 1
        (Tek12.setup (Board.power_on (Tek12.snapshot 3600000 0 0)))) = 0 /\
   count_events (is_write_to Tek12.addressAirTime)
     (Tek12Facts.cycle_events 1 1
        (Tek12.setup (Board.power_on (Tek12.snapshot 3600000 0 0))))
   = 0%nat).
Proof. by_eval. Qed.

(** ** Resuming after a power loss *)

(** C2, as the code has it.  Boot from an EEPROM holding uptime [U],
    state ON and start timestamp [S] (the air-time cell, in the
    single-timestamp sketch), then run one cycle whose first tick reading
    is [m1] milliseconds after reset.  If the uptime the cycle works
    with, [U + m1] in 32 bits, is still less than AIR_DURATION_MS past
    [S], the state stays ON: the state byte is 1, the timestamp is [S],
    nothing is written to the state byte.  The dual-timestamp sketch
    drives the actuator line high; the single-timestamp sketch does not
    write to it. *)
Theorem C2_resume_after_power_loss :
  (forall (e : EEPROM.t) (U S m1 m2 : Z),
      EEPROM.readLong e Tek13.addressUptime = U ->
      EEPROM.readByte e Tek13.addressAirStatus = 1 ->
      EEPROM.readLong e Tek13.addressAirStart = S ->
      U32.sub (U32.add U m1) S < Tek13.TO_MACHINE_TIME Tek13.AIR_DURATION ->
      Tek13Facts.stored_status
        (Tek13.loop m1 m2 (Tek13.setup (Board.power_on e))) = 1 /\
      Tek13Facts.stored_start
        (Tek13.loop m1 m2 (Tek13.setup (Board.power_on e))) = S /\
      Tek13Facts.actuator
        (Tek13.loop m1 m2 (Tek13.setup (Board.power_on e))) = true /\
      count_events (is_write_to Tek13.addressAirStatus)
        (Tek13Facts.cycle_events m1 m2 (Tek13.setup (Board.power_on e)))
      = 0%nat /\
      count_events (is_write_to Tek13.addressAirStart)
        (Tek13Facts.cycle_events m1 m2 (Tek13.setup (Board.power_on e)))
      = 0%nat) /\
  (forall (e : EEPROM.t) (U S m1 m2 : Z),
      EEPROM.readLong e Tek12.addressUptime = U ->
      EEPROM.readByte e Tek12.addressAirStatus = 1 ->
      EEPROM.readLong e Tek12.addressAirTime = S ->
      U32.sub (U32.add U m1) S < Tek12.TO_MACHINE_UPTIME Tek12.AIR_DURATION ->
      Tek12Facts.stored_status
        (Tek12.loop m1 m2 (Tek12.setup (Board.power_on e))) = 1 /\
      Tek12.airStart
        (Tek12.loop m1 m2 (Tek12.setup (Board.power_on e))) = S /\
      count_events (is_write_to Tek12.addressAirStatus)
        (Tek12Facts.cycle_events m1 m2 (Tek12.setup (Board.power_on e)))
      = 0%nat /\
      count_events (is_digitalWrite PIN_AIR)
        (Tek12Facts.cycle_events m1 m2 (Tek12.setup (Board.power_on e)))
      = 0%nat).
Proof.
  split.
  - intros e U S m1 m2 HU On HS Need.
    set (s := Tek13.setup (Board.power_on e)).
    assert (Adv : Tek13Facts.advanced m1 s = U32.add U m1).
    { unfold Tek13Facts.advanced.
      change (Tek13.uptime s) with (EEPROM.readLong e Tek13.addressUptime).
      change (Tek13.previousUptime s) with 0.
      rewrite HU. unfold U32.sub. rewrite Z.sub_0_r.
      apply U32.add_wrap_r. }
    assert (Hs : Tek13Facts.stored_status s = 1) by exact On.
    assert (Ht : Tek13Facts.stored_start s = S) by exact HS.
    assert (Br : Tek13Facts.branch_of (Tek13.readBack m1 m2 s)
                 = Tek13Facts.Continue).
    { rewrite Tek13Facts.branch_readBack13, Hs, Ht, Adv.
      rewrite Tek13Facts.duration13 in Need.
      apply Z.ltb_lt in Need. rewrite Need. reflexivity. }
    rewrite Tek13Facts.loop_stored_status13, Tek13Facts.loop_stored_start13,
      Tek13Facts.loop_actuator13, Tek13Facts.cycle_events13, Br.
    split; [exact Hs|]. split; [exact Ht|]. split; [reflexivity|].
    destruct (Tek13.periodicUptimeSave _); split; reflexivity.
  - intros e U S m1 m2 HU On HS Need.
    set (s := Tek12.setup (Board.power_on e)).
    assert (Adv : Tek12Facts.advanced m1 s = U32.add U m1).
    { unfold Tek12Facts.advanced.
      change (Tek12.uptime s) with (EEPROM.readLong e Tek12.addressUptime).
      change (Tek12.previousUptime s) with 0.
      rewrite HU. unfold U32.sub. rewrite Z.sub_0_r.
      apply U32.add_wrap_r. }
    assert (Hs : Tek12Facts.stored_status s = 1) by exact On.
    assert (Ht : Tek12.airStart s = S) by exact HS.
    assert (Br : Tek12Facts.branch_of (Tek12.readBack m1 m2 s)
                 = Tek12Facts.Continue).
    { rewrite Tek12Facts.branch_readBack12, Hs, Ht, Adv.
      rewrite Tek12Facts.duration12 in Need.
      apply Z.ltb_lt in Need. rewrite Need. reflexivity. }
    destruct (Tek12Facts.cycle_events12 m1 m2 s) as [level Ev].
    rewrite Tek12Facts.loop_stored_status12, Tek12Facts.loop_airStart12,
      Ev, Br.
    split; [exact Hs|]. split; [exact Ht|].
    destruct (Tek12.periodicUptimeSave _); split; reflexivity.
Qed.

(** C2 at work: uptime 100 000, ON since 0; the dual-timestamp sketch
    reads its first tick 2050 ms after reset, the single-timestamp one
    1 ms after reset. *)
Lemma C2_resume_after_power_loss_witness :
  Tek13Facts.stored_status
    (Tek13.loop 2050 2050
       (Tek13.setup (Board.power_on (Tek13.snapshot 100000 1 0 0)))) = 1 /\
  Tek12Facts.stored_status
    (Tek12.loop 1 1
       (Tek12.setup (Board.power_on (Tek12.snapshot 100000 1 0)))) = 1.
Proof.
  destruct C2_resume_after_power_loss as [H13 H12].
  split.
  - refine (proj1 (H13 (Tek13.snapshot 100000 1 0 0) 100000 0 2050 2050
                       _ _ _ _)); by_eval.
  - refine (proj1 (H12 (Tek12.snapshot 100000 1 0) 100000 0 1 1
                       _ _ _ _)); by_eval.
Defined.

(** C2 as stated fails: with uptime 119 000 and ON since 0 the snapshot
    has U - S < AIR_DURATION_MS, yet the first cycle of the
    dual-timestamp sketch, which starts 2050 ms after reset, works with
    uptime 121 050 and turns the air off. *)
Lemma C2_counterexample :
  EEPROM.readLong (Tek13.snapshot 119000 1 0 0) Tek13.addressUptime = 119000 /\
  EEPROM.readByte (Tek13.snapshot 119000 1 0 0) Tek13.addressAirStatus = 1 /\
  EEPROM.readLong (Tek13.snapshot 119000 1 0 0) Tek13.addressAirStart = 0 /\
  U32.sub 119000 0 < Tek13.TO_MACHINE_TIME Tek13.AIR_DURATION /\
  Tek13Facts.stored_status
    (Tek13.loop 2050 2050
       (Tek13.setup (Board.power_on (Tek13.snapshot 119000 1 0 0)))) = 0 /\
  Tek13Facts.actuator
    (Tek13.loop 2050 2050
       (Tek13.setup (Board.power_on (Tek13.snapshot 119000 1 0 0)))) = false.
Proof. by_eval. Qed.

(** ** Checkpoints forced by a transition *)

(** C3, as the code has it.  Dual-timestamp sketch: a cycle that changes
    the air state (OFF with the interval elapsed, or ON with the
    duration elapsed) writes its uptime to the EEPROM and makes it the
    last checkpoint, whatever the periodic test says.  Single-timestamp
    sketch: a transition forces nothing; in every cycle the uptime cell
    and the last checkpoint change exactly when the periodic test
    [uptime > uptimeStoreTime + interval] holds. *)
Theorem C3_checkpoint_on_transition :
  (forall (s : Tek13.state) (m1 m2 : Z),
      (Tek13Facts.stored_status s <> 1 /\
       U32.sub (Tek13.uptime (Tek13.loop m1 m2 s)) (Tek13Facts.stored_stop s)
       > Tek13.TO_MACHINE_TIME Tek13.AIR_INTERVAL) \/
      (Tek13Facts.stored_status s = 1 /\
       U32.sub (Tek13.uptime (Tek13.loop m1 m2 s)) (Tek13Facts.stored_start s)
       >= Tek13.TO_MACHINE_TIME Tek13.AIR_DURATION) ->
      Tek13Facts.stored_status (Tek13.loop m1 m2 s)
      <> Tek13Facts.stored_status s /\
      Tek13Facts.stored_uptime (Tek13.loop m1 m2 s)
      = Tek13.uptime (Tek13.loop m1 m2 s) /\
      Tek13.uptimeStoreTime (Tek13.loop m1 m2 s)
      = Tek13.uptime (Tek13.loop m1 m2 s) /\
      In (EepromWriteLong Tek13.addressUptime
            (Tek13.uptime (Tek13.loop m1 m2 s)))
         (Tek13Facts.cycle_events m1 m2 s)) /\
  (forall (s : Tek12.state) (m1 m2 : Z),
      let due :=
        Tek12.uptime (Tek12.loop m1 m2 s)
        >? U32.add (Tek12.uptimeStoreTime s)
                   (Tek12.TO_MACHINE_UPTIME Tek12.UPTIME_STORE_INTERVAL) in
      Tek12Facts.stored_uptime (Tek12.loop m1 m2 s)
      = (if due then Tek12.uptime (Tek12.loop m1 m2 s)
         else Tek12Facts.stored_uptime s) /\
      Tek12.uptimeStoreTime (Tek12.loop m1 m2 s)
      = (if due then Tek12.uptime (Tek12.loop m1 m2 s)
         else Tek12.uptimeStoreTime s) /\
      count_events (is_write_to Tek12.addressUptime)
        (Tek12Facts.cycle_events m1 m2 s)
      = (if due then 1%nat else 0%nat)).
Proof.
  split.
  - intros s m1 m2 Tr.
    rewrite Tek13Facts.loop_uptime13, Tek13Facts.interval13,
      Tek13Facts.duration13 in Tr.
    assert (Br : Tek13Facts.branch_of (Tek13.readBack m1 m2 s)
                 = Tek13Facts.Start /\ Tek13Facts.stored_status s <> 1
                 \/ Tek13Facts.branch_of (Tek13.readBack m1 m2 s)
                    = Tek13Facts.Stop /\ Tek13Facts.stored_status s = 1).
    { rewrite Tek13Facts.branch_readBack13.
      destruct Tr as [[Off Due] | [On Done]].
      - left. split; [|exact Off].
        apply Z.eqb_neq in Off. rewrite Off.
        apply Z.gt_lt, Z.gtb_lt in Due. rewrite Due. reflexivity.
      - right. split; [|exact On]. rewrite On. cbn [Z.eqb Pos.eqb].
        destruct (Z.ltb_spec
                    (U32.sub (Tek13Facts.advanced m1 s)
                       (Tek13Facts.stored_start s)) 120000);
          [lia | reflexivity]. }
    pose proof (Tek13Facts.loop_checkpointed13 m1 m2 s) as Ck.
    rewrite Tek13Facts.loop_stored_status13, Tek13Facts.cycle_events13,
      Tek13Facts.loop_uptime13.
    destruct Br as [[Br St] | [Br St]]; rewrite Br in Ck |- *;
      destruct Ck as [Ck1 Ck2].
    + split; [congruence|]. split; [exact Ck1|]. split; [exact Ck2|].
      apply in_or_app. right. left. reflexivity.
    + split; [rewrite St; discriminate|].
      split; [exact Ck1|]. split; [exact Ck2|].
      apply in_or_app. right. right. left. reflexivity.
  - intros s m1 m2 due. subst due.
    rewrite Tek12Facts.loop_uptime12.
    assert (Due : Tek12.periodicUptimeSave
                    (Tek12.airMachine (Tek12.readBack m1 m2 s))
                  = (Tek12Facts.advanced m1 s
                     >? U32.add (Tek12.uptimeStoreTime s)
                          (Tek12.TO_MACHINE_UPTIME
                             Tek12.UPTIME_STORE_INTERVAL))).
    { unfold Tek12.periodicUptimeSave.
      rewrite Tek12Facts.airMachine_uptime12, Tek12Facts.airMachine_storeTime12.
      reflexivity. }
    destruct (Tek12Facts.cycle_events12 m1 m2 s) as [level Ev].
    rewrite Tek12Facts.loop_stored_uptime12, Tek12Facts.loop_storeTime12,
      Ev, Due.
    split; [reflexivity|]. split; [reflexivity|].
    destruct (Tek12Facts.branch_of _), (_ >? _); reflexivity.
Qed.

(** C3 at work in the dual-timestamp sketch: the cycle that starts the
    air at uptime 3 602 050 checkpoints that uptime. *)
Lemma C3_checkpoint_on_transition_witness :
  Tek13Facts.stored_uptime
    (Tek13.loop 2050 2050
       (Tek13.setup (Board.power_on (Tek13.snapshot 3600000 0 0 0))))
  = 3602050.
Proof.
  destruct (proj1 C3_checkpoint_on_transition
              (Tek13.setup (Board.power_on (Tek13.snapshot 3600000 0 0 0)))
              2050 2050) as (_ & A & _).
  - left. by_eval.
  - rewrite A. by_eval.
Defined.

(** C3 as stated fails in the single-timestamp sketch: the cycle that
    starts the air at uptime 3 600 001 (it stores state 1) writes nothing
    to the uptime cell, which keeps 3 600 000, and leaves the last
    checkpoint at 3 600 000. *)
Lemma C3_counterexample :
  Tek12Facts.stored_status
    (Tek12.setup (Board.power_on (Tek12.snapshot 3600000 0 0))) = 0 /\
  Tek12Facts.stored_status
    (Tek12.loop 1 1
       (Tek12.setup (Board.power_on (Tek12.snapshot 3600000 0 0)))) = 1 /\
  Tek12.uptime
    (Tek12.loop 1 1
       (Tek12.setup (Board.power_on (Tek12.snapshot 3600000 0 0))))
  = 3600001 /\
  Tek12Facts.stored_uptime
    (Tek12.loop 1 1
       (Tek12.setup (Board.power_on (Tek12.snapshot 3600000 0 0))))
  = 3600000 /\
  Tek12.uptimeStoreTime
    (Tek12.loop 1 1
       (Tek12.setup (Board.power_on (Tek12.snapshot 3600000 0 0))))
  = 3600000 /\
  count_events (is_write_to Tek12.addressUptime)
    (Tek12Facts.cycle_events 1 1
       (Tek12.setup (Board.power_on (Tek12.snapshot 3600000 0 0))))
  = 0%nat.
Proof. by_eval. Qed.

(** ** Reading back at the top of the cycle *)

(** C5, as the code has it.  Dual-timestamp sketch: once the top of the
    cycle has run, the state byte and both timestamps the guards use
    equal the EEPROM cells.  Single-timestamp sketch: the state byte and
    [lastAir] equal the EEPROM cells and [timeSinceAir], which the OFF
    guard uses, is derived from them; [airStart], which the ON guard
    uses, is not read in the cycle: it keeps the value it had, which is
    the air-time cell right after boot. *)
Theorem C5_read_back :
  (forall (s : Tek13.state) (m1 m2 : Z),
      Tek13.airStatus (Tek13.readBack m1 m2 s)
      = Tek13Facts.stored_status (Tek13.readBack m1 m2 s) /\
      Tek13.airStart (Tek13.readBack m1 m2 s)
      = Tek13Facts.stored_start (Tek13.readBack m1 m2 s) /\
      Tek13.airStop (Tek13.readBack m1 m2 s)
      = Tek13Facts.stored_stop (Tek13.readBack m1 m2 s) /\
      Tek13.loop m1 m2 s
      = Tek13.checkpoint (Tek13.airMachine (Tek13.readBack m1 m2 s))) /\
  (forall (s : Tek12.state) (m1 m2 : Z),
      Tek12.airStatus (Tek12.readBack m1 m2 s)
      = Tek12Facts.stored_status (Tek12.readBack m1 m2 s) /\
      Tek12.lastAir (Tek12.readBack m1 m2 s)
      = Tek12Facts.stored_airTime (Tek12.readBack m1 m2 s) /\
      Tek12.timeSinceAir (Tek12.readBack m1 m2 s)
      = U32.sub (Tek12.uptime (Tek12.readBack m1 m2 s))
                (Tek12Facts.stored_airTime (Tek12.readBack m1 m2 s)) /\
      Tek12.airStart (Tek12.readBack m1 m2 s) = Tek12.airStart s /\
      Tek12.loop m1 m2 s
      = Tek12.indicateLife
          (Tek12.checkpoint (Tek12.airMachine (Tek12.readBack m1 m2 s)))) /\
  (forall b : Board.t,
      Tek12.airStart (Tek12.setup b)
      = Tek12Facts.stored_airTime (Tek12.setup b)).
Proof.
  split; [|split].
  - intros s m1 m2. repeat split.
  - intros s m1 m2. repeat split.
  - intros b. reflexivity.
Qed.

(** C5 as stated fails in the single-timestamp sketch.  After the cycle
    that starts the air at uptime 3 600 001, the top of the next cycle
    reads state 1, so the guard is the ON clause of [needAir], which
    compares with [airStart] = 3 600 001, while the only timestamp cell
    of the EEPROM holds 0. *)
Lemma C5_counterexample :
  Tek12.isAir
    (Tek12.readBack 1001 1001
       (Tek12.loop 1 1
          (Tek12.setup (Board.power_on (Tek12.snapshot 3600000 0 0)))))
  = true /\
  Tek12.airStart
    (Tek12.readBack 1001 1001
       (Tek12.loop 1 1
          (Tek12.setup (Board.power_on (Tek12.snapshot 3600000 0 0)))))
  = 3600001 /\
  Tek12Facts.stored_airTime
    (Tek12.readBack 1001 1001
       (Tek12.loop 1 1
          (Tek12.setup (Board.power_on (Tek12.snapshot 3600000 0 0)))))
  = 0.
Proof. by_eval. Qed.

(** ** The uptime accumulator *)

(** The delta that 32-bit subtraction finds between two readings [d] ms
    apart. *)
Lemma tick_delta t d : U32.sub (U32.wrap (t + d)) (U32.wrap t) = U32.wrap d.
Proof.
  rewrite U32.sub_wrap_r, U32.sub_wrap_l. unfold U32.sub. f_equal. lia.
Qed.

Lemma accumulate13 dgs : forall (s : Tek13.state) (t : Z),
  Tek13.previousUptime s = U32.wrap t ->
  U32.in_range (Tek13.uptime s) ->
  Tek13.uptime (Tek13.run (readings t dgs) s)
  = U32.wrap (Tek13.uptime s + sum_deltas dgs).
Proof.
  induction dgs as [|[d g] rest IH]; intros s t Prev Ru.
  - cbn [readings Tek13.run sum_deltas]. rewrite Z.add_0_r.
    symmetry. apply U32.wrap_small, Ru.
  - cbn [readings Tek13.run sum_deltas].
    rewrite (IH _ (t + d + g)).
    + rewrite Tek13Facts.loop_uptime13. unfold Tek13Facts.advanced.
      rewrite Prev, tick_delta, U32.add_wrap_r.
      change (U32.wrap (U32.add (Tek13.uptime s) d + sum_deltas rest))
        with (U32.add (U32.add (Tek13.uptime s) d) (sum_deltas rest)).
      unfold U32.add at 2. rewrite U32.add_wrap_l. unfold U32.add.
      f_equal. lia.
    + rewrite Tek13Facts.loop_previous13. apply U32.wrap_wrap.
    + rewrite Tek13Facts.loop_uptime13. apply Tek13Facts.advanced_range13.
Qed.

Lemma accumulate12 dgs : forall (s : Tek12.state) (t : Z),
  Tek12.previousUptime s = U32.wrap t ->
  U32.in_range (Tek12.uptime s) ->
  Tek12.uptime (Tek12.run (readings t dgs) s)
  = U32.wrap (Tek12.uptime s + sum_deltas dgs).
Proof.
  induction dgs as [|[d g] rest IH]; intros s t Prev Ru.
  - cbn [readings Tek12.run sum_deltas]. rewrite Z.add_0_r.
    symmetry. apply U32.wrap_small, Ru.
  - cbn [readings Tek12.run sum_deltas].
    rewrite (IH _ (t + d + g)).
    + rewrite Tek12Facts.loop_uptime12. unfold Tek12Facts.advanced.
      rewrite Prev, tick_delta, U32.add_wrap_r.
      change (U32.wrap (U32.add (Tek12.uptime s) d + sum_deltas rest))
        with (U32.add (U32.add (Tek12.uptime s) d) (sum_deltas rest)).
      unfold U32.add at 2. rewrite U32.add_wrap_l. unfold U32.add.
      f_equal. lia.
    + rewrite Tek12Facts.loop_previous12. apply U32.wrap_wrap.
    + rewrite Tek12Facts.loop_uptime12. apply Tek12Facts.advanced_range12.
Qed.

Lemma sum_deltas_nonneg dgs :
  Forall (fun dg => 0 <= fst dg) dgs -> 0 <= sum_deltas dgs.
Proof.
  induction 1 as [|[d g] rest Hd _ IH]; cbn [sum_deltas fst] in *; lia.
Qed.

(** C8, as the code has it.  Run the sketch over any sequence of cycles
    in which [d] milliseconds pass between the last tick reading of one
    cycle and the first of the next: the accumulated uptime is the
    initial uptime plus the sum of the deltas, wrapped to 32 bits; it is
    that sum exactly whenever the deltas are not negative and initial
    uptime plus sum stays below 2^32.  Both sketches. *)
Theorem C8_uptime_is_sum_of_deltas :
  (forall (s : Tek13.state) (t : Z) (dgs : list (Z * Z)),
      Tek13.previousUptime s = U32.wrap t ->
      U32.in_range (Tek13.uptime s) ->
      Tek13.uptime (Tek13.run (readings t dgs) s)
      = U32.wrap (Tek13.uptime s + sum_deltas dgs) /\
      (Forall (fun dg => 0 <= fst dg) dgs ->
       Tek13.uptime s + sum_deltas dgs < U32.modulus ->
       Tek13.uptime (Tek13.run (readings t dgs) s)
       = Tek13.uptime s + sum_deltas dgs)) /\
  (forall (s : Tek12.state) (t : Z) (dgs : list (Z * Z)),
      Tek12.previousUptime s = U32.wrap t ->
      U32.in_range (Tek12.uptime s) ->
      Tek12.uptime (Tek12.run (readings t dgs) s)
      = U32.wrap (Tek12.uptime s + sum_deltas dgs) /\
      (Forall (fun dg => 0 <= fst dg) dgs ->
       Tek12.uptime s + sum_deltas dgs < U32.modulus ->
       Tek12.uptime (Tek12.run (readings t dgs) s)
       = Tek12.uptime s + sum_deltas dgs)).
Proof.
  split; intros s t dgs Prev Ru.
  - rewrite (accumulate13 dgs s t Prev Ru). split; [reflexivity|].
    intros Pos Small. apply U32.wrap_small.
    pose proof (sum_deltas_nonneg dgs Pos). unfold U32.in_range in *. lia.
  - rewrite (accumulate12 dgs s t Prev Ru). split; [reflexivity|].
    intros Pos Small. apply U32.wrap_small.
    pose proof (sum_deltas_nonneg dgs Pos). unfold U32.in_range in *. lia.
Qed.

(** C8 at work: booted with uptime 5000, three cycles 2050, 1003 and
    1001 ms apart (a tick passes between the two readings of the second
    cycle) accumulate 5000 + 4054. *)
Lemma C8_uptime_is_sum_of_deltas_witness :
  Tek13.uptime
    (Tek13.run (readings 0 [(2050, 0); (1003, 1); (1001, 0)])
       (Tek13.setup (Board.power_on (Tek13.snapshot 5000 0 0 0))))
  = 9054 /\
  Tek12.uptime
    (Tek12.run (readings 0 [(2050, 0); (1003, 1); (1001, 0)])
       (Tek12.setup (Board.power_on (Tek12.snapshot 5000 0 0))))
  = 9054.
Proof.
  destruct C8_uptime_is_sum_of_deltas as [H13 H12].
  split.
  - destruct (H13 (Tek13.setup (Board.power_on (Tek13.snapshot 5000 0 0 0)))
                  0 [(2050, 0); (1003, 1); (1001, 0)]) as [_ A].
    + by_eval.
    + by_eval.
    + rewrite A.
      * by_eval.
      * repeat constructor; by_eval.
      * by_eval.
  - destruct (H12 (Tek12.setup (Board.power_on (Tek12.snapshot 5000 0 0)))
                  0 [(2050, 0); (1003, 1); (1001, 0)]) as [_ A].
    + by_eval.
    + by_eval.
    + rewrite A.
      * by_eval.
      * repeat constructor; by_eval.
      * by_eval.
Defined.

(** C8 as stated fails: booted with the stored uptime 4 294 967 295, one
    cycle with a delta of 2050 ms (a sum far below 2^32) leaves the
    uptime at 2049, not at 4 294 967 295 + 2050. *)
Lemma C8_counterexample :
  sum_deltas [(2050, 0)] < U32.modulus /\
  Tek13.uptime (Tek13.setup (Board.power_on
                  (Tek13.snapshot 4294967295 0 0 4294967295)))
  = 4294967295 /\
  Tek13.uptime
    (Tek13.run (readings 0 [(2050, 0)])
       (Tek13.setup (Board.power_on
          (Tek13.snapshot 4294967295 0 0 4294967295))))
  = 2049 /\
  Tek13.uptime
    (Tek13.run (readings 0 [(2050, 0)])
       (Tek13.setup (Board.power_on
          (Tek13.snapshot 4294967295 0 0 4294967295))))
  <> 4294967295 + sum_deltas [(2050, 0)].
Proof. by_eval. Qed.

(** ** The tick counter wrapping *)

(** C9.  When the hardware tick wraps between two advance steps (the
    previous reading [prev] plus the [ms] elapsed milliseconds reaches
    2^32, so the new reading is the smaller number), the delta the step
    computes by 32-bit subtraction is [ms], and that is what the step
    adds to the uptime.  Both sketches. *)
Theorem C9_delta_across_tick_wrap :
  forall (prev ms m2 : Z),
    U32.in_range prev ->
    0 <= ms < U32.modulus ->
    U32.modulus <= prev + ms ->
    U32.wrap (prev + ms) < prev /\
    U32.sub (U32.wrap (prev + ms)) prev = ms /\
    (forall s : Tek13.state,
        Tek13.previousUptime s = prev ->
        Tek13.uptime (Tek13.countTime (U32.wrap (prev + ms)) m2 s)
        = U32.add (Tek13.uptime s) ms) /\
    (forall s : Tek12.state,
        Tek12.previousUptime s = prev ->
        Tek12.uptime (Tek12.updateLocalUptime (U32.wrap (prev + ms)) m2 s)
        = U32.add (Tek12.uptime s) ms).
Proof.
  intros prev ms m2 Rp Rm Wrapped.
  assert (D : U32.sub (U32.wrap (prev + ms)) prev = ms).
  { fold (U32.add prev ms). rewrite U32.sub_add_cancel.
    apply U32.wrap_small, Rm. }
  split.
  { unfold U32.wrap, U32.in_range, U32.modulus in *.
    Z.div_mod_to_equations. lia. }
  split; [exact D|].
  split; intros s Prev.
  - cbn [Tek13.countTime Tek13.set_uptime Tek13.set_previousUptime
         Tek13.uptime Tek13.previousUptime].
    rewrite Prev, D. reflexivity.
  - cbn [Tek12.updateLocalUptime Tek12.set_uptime Tek12.set_previousUptime
         Tek12.uptime Tek12.previousUptime].
    rewrite Prev, D. reflexivity.
Qed.

(** C9 at a wrap boundary: the previous reading is 4 294 967 290, 15 ms
    later the counter reads 9, and the step adds 15. *)
Lemma C9_delta_across_tick_wrap_witness :
  U32.wrap (4294967290 + 15) = 9 /\
  U32.sub 9 4294967290 = 15 /\
  Tek13.uptime
    (Tek13.countTime 9 9 (Tek13.mkState 1000 0 4294967290 0 0 0
                            (Board.power_on EEPROM.blank)))
  = 1015.
Proof.
  destruct (C9_delta_across_tick_wrap 4294967290 15 9) as (_ & A & B & _).
  - by_eval.
  - by_eval.
  - by_eval.
  - split; [by_eval|]. split; [exact A|].
    exact (B (Tek13.mkState 1000 0 4294967290 0 0 0
                (Board.power_on EEPROM.blank)) eq_refl).
Defined.

(** ** Throttling of the uptime checkpoint *)

Lemma count_events_app f a b :
  count_events f (a ++ b) = (count_events f a + count_events f b)%nat.
Proof. unfold count_events. rewrite filter_app, length_app. reflexivity. Qed.

Lemma elapsed_nonneg ticks : forall prev, 0 <= elapsed prev ticks.
Proof.
  induction ticks as [|[m1 m2] rest IH]; intros prev; cbn [elapsed].
  - lia.
  - pose proof (U32.sub_range m1 prev) as R. unfold U32.in_range in R.
    specialize (IH (U32.wrap m2)). lia.
Qed.

(** Uptime writes of a trace, less the writes of the state byte: the
    checkpoints that no transition forced. *)
Definition unforced_writes13 (evs : list event) : Z :=
  Z.of_nat (count_events (is_write_to Tek13.addressUptime) evs)
  - Z.of_nat (count_events (is_write_to Tek13.addressAirStatus) evs).

Lemma unforced_writes13_app a b :
  unforced_writes13 (a ++ b) = unforced_writes13 a + unforced_writes13 b.
Proof. unfold unforced_writes13. rewrite !count_events_app. lia. Qed.

(** One cycle, away from the 32-bit wrap: the uptime grows by the delta,
    the last checkpoint does not go back and stays behind the uptime, and
    a checkpoint that no transition forced moves it by more than the
    interval. *)
Lemma cycle_throttle13 (s : Tek13.state) (m1 m2 : Z) :
  0 <= Tek13.uptimeStoreTime s <= Tek13.uptime s ->
  Tek13.uptime s + U32.sub m1 (Tek13.previousUptime s) + 60000
  < U32.modulus ->
  Tek13.uptime (Tek13.loop m1 m2 s)
  = Tek13.uptime s + U32.sub m1 (Tek13.previousUptime s) /\
  Tek13.uptimeStoreTime s <= Tek13.uptimeStoreTime (Tek13.loop m1 m2 s)
  <= Tek13.uptime (Tek13.loop m1 m2 s) /\
  60000 * unforced_writes13 (Tek13Facts.cycle_events m1 m2 s)
  <= Tek13.uptimeStoreTime (Tek13.loop m1 m2 s) - Tek13.uptimeStoreTime s.
Proof.
  intros Inv Small.
  pose proof (U32.sub_range m1 (Tek13.previousUptime s)) as Rd.
  unfold U32.in_range in Rd.
  assert (Adv : Tek13Facts.advanced m1 s
                = Tek13.uptime s + U32.sub m1 (Tek13.previousUptime s)).
  { unfold Tek13Facts.advanced. apply U32.add_small. lia. }
  rewrite Tek13Facts.loop_uptime13, Tek13Facts.cycle_events13.
  unfold Tek13.loop. rewrite Tek13Facts.checkpoint_storeTime13.
  unfold Tek13.periodicUptimeSave.
  rewrite Tek13Facts.airMachine_uptime13, Tek13Facts.airMachine_storeTime13.
  rewrite Tek13Facts.readBack_uptime13, Tek13Facts.readBack_storeTime13.
  rewrite Tek13Facts.store_interval13, Adv.
  set (u := Tek13.uptime s + U32.sub m1 (Tek13.previousUptime s)) in *.
  split; [reflexivity|].
  destruct (Tek13Facts.branch_of (Tek13.readBack m1 m2 s)).
  - (* Idle *)
    rewrite (U32.add_small (Tek13.uptimeStoreTime s) 60000) by lia.
    destruct (Z.gtb_spec u (Tek13.uptimeStoreTime s + 60000));
      cbn; lia.
  - (* Start *)
    rewrite (U32.add_small u 60000) by lia.
    destruct (Z.gtb_spec u (u + 60000)); [lia|].
    cbn. lia.
  - (* Continue *)
    rewrite (U32.add_small (Tek13.uptimeStoreTime s) 60000) by lia.
    destruct (Z.gtb_spec u (Tek13.uptimeStoreTime s + 60000));
      cbn; lia.
  - (* Stop *)
    rewrite (U32.add_small u 60000) by lia.
    destruct (Z.gtb_spec u (u + 60000)); [lia|].
    cbn. lia.
Qed.

Lemma run_throttle13 ticks : forall s : Tek13.state,
  0 <= Tek13.uptimeStoreTime s <= Tek13.uptime s ->
  Tek13.uptime s + elapsed (Tek13.previousUptime s) ticks + 60000
  < U32.modulus ->
  Tek13.uptime (Tek13.run ticks s)
  = Tek13.uptime s + elapsed (Tek13.previousUptime s) ticks /\
  Tek13.uptimeStoreTime (Tek13.run ticks s) <= Tek13.uptime (Tek13.run ticks s) /\
  exists evs,
    Board.trace (Tek13.board (Tek13.run ticks s))
    = evs ++ Board.trace (Tek13.board s) /\
    60000 * unforced_writes13 evs
    <= Tek13.uptimeStoreTime (Tek13.run ticks s) - Tek13.uptimeStoreTime s.
Proof.
  induction ticks as [|[m1 m2] rest IH]; intros s Inv Small.
  - cbn [Tek13.run elapsed]. split; [lia|]. split; [lia|].
    exists []. split; [reflexivity|]. cbn. lia.
  - cbn [Tek13.run elapsed] in Small |- *.
    pose proof (elapsed_nonneg rest (U32.wrap m2)) as Pos.
    destruct (cycle_throttle13 s m1 m2 Inv) as (U & S & W); [lia|].
    destruct (IH (Tek13.loop m1 m2 s)) as (U' & S' & evs & T & W').
    + lia.
    + rewrite Tek13Facts.loop_previous13, U. lia.
    + rewrite Tek13Facts.loop_previous13 in U'.
      split; [lia|]. split; [exact S'|].
      exists (evs ++ Tek13Facts.cycle_events m1 m2 s). split.
      * rewrite T, Tek13Facts.cycle_events13, Tek13Facts.loop_trace13.
        rewrite <- !app_assoc. reflexivity.
      * rewrite unforced_writes13_app. lia.
Qed.

(** C6, as the code has it.  Take any run of the dual-timestamp sketch
    that starts with the last checkpoint not ahead of the uptime and
    whose uptime ends more than the checkpoint interval short of the
    32-bit wrap.  Then the uptime is the initial uptime plus the deltas,
    and the writes of the uptime cell, not counting the one that each
    write of the air-state byte brings with it, number at most one per
    60 000 ms of uptime accumulated since the last checkpoint. *)
Theorem C6_checkpoint_throttle :
  forall (s : Tek13.state) (ticks : list (Z * Z)),
    0 <= Tek13.uptimeStoreTime s <= Tek13.uptime s ->
    Tek13.uptime s + elapsed (Tek13.previousUptime s) ticks
    + Tek13.TO_MACHINE_TIME Tek13.UPTIME_STORE_INTERVAL < U32.modulus ->
    Tek13.uptime (Tek13.run ticks s)
    = Tek13.uptime s + elapsed (Tek13.previousUptime s) ticks /\
    Tek13.TO_MACHINE_TIME Tek13.UPTIME_STORE_INTERVAL
    * unforced_writes13
        (events_since (Board.trace (Tek13.board s))
                      (Board.trace (Tek13.board (Tek13.run ticks s))))
    <= Tek13.uptime (Tek13.run ticks s) - Tek13.uptimeStoreTime s.
Proof.
  intros s ticks Inv Small.
  rewrite Tek13Facts.store_interval13 in *.
  destruct (run_throttle13 ticks s Inv Small) as (U & S & evs & T & W).
  split; [exact U|].
  rewrite T, events_since_app. lia.
Qed.

(** C6 at work: booted ON with uptime 58 500, 61 cycles one second
    apart (the first 2050 ms after reset). *)
Lemma C6_checkpoint_throttle_witness :
  Tek13.uptime
    (Tek13.run (cadence 61 2050 1000)
       (Tek13.setup (Board.power_on (Tek13.snapshot 58500 1 0 0))))
  = Tek13.uptime (Tek13.setup (Board.power_on (Tek13.snapshot 58500 1 0 0)))
    + elapsed
        (Tek13.previousUptime
           (Tek13.setup (Board.power_on (Tek13.snapshot 58500 1 0 0))))
        (cadence 61 2050 1000) /\
  Tek13.TO_MACHINE_TIME Tek13.UPTIME_STORE_INTERVAL
  * unforced_writes13
      (events_since
         (Board.trace
            (Tek13.board
               (Tek13.setup (Board.power_on (Tek13.snapshot 58500 1 0 0)))))
         (Board.trace
            (Tek13.board
               (Tek13.run (cadence 61 2050 1000)
                  (Tek13.setup
                     (Board.power_on (Tek13.snapshot 58500 1 0 0)))))))
  <= Tek13.uptime
       (Tek13.run (cadence 61 2050 1000)
          (Tek13.setup (Board.power_on (Tek13.snapshot 58500 1 0 0))))
     - Tek13.uptimeStoreTime
         (Tek13.setup (Board.power_on (Tek13.snapshot 58500 1 0 0))).
Proof.
  exact (C6_checkpoint_throttle
           (Tek13.setup (Board.power_on (Tek13.snapshot 58500 1 0 0)))
           (cadence 61 2050 1000)
           ltac:(by_eval) ltac:(by_eval)).
Defined.

(** C6 as stated fails: in that run the periodic test writes the uptime
    118 550 and, two cycles later, the ON -> OFF transition writes the
    uptime 120 550: two durable writes of the uptime within 2000 ms of
    accumulated uptime, at a cadence of one second. *)
Lemma C6_counterexample :
  filter (is_write_to Tek13.addressUptime)
    (Board.trace
       (Tek13.board
          (Tek13.run (cadence 61 2050 1000)
             (Tek13.setup (Board.power_on (Tek13.snapshot 58500 1 0 0))))))
  = [EepromWriteLong Tek13.addressUptime 120550;
     EepromWriteLong Tek13.addressUptime 118550] /\
  120550 - 118550 < Tek13.TO_MACHINE_TIME Tek13.UPTIME_STORE_INTERVAL.
Proof. by_eval. Qed.

(** ** The checkpoint near the 32-bit wrap *)

(** Away from the wrap the checkpoint keeps up: after a cycle that starts
    with the last checkpoint not ahead of the uptime, the uptime is at
    most the interval ahead of the last checkpoint. *)
Lemma checkpoint_lag13 (s : Tek13.state) (m1 m2 : Z) :
  0 <= Tek13.uptimeStoreTime s <= Tek13.uptime s ->
  Tek13.uptime s + U32.sub m1 (Tek13.previousUptime s) + 60000
  < U32.modulus ->
  Tek13.uptime (Tek13.loop m1 m2 s) - Tek13.uptimeStoreTime (Tek13.loop m1 m2 s)
  <= 60000.
Proof.
  intros Inv Small.
  pose proof (U32.sub_range m1 (Tek13.previousUptime s)) as Rd.
  unfold U32.in_range in Rd.
  assert (Adv : Tek13Facts.advanced m1 s
                = Tek13.uptime s + U32.sub m1 (Tek13.previousUptime s)).
  { unfold Tek13Facts.advanced. apply U32.add_small. lia. }
  rewrite Tek13Facts.loop_uptime13.
  unfold Tek13.loop. rewrite Tek13Facts.checkpoint_storeTime13.
  unfold Tek13.periodicUptimeSave.
  rewrite Tek13Facts.airMachine_uptime13, Tek13Facts.airMachine_storeTime13.
  rewrite Tek13Facts.readBack_uptime13, Tek13Facts.readBack_storeTime13.
  rewrite Tek13Facts.store_interval13, Adv.
  set (u := Tek13.uptime s + U32.sub m1 (Tek13.previousUptime s)) in *.
  destruct (Tek13Facts.branch_of (Tek13.readBack m1 m2 s)).
  - rewrite (U32.add_small (Tek13.uptimeStoreTime s) 60000) by lia.
    destruct (Z.gtb_spec u (Tek13.uptimeStoreTime s + 60000)); lia.
  - destruct (_ >? _); lia.
  - rewrite (U32.add_small (Tek13.uptimeStoreTime s) 60000) by lia.
    destruct (Z.gtb_spec u (Tek13.uptimeStoreTime s + 60000)); lia.
  - destruct (_ >? _); lia.
Qed.

(** With the last checkpoint at 2^32 - 60 001 the periodic test compares
    the uptime with 2^32 - 1 and can never hold. *)
Lemma checkpoint_stuck13 (s : Tek13.state) :
  Tek13.uptimeStoreTime s = 4294907295 ->
  U32.in_range (Tek13.uptime s) ->
  Tek13.periodicUptimeSave s = false.
Proof.
  intros St Ru. unfold Tek13.periodicUptimeSave. rewrite St.
  change (U32.add 4294907295
            (Tek13.TO_MACHINE_TIME Tek13.UPTIME_STORE_INTERVAL))
    with 4294967295.
  unfold U32.in_range, U32.modulus in Ru.
  destruct (Z.gtb_spec (Tek13.uptime s) 4294967295); [lia | reflexivity].
Qed.

Lemma checkpoint_stuck12 (s : Tek12.state) :
  Tek12.uptimeStoreTime s = 4294907295 ->
  U32.in_range (Tek12.uptime s) ->
  Tek12.periodicUptimeSave s = false.
Proof.
  intros St Ru. unfold Tek12.periodicUptimeSave. rewrite St.
  change (U32.add 4294907295
            (Tek12.TO_MACHINE_UPTIME Tek12.UPTIME_STORE_INTERVAL))
    with 4294967295.
  unfold U32.in_range, U32.modulus in Ru.
  destruct (Z.gtb_spec (Tek12.uptime s) 4294967295); [lia | reflexivity].
Qed.

(** C4 at the failing input.  Both sketches boot with the stored uptime
    4 294 907 295 (2^32 - 60 001), the air OFF and the last air time
    equal to the uptime, and run 200 cycles one second apart.  The uptime
    wraps; no cycle writes the uptime cell; at the end the uptime is
    more than 199 000 ms ahead of the last checkpoint, which still is
    the boot value. *)
Theorem C4_checkpoint_lost_after_wrap :
  (Tek13.uptime
     (Tek13.run (cadence 200 2050 1000)
        (Tek13.setup (Board.power_on
           (Tek13.snapshot 4294907295 0 0 4294907295)))) = 141049 /\
   Tek13.uptimeStoreTime
     (Tek13.run (cadence 200 2050 1000)
        (Tek13.setup (Board.power_on
           (Tek13.snapshot 4294907295 0 0 4294907295)))) = 4294907295 /\
   Tek13Facts.stored_uptime
     (Tek13.run (cadence 200 2050 1000)
        (Tek13.setup (Board.power_on
           (Tek13.snapshot 4294907295 0 0 4294907295)))) = 4294907295 /\
   U32.sub 141049 4294907295 = 201050 /\
   count_events (is_write_to Tek13.addressUptime)
     (Board.trace
        (Tek13.board
           (Tek13.run (cadence 200 2050 1000)
              (Tek13.setup (Board.power_on
                 (Tek13.snapshot 4294907295 0 0 4294907295))))))
   = 0%nat) /\
  (Tek12.uptime
     (Tek12.run (cadence 200 1 1000)
        (Tek12.setup (Board.power_on
           (Tek12.snapshot 4294907295 0 4294907295)))) = 139000 /\
   Tek12.uptimeStoreTime
     (Tek12.run (cadence 200 1 1000)
        (Tek12.setup (Board.power_on
           (Tek12.snapshot 4294907295 0 4294907295)))) = 4294907295 /\
   Tek12Facts.stored_uptime
     (Tek12.run (cadence 200 1 1000)
        (Tek12.setup (Board.power_on
           (Tek12.snapshot 4294907295 0 4294907295)))) = 4294907295 /\
   U32.sub 139000 4294907295 = 199001 /\
   count_events (is_write_to Tek12.addressUptime)
     (Board.trace
        (Tek12.board
           (Tek12.run (cadence 200 1 1000)
              (Tek12.setup (Board.power_on
                 (Tek12.snapshot 4294907295 0 4294907295))))))
   = 0%nat).
Proof. by_eval. Qed.

(** * Further properties of the sketches *)

(** ** The guards measure elapsed time, across the uptime wrap too *)

(** The air guards compare [uptime - timestamp] in 32 bits, so they see
    the time elapsed since the timestamp whatever the uptime counter did
    in between: with the uptime [ms] past the timestamp (modulo 2^32),
    [needAir] holds exactly while [ms] is below the air duration and
    [scheduledAir] exactly once [ms] exceeds the air interval.  Both
    sketches; in the single-timestamp one the OFF guard goes through
    [calculateTimeSinceAir]. *)
Theorem guards_measure_elapsed_time :
  forall ms : Z,
    0 <= ms < U32.modulus ->
    (forall s : Tek13.state,
        Tek13.uptime s = U32.wrap (Tek13.airStart s + ms) ->
        Tek13.needAir s = (ms <? Tek13.TO_MACHINE_TIME Tek13.AIR_DURATION)) /\
    (forall s : Tek13.state,
        Tek13.uptime s = U32.wrap (Tek13.airStop s + ms) ->
        Tek13.scheduledAir s
        = (ms >? Tek13.TO_MACHINE_TIME Tek13.AIR_INTERVAL)) /\
    (forall s : Tek12.state,
        Tek12.isAir s = true ->
        Tek12.uptime s = U32.wrap (Tek12.airStart s + ms) ->
        Tek12.needAir s
        = (ms <? Tek12.TO_MACHINE_UPTIME Tek12.AIR_DURATION)) /\
    (forall s : Tek12.state,
        Tek12.isAir s = false ->
        Tek12.uptime s = U32.wrap (Tek12.lastAir s + ms) ->
        Tek12.needAir (Tek12.calculateTimeSinceAir s)
        = (ms >? Tek12.TO_MACHINE_UPTIME Tek12.AIR_INTERVAL)).
Proof.
  intros ms Rm.
  assert (D : forall a, U32.sub (U32.wrap (a + ms)) a = ms).
  { intros a. fold (U32.add a ms). rewrite U32.sub_add_cancel.
    apply U32.wrap_small, Rm. }
  split; [|split; [|split]].
  - intros s U. unfold Tek13.needAir. rewrite U, D. reflexivity.
  - intros s U. unfold Tek13.scheduledAir. rewrite U, D. reflexivity.
  - intros s On U. unfold Tek12.needAir. rewrite On, U, D. reflexivity.
  - intros s Off U. unfold Tek12.needAir.
    change (Tek12.isAir (Tek12.calculateTimeSinceAir s)) with (Tek12.isAir s).
    rewrite Off.
    change (Tek12.timeSinceAir (Tek12.calculateTimeSinceAir s))
      with (U32.sub (Tek12.uptime s) (Tek12.lastAir s)).
    rewrite U, D. reflexivity.
Qed.

(** The guards across the wrap: the air started at 4 294 967 000 and the
    uptime has wrapped to 119 703, which is 119 999 ms later. *)
Lemma guards_measure_elapsed_time_witness :
  Tek13.needAir
    (Tek13.mkState 119703 0 0 1 4294967000 0 (Board.power_on EEPROM.blank))
  = true.
Proof.
  destruct (guards_measure_elapsed_time 119999 ltac:(by_eval)) as [A _].
  exact (A (Tek13.mkState 119703 0 0 1 4294967000 0
              (Board.power_on EEPROM.blank)) eq_refl).
Defined.

(** ** While the air is off *)

(** Events that are checkpoints of the uptime and nothing else. *)
Definition is_checkpoint13 (ev : event) : Prop :=
  exists u, ev = EepromWriteLong Tek13.addressUptime u.

Lemma idle13 m1 m2 s :
  Tek13Facts.stored_status s <> 1 ->
  Tek13Facts.stored_stop s <= Tek13Facts.advanced m1 s
  <= Tek13Facts.stored_stop s + 3600000 ->
  Tek13Facts.branch_of (Tek13.readBack m1 m2 s) = Tek13Facts.Idle.
Proof.
  intros Off W. rewrite Tek13Facts.branch_readBack13.
  apply Z.eqb_neq in Off. rewrite Off.
  rewrite U32.sub_small by (unfold U32.modulus; lia).
  destruct (Z.gtb_spec (Tek13Facts.advanced m1 s - Tek13Facts.stored_stop s)
              3600000); [lia | reflexivity].
Qed.

Lemma idle_events13 due u :
  Forall is_checkpoint13
    (Tek13Facts.checkpoint_events due u
     ++ Tek13Facts.branch_events Tek13Facts.Idle u).
Proof.
  destruct due; cbn.
  - constructor; [eexists; reflexivity | constructor].
  - constructor.
Qed.

Lemma stays_off13 ticks : forall s,
  Tek13Facts.stored_status s <> 1 ->
  Forall (fun u => Tek13Facts.stored_stop s <= u
                   <= Tek13Facts.stored_stop s + 3600000)
         (Tek13.uptimes ticks s) ->
  Tek13Facts.stored_status (Tek13.run ticks s) = Tek13Facts.stored_status s /\
  Tek13Facts.stored_start (Tek13.run ticks s) = Tek13Facts.stored_start s /\
  Tek13Facts.stored_stop (Tek13.run ticks s) = Tek13Facts.stored_stop s /\
  Tek13Facts.actuator (Tek13.run ticks s) = Tek13Facts.actuator s /\
  exists evs,
    Board.trace (Tek13.board (Tek13.run ticks s))
    = evs ++ Board.trace (Tek13.board s) /\
    Forall is_checkpoint13 evs.
Proof.
  induction ticks as [|[m1 m2] rest IH]; intros s Off W.
  - cbn [Tek13.run]. split; [reflexivity|]. split; [reflexivity|].
    split; [reflexivity|]. split; [reflexivity|].
    exists []. split; [reflexivity | constructor].
  - cbn [Tek13.run Tek13.uptimes] in W |- *.
    apply Forall_cons_iff in W. destruct W as [Wu Wrest].
    rewrite Tek13Facts.loop_uptime13 in Wu.
    pose proof (idle13 m1 m2 s Off Wu) as Br.
    assert (St : Tek13Facts.stored_status (Tek13.loop m1 m2 s)
                 = Tek13Facts.stored_status s)
      by (rewrite Tek13Facts.loop_stored_status13, Br; reflexivity).
    assert (Sa : Tek13Facts.stored_start (Tek13.loop m1 m2 s)
                 = Tek13Facts.stored_start s)
      by (rewrite Tek13Facts.loop_stored_start13, Br; reflexivity).
    assert (So : Tek13Facts.stored_stop (Tek13.loop m1 m2 s)
                 = Tek13Facts.stored_stop s)
      by (rewrite Tek13Facts.loop_stored_stop13, Br; reflexivity).
    assert (Ac : Tek13Facts.actuator (Tek13.loop m1 m2 s)
                 = Tek13Facts.actuator s)
      by (rewrite Tek13Facts.loop_actuator13, Br; reflexivity).
    rewrite <- So in Wrest. rewrite <- St in Off.
    destruct (IH (Tek13.loop m1 m2 s) Off Wrest)
      as (A & B & C & D & evs & T & E).
    split; [congruence|]. split; [congruence|]. split; [congruence|].
    split; [congruence|].
    eexists. split.
    + rewrite T, Tek13Facts.loop_trace13, Br, app_assoc. reflexivity.
    + apply Forall_app. split; [exact E | apply idle_events13].
Qed.

(** Events of the single-timestamp sketch that are a checkpoint of the
    uptime or a toggle of the life LED. *)
Definition is_checkpoint_or_life12 (ev : event) : Prop :=
  (exists u, ev = EepromWriteLong Tek12.addressUptime u) \/
  (exists level, ev = DigitalWrite PIN_LIFE level).

Lemma idle12 m1 m2 s :
  Tek12Facts.stored_status s <> 1 ->
  Tek12Facts.stored_airTime s <= Tek12Facts.advanced m1 s
  <= Tek12Facts.stored_airTime s + 3600000 ->
  Tek12Facts.branch_of (Tek12.readBack m1 m2 s) = Tek12Facts.Idle.
Proof.
  intros Off W. rewrite Tek12Facts.branch_readBack12.
  apply Z.eqb_neq in Off. rewrite Off.
  rewrite U32.sub_small by (unfold U32.modulus; lia).
  destruct (Z.gtb_spec (Tek12Facts.advanced m1 s - Tek12Facts.stored_airTime s)
              3600000); [lia | reflexivity].
Qed.

Lemma idle_events12 level due u :
  Forall is_checkpoint_or_life12
    (DigitalWrite PIN_LIFE level
     :: Tek12Facts.checkpoint_events due u
     ++ Tek12Facts.branch_events Tek12Facts.Idle u).
Proof.
  destruct due; cbn.
  - constructor; [right; eexists; reflexivity|].
    constructor; [left; eexists; reflexivity | constructor].
  - constructor; [right; eexists; reflexivity | constructor].
Qed.

Lemma stays_off12 ticks : forall s,
  Tek12Facts.stored_status s <> 1 ->
  Forall (fun u => Tek12Facts.stored_airTime s <= u
                   <= Tek12Facts.stored_airTime s + 3600000)
         (Tek12.uptimes ticks s) ->
  Tek12Facts.stored_status (Tek12.run ticks s) = Tek12Facts.stored_status s /\
  Tek12Facts.stored_airTime (Tek12.run ticks s) = Tek12Facts.stored_airTime s /\
  Tek12.airStart (Tek12.run ticks s) = Tek12.airStart s /\
  Tek12Facts.actuator (Tek12.run ticks s) = Tek12Facts.actuator s /\
  exists evs,
    Board.trace (Tek12.board (Tek12.run ticks s))
    = evs ++ Board.trace (Tek12.board s) /\
    Forall is_checkpoint_or_life12 evs.
Proof.
  induction ticks as [|[m1 m2] rest IH]; intros s Off W.
  - cbn [Tek12.run]. split; [reflexivity|]. split; [reflexivity|].
    split; [reflexivity|]. split; [reflexivity|].
    exists []. split; [reflexivity | constructor].
  - cbn [Tek12.run Tek12.uptimes] in W |- *.
    apply Forall_cons_iff in W. destruct W as [Wu Wrest].
    rewrite Tek12Facts.loop_uptime12 in Wu.
    pose proof (idle12 m1 m2 s Off Wu) as Br.
    assert (St : Tek12Facts.stored_status (Tek12.loop m1 m2 s)
                 = Tek12Facts.stored_status s)
      by (rewrite Tek12Facts.loop_stored_status12, Br; reflexivity).
    assert (Sa : Tek12Facts.stored_airTime (Tek12.loop m1 m2 s)
                 = Tek12Facts.stored_airTime s)
      by (rewrite Tek12Facts.loop_stored_airTime12, Br; reflexivity).
    assert (So : Tek12.airStart (Tek12.loop m1 m2 s) = Tek12.airStart s)
      by (rewrite Tek12Facts.loop_airStart12, Br; reflexivity).
    assert (Ac : Tek12Facts.actuator (Tek12.loop m1 m2 s)
                 = Tek12Facts.actuator s)
      by (rewrite Tek12Facts.loop_actuator12, Br; reflexivity).
    rewrite <- Sa in Wrest. rewrite <- St in Off.
    destruct (IH (Tek12.loop m1 m2 s) Off Wrest)
      as (A & B & C & D & evs & T & E).
    destruct (Tek12Facts.loop_trace12 m1 m2 s) as [level L].
    rewrite Br in L.
    split; [congruence|]. split; [congruence|]. split; [congruence|].
    split; [congruence|].
    eexists. split.
    + rewrite T, L, app_assoc. reflexivity.
    + apply Forall_app. split; [exact E | apply idle_events12].
Qed.

(** While the machine is OFF it does nothing but count and checkpoint:
    through every cycle whose uptime lies within the air interval after
    the last stop, the state byte and the timestamps keep their values,
    the actuator line keeps its level, and the only events are
    checkpoints of the uptime (and, in the single-timestamp sketch, the
    life LED).  Both sketches. *)
Theorem air_stays_off_within_interval :
  (forall (s : Tek13.state) (ticks : list (Z * Z)),
      Tek13Facts.stored_status s <> 1 ->
      Forall (fun u =>
                Tek13Facts.stored_stop s <= u
                <= Tek13Facts.stored_stop s
                   + Tek13.TO_MACHINE_TIME Tek13.AIR_INTERVAL)
             (Tek13.uptimes ticks s) ->
      Tek13Facts.stored_status (Tek13.run ticks s)
      = Tek13Facts.stored_status s /\
      Tek13Facts.stored_start (Tek13.run ticks s)
      = Tek13Facts.stored_start s /\
      Tek13Facts.stored_stop (Tek13.run ticks s)
      = Tek13Facts.stored_stop s /\
      Tek13Facts.actuator (Tek13.run ticks s) = Tek13Facts.actuator s /\
      Forall is_checkpoint13
        (events_since (Board.trace (Tek13.board s))
                      (Board.trace (Tek13.board (Tek13.run ticks s))))) /\
  (forall (s : Tek12.state) (ticks : list (Z * Z)),
      Tek12Facts.stored_status s <> 1 ->
      Forall (fun u =>
                Tek12Facts.stored_airTime s <= u
                <= Tek12Facts.stored_airTime s
                   + Tek12.TO_MACHINE_UPTIME Tek12.AIR_INTERVAL)
             (Tek12.uptimes ticks s) ->
      Tek12Facts.stored_status (Tek12.run ticks s)
      = Tek12Facts.stored_status s /\
      Tek12Facts.stored_airTime (Tek12.run ticks s)
      = Tek12Facts.stored_airTime s /\
      Tek12.airStart (Tek12.run ticks s) = Tek12.airStart s /\
      Tek12Facts.actuator (Tek12.run ticks s) = Tek12Facts.actuator s /\
      Forall is_checkpoint_or_life12
        (events_since (Board.trace (Tek12.board s))
                      (Board.trace (Tek12.board (Tek12.run ticks s))))).
Proof.
  split; intros s ticks Off W.
  - rewrite Tek13Facts.interval13 in W.
    destruct (stays_off13 ticks s Off W) as (A & B & C & D & evs & T & E).
    split; [exact A|]. split; [exact B|]. split; [exact C|].
    split; [exact D|]. rewrite T, events_since_app. exact E.
  - rewrite Tek12Facts.interval12 in W.
    destruct (stays_off12 ticks s Off W) as (A & B & C & D & evs & T & E).
    split; [exact A|]. split; [exact B|]. split; [exact C|].
    split; [exact D|]. rewrite T, events_since_app. exact E.
Qed.

(** Booted OFF with uptime 1 000 000 and the last stop at 0, seventy
    cycles one second apart: still OFF, with one checkpoint written. *)
Lemma air_stays_off_within_interval_witness :
  Tek13Facts.stored_status
    (Tek13.run (cadence 70 2050 1000)
       (Tek13.setup (Board.power_on (Tek13.snapshot 1000000 0 0 0))))
  = Tek13Facts.stored_status
      (Tek13.setup (Board.power_on (Tek13.snapshot 1000000 0 0 0))) /\
  Tek12Facts.stored_status
    (Tek12.run (cadence 70 1 1000)
       (Tek12.setup (Board.power_on (Tek12.snapshot 1000000 0 0))))
  = Tek12Facts.stored_status
      (Tek12.setup (Board.power_on (Tek12.snapshot 1000000 0 0))).
Proof.
  destruct air_stays_off_within_interval as [H13 H12].
  split.
  - exact (proj1 (H13 (Tek13.setup
                         (Board.power_on (Tek13.snapshot 1000000 0 0 0)))
                      (cadence 70 2050 1000)
                      ltac:(by_eval) ltac:(forall_by_eval))).
  - exact (proj1 (H12 (Tek12.setup
                         (Board.power_on (Tek12.snapshot 1000000 0 0)))
                      (cadence 70 1 1000)
                      ltac:(by_eval) ltac:(forall_by_eval))).
Defined.

(** ** Transitions alternate *)

(** The values written to the byte cell at [a], oldest first, read off a
    trace (which has the newest event first). *)
Fixpoint byte_writes (a : Z) (evs : list event) : list Z :=
  match evs with
  | [] => []
  | EepromUpdateByte q v :: rest =>
      if q =? a then byte_writes a rest ++ [v] else byte_writes a rest
  | _ :: rest => byte_writes a rest
  end.

(** [next; 1 - next; next; ...] *)
Fixpoint alternates (next : Z) (l : list Z) : Prop :=
  match l with
  | [] => True
  | v :: rest => v = next /\ alternates (1 - next) rest
  end.

(** The state the next transition leads to: ON (1) unless the stored
    state byte is 1. *)
Definition next_state (stored : Z) : Z := if stored =? 1 then 0 else 1.

Lemma byte_writes_app a x y :
  byte_writes a (x ++ y) = byte_writes a y ++ byte_writes a x.
Proof.
  induction x as [|ev x IH]; cbn [app byte_writes].
  - symmetry. apply app_nil_r.
  - destruct ev; try exact IH.
    destruct (address =? a); [|exact IH].
    rewrite IH, app_assoc. reflexivity.
Qed.

Lemma branch_status13 m1 m2 s :
  match Tek13Facts.branch_of (Tek13.readBack m1 m2 s) with
  | Tek13Facts.Start | Tek13Facts.Idle =>
      (Tek13Facts.stored_status s =? 1) = false
  | Tek13Facts.Stop | Tek13Facts.Continue =>
      (Tek13Facts.stored_status s =? 1) = true
  end.
Proof.
  rewrite Tek13Facts.branch_readBack13.
  destruct (Tek13Facts.stored_status s =? 1).
  - destruct (_ <? _); reflexivity.
  - destruct (_ >? _); reflexivity.
Qed.

Lemma branch_status12 m1 m2 s :
  match Tek12Facts.branch_of (Tek12.readBack m1 m2 s) with
  | Tek12Facts.Start | Tek12Facts.Idle =>
      (Tek12Facts.stored_status s =? 1) = false
  | Tek12Facts.Stop | Tek12Facts.Continue =>
      (Tek12Facts.stored_status s =? 1) = true
  end.
Proof.
  rewrite Tek12Facts.branch_readBack12.
  destruct (Tek12Facts.stored_status s =? 1).
  - destruct (_ <? _); reflexivity.
  - destruct (_ >? _); reflexivity.
Qed.

Lemma cycle_byte_writes13 due br u :
  byte_writes Tek13.addressAirStatus
    (Tek13Facts.checkpoint_events due u ++ Tek13Facts.branch_events br u)
  = match br with
    | Tek13Facts.Start => [1]
    | Tek13Facts.Stop => [0]
    | Tek13Facts.Idle | Tek13Facts.Continue => []
    end.
Proof. destruct due, br; reflexivity. Qed.

Lemma cycle_byte_writes12 level due br u :
  byte_writes Tek12.addressAirStatus
    (DigitalWrite PIN_LIFE level
     :: Tek12Facts.checkpoint_events due u ++ Tek12Facts.branch_events br u)
  = match br with
    | Tek12Facts.Start => [1]
    | Tek12Facts.Stop => [0]
    | Tek12Facts.Idle | Tek12Facts.Continue => []
    end.
Proof. destruct due, br; reflexivity. Qed.

Lemma alternates13 ticks : forall s,
  exists evs,
    Board.trace (Tek13.board (Tek13.run ticks s))
    = evs ++ Board.trace (Tek13.board s) /\
    alternates (next_state (Tek13Facts.stored_status s))
               (byte_writes Tek13.addressAirStatus evs).
Proof.
  induction ticks as [|[m1 m2] rest IH]; intros s.
  - exists []. split; [reflexivity | exact I].
  - cbn [Tek13.run].
    destruct (IH (Tek13.loop m1 m2 s)) as (evs & T & A).
    eexists. split.
    + rewrite T, Tek13Facts.loop_trace13, app_assoc. reflexivity.
    + rewrite byte_writes_app, cycle_byte_writes13.
      rewrite Tek13Facts.loop_stored_status13 in A.
      pose proof (branch_status13 m1 m2 s) as B.
      unfold next_state in *.
      destruct (Tek13Facts.branch_of (Tek13.readBack m1 m2 s)).
      * exact A.
      * rewrite B. split; [reflexivity | exact A].
      * exact A.
      * rewrite B. split; [reflexivity | exact A].
Qed.

Lemma alternates12 ticks : forall s,
  exists evs,
    Board.trace (Tek12.board (Tek12.run ticks s))
    = evs ++ Board.trace (Tek12.board s) /\
    alternates (next_state (Tek12Facts.stored_status s))
               (byte_writes Tek12.addressAirStatus evs).
Proof.
  induction ticks as [|[m1 m2] rest IH]; intros s.
  - exists []. split; [reflexivity | exact I].
  - cbn [Tek12.run].
    destruct (IH (Tek12.loop m1 m2 s)) as (evs & T & A).
    destruct (Tek12Facts.loop_trace12 m1 m2 s) as [level L].
    eexists. split.
    + rewrite T, L, app_assoc. reflexivity.
    + rewrite byte_writes_app, cycle_byte_writes12.
      rewrite Tek12Facts.loop_stored_status12 in A.
      pose proof (branch_status12 m1 m2 s) as B.
      unfold next_state in *.
      destruct (Tek12Facts.branch_of (Tek12.readBack m1 m2 s)).
      * exact A.
      * rewrite B. split; [reflexivity | exact A].
      * exact A.
      * rewrite B. split; [reflexivity | exact A].
Qed.

(** Over any run, from any state, the writes of the air-state byte
    alternate: the first one stores 1 unless the byte already is 1 (then
    it stores 0), and each later one stores the other value.  The machine
    never stores ON twice in a row, nor OFF twice.  Both sketches. *)
Theorem transitions_alternate :
  (forall (s : Tek13.state) (ticks : list (Z * Z)),
      alternates (next_state (Tek13Facts.stored_status s))
        (byte_writes Tek13.addressAirStatus
           (events_since (Board.trace (Tek13.board s))
                         (Board.trace (Tek13.board (Tek13.run ticks s)))))) /\
  (forall (s : Tek12.state) (ticks : list (Z * Z)),
      alternates (next_state (Tek12Facts.stored_status s))
        (byte_writes Tek12.addressAirStatus
           (events_since (Board.trace (Tek12.board s))
                         (Board.trace (Tek12.board (Tek12.run ticks s)))))).
Proof.
  split; intros s ticks.
  - destruct (alternates13 ticks s) as (evs & T & A).
    rewrite T, events_since_app. exact A.
  - destruct (alternates12 ticks s) as (evs & T & A).
    rewrite T, events_since_app. exact A.
Qed.

(** ** What a power loss costs *)

(** The checkpoint invariant: the EEPROM uptime cell holds the last
    checkpoint, and the uptime is ahead of it by at most the interval. *)
Definition checkpointed13 (s : Tek13.state) : Prop :=
  Tek13Facts.stored_uptime s = Tek13.uptimeStoreTime s /\
  Tek13.uptimeStoreTime s <= Tek13.uptime s <= Tek13.uptimeStoreTime s + 60000.

Definition checkpointed12 (s : Tek12.state) : Prop :=
  Tek12Facts.stored_uptime s = Tek12.uptimeStoreTime s /\
  Tek12.uptimeStoreTime s <= Tek12.uptime s <= Tek12.uptimeStoreTime s + 60000.

(** Uptime writes of a trace of the single-timestamp sketch. *)
Definition uptime_writes12 (evs : list event) : Z :=
  Z.of_nat (count_events (is_write_to Tek12.addressUptime) evs).

Lemma uptime_writes12_app a b :
  uptime_writes12 (a ++ b) = uptime_writes12 a + uptime_writes12 b.
Proof. unfold uptime_writes12. rewrite count_events_app. lia. Qed.

Lemma stored_uptime_nonneg13 s : 0 <= Tek13Facts.stored_uptime s.
Proof.
  pose proof (EEPROM.readLong_range (Board.eeprom (Tek13.board s))
                Tek13.addressUptime) as R.
  unfold U32.in_range in R. exact (proj1 R).
Qed.

Lemma stored_uptime_nonneg12 s : 0 <= Tek12Facts.stored_uptime s.
Proof.
  pose proof (EEPROM.readLong_range (Board.eeprom (Tek12.board s))
                Tek12.addressUptime) as R.
  unfold U32.in_range in R. exact (proj1 R).
Qed.

Lemma mirror13 (s : Tek13.state) (m1 m2 : Z) :
  Tek13Facts.stored_uptime s = Tek13.uptimeStoreTime s ->
  Tek13Facts.stored_uptime (Tek13.loop m1 m2 s)
  = Tek13.uptimeStoreTime (Tek13.loop m1 m2 s).
Proof.
  intros M. unfold Tek13.loop.
  rewrite Tek13Facts.checkpoint_stored_uptime13,
    Tek13Facts.checkpoint_storeTime13,
    Tek13Facts.airMachine_stored_uptime13,
    Tek13Facts.airMachine_storeTime13,
    Tek13Facts.airMachine_uptime13.
  rewrite Tek13Facts.readBack_uptime13, Tek13Facts.readBack_storeTime13.
  rewrite (U32.wrap_small _ (Tek13Facts.advanced_range13 m1 s)).
  change (Tek13Facts.stored_uptime (Tek13.readBack m1 m2 s))
    with (Tek13Facts.stored_uptime s).
  rewrite M. destruct (Tek13.periodicUptimeSave _); reflexivity.
Qed.

Lemma cycle_checkpointed13 (s : Tek13.state) (m1 m2 : Z) :
  checkpointed13 s ->
  Tek13.uptime s + U32.sub m1 (Tek13.previousUptime s) + 60000
  < U32.modulus ->
  checkpointed13 (Tek13.loop m1 m2 s) /\
  Tek13.uptime (Tek13.loop m1 m2 s)
  = Tek13.uptime s + U32.sub m1 (Tek13.previousUptime s) /\
  Tek13.uptimeStoreTime s <= Tek13.uptimeStoreTime (Tek13.loop m1 m2 s).
Proof.
  intros (M & L) Small.
  pose proof (stored_uptime_nonneg13 s) as P. rewrite M in P.
  destruct (cycle_throttle13 s m1 m2) as (U & S & _); [lia | exact Small |].
  pose proof (checkpoint_lag13 s m1 m2 ltac:(lia) Small) as G.
  split; [|split; [exact U | lia]].
  split; [apply mirror13, M | lia].
Qed.

Lemma run_checkpointed13 ticks : forall s : Tek13.state,
  checkpointed13 s ->
  Tek13.uptime s + elapsed (Tek13.previousUptime s) ticks + 60000
  < U32.modulus ->
  checkpointed13 (Tek13.run ticks s) /\
  Tek13.uptime (Tek13.run ticks s)
  = Tek13.uptime s + elapsed (Tek13.previousUptime s) ticks /\
  Tek13.uptimeStoreTime s <= Tek13.uptimeStoreTime (Tek13.run ticks s).
Proof.
  induction ticks as [|[m1 m2] rest IH]; intros s Ck Small.
  - cbn [Tek13.run elapsed]. split; [exact Ck|]. lia.
  - cbn [Tek13.run elapsed] in Small |- *.
    pose proof (elapsed_nonneg rest (U32.wrap m2)) as Pos.
    destruct (cycle_checkpointed13 s m1 m2 Ck) as (Ck' & U & S); [lia|].
    destruct (IH (Tek13.loop m1 m2 s) Ck') as (Ck'' & U' & S').
    + rewrite Tek13Facts.loop_previous13, U. lia.
    + rewrite Tek13Facts.loop_previous13 in U'.
      split; [exact Ck''|]. lia.
Qed.

Lemma setup_checkpointed13 b : checkpointed13 (Tek13.setup b).
Proof.
  unfold checkpointed13.
  change (Tek13.uptimeStoreTime (Tek13.setup b))
    with (Tek13Facts.stored_uptime (Tek13.setup b)).
  change (Tek13.uptime (Tek13.setup b))
    with (Tek13Facts.stored_uptime (Tek13.setup b)).
  split; [reflexivity | lia].
Qed.

(** One cycle of the single-timestamp sketch, away from the wrap. *)
Lemma cycle_checkpointed12 (s : Tek12.state) (m1 m2 : Z) :
  checkpointed12 s ->
  Tek12.uptime s + U32.sub m1 (Tek12.previousUptime s) + 60000
  < U32.modulus ->
  checkpointed12 (Tek12.loop m1 m2 s) /\
  Tek12.uptime (Tek12.loop m1 m2 s)
  = Tek12.uptime s + U32.sub m1 (Tek12.previousUptime s) /\
  Tek12.uptimeStoreTime s <= Tek12.uptimeStoreTime (Tek12.loop m1 m2 s) /\
  60000 * uptime_writes12 (Tek12Facts.cycle_events m1 m2 s)
  <= Tek12.uptimeStoreTime (Tek12.loop m1 m2 s) - Tek12.uptimeStoreTime s.
Proof.
  intros (M & L) Small.
  pose proof (stored_uptime_nonneg12 s) as P. rewrite M in P.
  pose proof (U32.sub_range m1 (Tek12.previousUptime s)) as Rd.
  unfold U32.in_range in Rd.
  assert (Adv : Tek12Facts.advanced m1 s
                = Tek12.uptime s + U32.sub m1 (Tek12.previousUptime s)).
  { unfold Tek12Facts.advanced. apply U32.add_small. lia. }
  assert (Due : Tek12.periodicUptimeSave
                  (Tek12.airMachine (Tek12.readBack m1 m2 s))
                = (Tek12Facts.advanced m1 s
                   >? Tek12.uptimeStoreTime s + 60000)).
  { unfold Tek12.periodicUptimeSave.
    rewrite Tek12Facts.airMachine_uptime12, Tek12Facts.airMachine_storeTime12.
    rewrite Tek12Facts.store_interval12.
    change (Tek12.uptime (Tek12.readBack m1 m2 s))
      with (Tek12Facts.advanced m1 s).
    change (Tek12.uptimeStoreTime (Tek12.readBack m1 m2 s))
      with (Tek12.uptimeStoreTime s).
    rewrite (U32.add_small (Tek12.uptimeStoreTime s) 60000) by lia.
    reflexivity. }
  destruct (Tek12Facts.cycle_events12 m1 m2 s) as [level Ev].
  unfold checkpointed12.
  rewrite Tek12Facts.loop_stored_uptime12, Tek12Facts.loop_storeTime12,
    Tek12Facts.loop_uptime12, Ev, Due, Adv.
  set (u := Tek12.uptime s + U32.sub m1 (Tek12.previousUptime s)) in *.
  assert (W : uptime_writes12
                (DigitalWrite PIN_LIFE level
                 :: Tek12Facts.checkpoint_events
                      (u >? Tek12.uptimeStoreTime s + 60000) u
                 ++ Tek12Facts.branch_events
                      (Tek12Facts.branch_of (Tek12.readBack m1 m2 s)) u)
              = if u >? Tek12.uptimeStoreTime s + 60000 then 1 else 0).
  { destruct (Tek12Facts.branch_of (Tek12.readBack m1 m2 s)),
      (u >? Tek12.uptimeStoreTime s + 60000); reflexivity. }
  rewrite W.
  destruct (Z.gtb_spec u (Tek12.uptimeStoreTime s + 60000)).
  - split; [split; [reflexivity | lia]|]. split; [reflexivity|]. lia.
  - split; [split; [exact M | lia]|]. split; [reflexivity|]. lia.
Qed.

Lemma run_checkpointed12 ticks : forall s : Tek12.state,
  checkpointed12 s ->
  Tek12.uptime s + elapsed (Tek12.previousUptime s) ticks + 60000
  < U32.modulus ->
  checkpointed12 (Tek12.run ticks s) /\
  Tek12.uptime (Tek12.run ticks s)
  = Tek12.uptime s + elapsed (Tek12.previousUptime s) ticks /\
  Tek12.uptimeStoreTime s <= Tek12.uptimeStoreTime (Tek12.run ticks s) /\
  exists evs,
    Board.trace (Tek12.board (Tek12.run ticks s))
    = evs ++ Board.trace (Tek12.board s) /\
    60000 * uptime_writes12 evs
    <= Tek12.uptimeStoreTime (Tek12.run ticks s) - Tek12.uptimeStoreTime s.
Proof.
  induction ticks as [|[m1 m2] rest IH]; intros s Ck Small.
  - cbn [Tek12.run elapsed]. split; [exact Ck|]. split; [lia|].
    split; [lia|]. exists []. split; [reflexivity|]. cbn. lia.
  - cbn [Tek12.run elapsed] in Small |- *.
    pose proof (elapsed_nonneg rest (U32.wrap m2)) as Pos.
    destruct (cycle_checkpointed12 s m1 m2 Ck) as (Ck' & U & S & W); [lia|].
    destruct (IH (Tek12.loop m1 m2 s) Ck') as (Ck'' & U' & S' & evs & T & W').
    + rewrite Tek12Facts.loop_previous12, U. lia.
    + rewrite Tek12Facts.loop_previous12 in U'.
      split; [exact Ck''|]. split; [lia|]. split; [lia|].
      exists (evs ++ Tek12Facts.cycle_events m1 m2 s). split.
      * rewrite T. unfold Tek12Facts.cycle_events.
        destruct (Tek12Facts.loop_trace12 m1 m2 s) as [level L].
        rewrite L, events_since_app, <- app_assoc. reflexivity.
      * rewrite uptime_writes12_app. lia.
Qed.

Lemma setup_checkpointed12 b : checkpointed12 (Tek12.setup b).
Proof.
  unfold checkpointed12.
  change (Tek12.uptimeStoreTime (Tek12.setup b))
    with (Tek12Facts.stored_uptime (Tek12.setup b)).
  change (Tek12.uptime (Tek12.setup b))
    with (Tek12Facts.stored_uptime (Tek12.setup b)).
  split; [reflexivity | lia].
Qed.

(** "Maximum 60 seconds uptime loss".  Boot from any EEPROM, run any
    number of cycles that keep the uptime more than the interval short
    of the 32-bit wrap, cut the power after a cycle and boot again: the
    uptime restored by [setup] is the last checkpoint, it is not ahead
    of the uptime the sketch had reached, and it is at most 60 000 ms
    behind it.  Both sketches. *)
Theorem uptime_loss_bounded :
  (forall (e : EEPROM.t) (ticks : list (Z * Z)),
      EEPROM.readLong e Tek13.addressUptime + elapsed 0 ticks
      + Tek13.TO_MACHINE_TIME Tek13.UPTIME_STORE_INTERVAL < U32.modulus ->
      Tek13.uptime
        (Tek13.setup
           (Board.power_on
              (Board.eeprom
                 (Tek13.board
                    (Tek13.run ticks (Tek13.setup (Board.power_on e)))))))
      = Tek13.uptimeStoreTime
          (Tek13.run ticks (Tek13.setup (Board.power_on e))) /\
      0 <= Tek13.uptime (Tek13.run ticks (Tek13.setup (Board.power_on e)))
           - Tek13.uptime
               (Tek13.setup
                  (Board.power_on
                     (Board.eeprom
                        (Tek13.board
                           (Tek13.run ticks
                              (Tek13.setup (Board.power_on e)))))))
        <= Tek13.TO_MACHINE_TIME Tek13.UPTIME_STORE_INTERVAL) /\
  (forall (e : EEPROM.t) (ticks : list (Z * Z)),
      EEPROM.readLong e Tek12.addressUptime + elapsed 0 ticks
      + Tek12.TO_MACHINE_UPTIME Tek12.UPTIME_STORE_INTERVAL < U32.modulus ->
      Tek12.uptime
        (Tek12.setup
           (Board.power_on
              (Board.eeprom
                 (Tek12.board
                    (Tek12.run ticks (Tek12.setup (Board.power_on e)))))))
      = Tek12.uptimeStoreTime
          (Tek12.run ticks (Tek12.setup (Board.power_on e))) /\
      0 <= Tek12.uptime (Tek12.run ticks (Tek12.setup (Board.power_on e)))
           - Tek12.uptime
               (Tek12.setup
                  (Board.power_on
                     (Board.eeprom
                        (Tek12.board
                           (Tek12.run ticks
                              (Tek12.setup (Board.power_on e)))))))
        <= Tek12.TO_MACHINE_UPTIME Tek12.UPTIME_STORE_INTERVAL).
Proof.
  split; intros e ticks Small.
  - rewrite Tek13Facts.store_interval13 in *.
    set (s := Tek13.run ticks (Tek13.setup (Board.power_on e))).
    destruct (run_checkpointed13 ticks (Tek13.setup (Board.power_on e))
                (setup_checkpointed13 _) Small) as ((M & L) & _).
    fold s in M, L.
    change (Tek13.uptime
              (Tek13.setup (Board.power_on (Board.eeprom (Tek13.board s)))))
      with (Tek13Facts.stored_uptime s).
    rewrite M. split; [reflexivity | lia].
  - rewrite Tek12Facts.store_interval12 in *.
    set (s := Tek12.run ticks (Tek12.setup (Board.power_on e))).
    destruct (run_checkpointed12 ticks (Tek12.setup (Board.power_on e))
                (setup_checkpointed12 _) Small) as ((M & L) & _).
    fold s in M, L.
    change (Tek12.uptime
              (Tek12.setup (Board.power_on (Board.eeprom (Tek12.board s)))))
      with (Tek12Facts.stored_uptime s).
    rewrite M. split; [reflexivity | lia].
Qed.

(** Booted with uptime 58 500, 61 cycles one second apart, then a power
    loss: the next boot restores the last checkpoint. *)
Lemma uptime_loss_bounded_witness :
  Tek13.uptime
    (Tek13.setup
       (Board.power_on
          (Board.eeprom
             (Tek13.board
                (Tek13.run (cadence 61 2050 1000)
                   (Tek13.setup
                      (Board.power_on (Tek13.snapshot 58500 0 0 0))))))))
  = Tek13.uptimeStoreTime
      (Tek13.run (cadence 61 2050 1000)
         (Tek13.setup (Board.power_on (Tek13.snapshot 58500 0 0 0)))) /\
  Tek12.uptime
    (Tek12.setup
       (Board.power_on
          (Board.eeprom
             (Tek12.board
                (Tek12.run (cadence 61 1 1000)
                   (Tek12.setup
                      (Board.power_on (Tek12.snapshot 58500 0 0))))))))
  = Tek12.uptimeStoreTime
      (Tek12.run (cadence 61 1 1000)
         (Tek12.setup (Board.power_on (Tek12.snapshot 58500 0 0)))).
Proof.
  destruct uptime_loss_bounded as [H13 H12].
  split.
  - exact (proj1 (H13 (Tek13.snapshot 58500 0 0 0) (cadence 61 2050 1000)
                      ltac:(by_eval))).
  - exact (proj1 (H12 (Tek12.snapshot 58500 0 0) (cadence 61 1 1000)
                      ltac:(by_eval))).
Defined.

(** Checkpoint throttling in the single-timestamp sketch, where nothing
    but the periodic test writes the uptime: over any run that starts
    from a checkpointed state and keeps the uptime more than the interval
    short of the 32-bit wrap, the uptime cell is written at most once
    per 60 000 ms of uptime accumulated since the last checkpoint. *)
Theorem checkpoint_throttle12 :
  forall (s : Tek12.state) (ticks : list (Z * Z)),
    checkpointed12 s ->
    Tek12.uptime s + elapsed (Tek12.previousUptime s) ticks
    + Tek12.TO_MACHINE_UPTIME Tek12.UPTIME_STORE_INTERVAL < U32.modulus ->
    Tek12.TO_MACHINE_UPTIME Tek12.UPTIME_STORE_INTERVAL
    * uptime_writes12
        (events_since (Board.trace (Tek12.board s))
                      (Board.trace (Tek12.board (Tek12.run ticks s))))
    <= Tek12.uptime (Tek12.run ticks s) - Tek12.uptimeStoreTime s.
Proof.
  intros s ticks Ck Small.
  rewrite Tek12Facts.store_interval12 in *.
  destruct (run_checkpointed12 ticks s Ck Small)
    as ((_ & L) & _ & _ & evs & T & W).
  rewrite T, events_since_app. lia.
Qed.

(** Booted with uptime 0: 200 cycles one second apart write the uptime
    cell at most three times. *)
Lemma checkpoint_throttle12_witness :
  Tek12.TO_MACHINE_UPTIME Tek12.UPTIME_STORE_INTERVAL
  * uptime_writes12
      (events_since
         (Board.trace
            (Tek12.board (Tek12.setup (Board.power_on EEPROM.blank))))
         (Board.trace
            (Tek12.board
               (Tek12.run (cadence 200 1 1000)
                  (Tek12.setup (Board.power_on EEPROM.blank))))))
  <= Tek12.uptime
       (Tek12.run (cadence 200 1 1000)
          (Tek12.setup (Board.power_on EEPROM.blank)))
     - Tek12.uptimeStoreTime (Tek12.setup (Board.power_on EEPROM.blank)).
Proof.
  exact (checkpoint_throttle12
           (Tek12.setup (Board.power_on EEPROM.blank))
           (cadence 200 1 1000)
           (setup_checkpointed12 _) ltac:(by_eval)).
Defined.

(** ** Timestamps never run ahead of the uptime *)

Lemma cycle_uptime13 (s : Tek13.state) (m1 m2 : Z) :
  0 <= Tek13.uptime s ->
  Tek13.uptime s + U32.sub m1 (Tek13.previousUptime s) < U32.modulus ->
  Tek13.uptime (Tek13.loop m1 m2 s)
  = Tek13.uptime s + U32.sub m1 (Tek13.previousUptime s).
Proof.
  intros P Small. rewrite Tek13Facts.loop_uptime13.
  pose proof (U32.sub_range m1 (Tek13.previousUptime s)) as Rd.
  unfold U32.in_range in Rd.
  unfold Tek13Facts.advanced. apply U32.add_small. lia.
Qed.

Lemma cycle_uptime12 (s : Tek12.state) (m1 m2 : Z) :
  0 <= Tek12.uptime s ->
  Tek12.uptime s + U32.sub m1 (Tek12.previousUptime s) < U32.modulus ->
  Tek12.uptime (Tek12.loop m1 m2 s)
  = Tek12.uptime s + U32.sub m1 (Tek12.previousUptime s).
Proof.
  intros P Small. rewrite Tek12Facts.loop_uptime12.
  pose proof (U32.sub_range m1 (Tek12.previousUptime s)) as Rd.
  unfold U32.in_range in Rd.
  unfold Tek12Facts.advanced. apply U32.add_small. lia.
Qed.

Lemma run_timestamps13 ticks : forall s : Tek13.state,
  0 <= Tek13.uptime s ->
  Tek13.uptime s + elapsed (Tek13.previousUptime s) ticks < U32.modulus ->
  Tek13Facts.stored_start s <= Tek13.uptime s ->
  Tek13Facts.stored_stop s <= Tek13.uptime s ->
  Tek13.uptime s <= Tek13.uptime (Tek13.run ticks s) /\
  Tek13Facts.stored_start (Tek13.run ticks s) <= Tek13.uptime (Tek13.run ticks s) /\
  Tek13Facts.stored_stop (Tek13.run ticks s) <= Tek13.uptime (Tek13.run ticks s).
Proof.
  induction ticks as [|[m1 m2] rest IH]; intros s P Small A B.
  - cbn [Tek13.run]. lia.
  - cbn [Tek13.run elapsed] in Small |- *.
    pose proof (elapsed_nonneg rest (U32.wrap m2)) as Pos.
    pose proof (U32.sub_range m1 (Tek13.previousUptime s)) as Rd.
    unfold U32.in_range in Rd.
    pose proof (cycle_uptime13 s m1 m2 P ltac:(lia)) as U.
    assert (U' : Tek13Facts.advanced m1 s = Tek13.uptime (Tek13.loop m1 m2 s))
      by (symmetry; apply Tek13Facts.loop_uptime13).
    destruct (IH (Tek13.loop m1 m2 s)) as (C & D & E).
    + lia.
    + rewrite Tek13Facts.loop_previous13, U. lia.
    + rewrite Tek13Facts.loop_stored_start13, U'.
      destruct (Tek13Facts.branch_of _); lia.
    + rewrite Tek13Facts.loop_stored_stop13, U'.
      destruct (Tek13Facts.branch_of _); lia.
    + split; [lia|]. split; assumption.
Qed.

Lemma run_timestamps12 ticks : forall s : Tek12.state,
  0 <= Tek12.uptime s ->
  Tek12.uptime s + elapsed (Tek12.previousUptime s) ticks < U32.modulus ->
  Tek12Facts.stored_airTime s <= Tek12.uptime s ->
  Tek12.airStart s <= Tek12.uptime s ->
  Tek12.uptime s <= Tek12.uptime (Tek12.run ticks s) /\
  Tek12Facts.stored_airTime (Tek12.run ticks s)
  <= Tek12.uptime (Tek12.run ticks s) /\
  Tek12.airStart (Tek12.run ticks s) <= Tek12.uptime (Tek12.run ticks s).
Proof.
  induction ticks as [|[m1 m2] rest IH]; intros s P Small A B.
  - cbn [Tek12.run]. lia.
  - cbn [Tek12.run elapsed] in Small |- *.
    pose proof (elapsed_nonneg rest (U32.wrap m2)) as Pos.
    pose proof (U32.sub_range m1 (Tek12.previousUptime s)) as Rd.
    unfold U32.in_range in Rd.
    pose proof (cycle_uptime12 s m1 m2 P ltac:(lia)) as U.
    assert (U' : Tek12Facts.advanced m1 s = Tek12.uptime (Tek12.loop m1 m2 s))
      by (symmetry; apply Tek12Facts.loop_uptime12).
    destruct (IH (Tek12.loop m1 m2 s)) as (C & D & E).
    + lia.
    + rewrite Tek12Facts.loop_previous12, U. lia.
    + rewrite Tek12Facts.loop_stored_airTime12, U'.
      destruct (Tek12Facts.branch_of _); lia.
    + rewrite Tek12Facts.loop_airStart12, U'.
      destruct (Tek12Facts.branch_of _); lia.
    + split; [lia|]. split; assumption.
Qed.

(** As long as the 32-bit uptime does not wrap, it never goes back and
    no air timestamp gets ahead of it: if the stored timestamps (and, in
    the single-timestamp sketch, [airStart]) are at most the uptime
    before a run, they are at most the uptime after it.  Both
    sketches. *)
Theorem timestamps_not_ahead_of_uptime :
  (forall (s : Tek13.state) (ticks : list (Z * Z)),
      0 <= Tek13.uptime s ->
      Tek13.uptime s + elapsed (Tek13.previousUptime s) ticks < U32.modulus ->
      Tek13Facts.stored_start s <= Tek13.uptime s ->
      Tek13Facts.stored_stop s <= Tek13.uptime s ->
      Tek13.uptime s <= Tek13.uptime (Tek13.run ticks s) /\
      Tek13Facts.stored_start (Tek13.run ticks s)
      <= Tek13.uptime (Tek13.run ticks s) /\
      Tek13Facts.stored_stop (Tek13.run ticks s)
      <= Tek13.uptime (Tek13.run ticks s)) /\
  (forall (s : Tek12.state) (ticks : list (Z * Z)),
      0 <= Tek12.uptime s ->
      Tek12.uptime s + elapsed (Tek12.previousUptime s) ticks < U32.modulus ->
      Tek12Facts.stored_airTime s <= Tek12.uptime s ->
      Tek12.airStart s <= Tek12.uptime s ->
      Tek12.uptime s <= Tek12.uptime (Tek12.run ticks s) /\
      Tek12Facts.stored_airTime (Tek12.run ticks s)
      <= Tek12.uptime (Tek12.run ticks s) /\
      Tek12.airStart (Tek12.run ticks s)
      <= Tek12.uptime (Tek12.run ticks s)).
Proof.
  split; intros s ticks.
  - apply run_timestamps13.
  - apply run_timestamps12.
Qed.

(** Booted with uptime 3 600 000 and both timestamps 0; 130 cycles start
    and stop the air once. *)
Lemma timestamps_not_ahead_of_uptime_witness :
  Tek13Facts.stored_stop
    (Tek13.run (cadence 130 2050 1000)
       (Tek13.setup (Board.power_on (Tek13.snapshot 3600000 0 0 0))))
  <= Tek13.uptime
       (Tek13.run (cadence 130 2050 1000)
          (Tek13.setup (Board.power_on (Tek13.snapshot 3600000 0 0 0)))) /\
  Tek12Facts.stored_airTime
    (Tek12.run (cadence 130 1 1000)
       (Tek12.setup (Board.power_on (Tek12.snapshot 3600000 0 0))))
  <= Tek12.uptime
       (Tek12.run (cadence 130 1 1000)
          (Tek12.setup (Board.power_on (Tek12.snapshot 3600000 0 0)))).
Proof.
  destruct timestamps_not_ahead_of_uptime as [H13 H12].
  split.
  - exact (proj2 (proj2 (H13 (Tek13.setup
                                (Board.power_on
                                   (Tek13.snapshot 3600000 0 0 0)))
                             (cadence 130 2050 1000)
                             ltac:(by_eval) ltac:(by_eval)
                             ltac:(by_eval) ltac:(by_eval)))).
  - exact (proj1 (proj2 (H12 (Tek12.setup
                                (Board.power_on (Tek12.snapshot 3600000 0 0)))
                             (cadence 130 1 1000)
                             ltac:(by_eval) ltac:(by_eval)
                             ltac:(by_eval) ltac:(by_eval)))).
Defined.

(** ** The single-timestamp sketch across a power loss *)

Lemma continue_keeps_airTime12 ticks : forall s,
  Tek12Facts.stored_status s = 1 ->
  Forall (fun u => Tek12.airStart s <= u < Tek12.airStart s + 120000)
         (Tek12.uptimes ticks s) ->
  Tek12Facts.stored_airTime (Tek12.run ticks s) = Tek12Facts.stored_airTime s.
Proof.
  induction ticks as [|[m1 m2] rest IH]; intros s On W.
  - reflexivity.
  - cbn [Tek12.run Tek12.uptimes] in W |- *.
    apply Forall_cons_iff in W. destruct W as [Wu Wrest].
    rewrite Tek12Facts.loop_uptime12 in Wu.
    pose proof (Tek12Facts.continue12 m1 m2 s On Wu) as Br.
    assert (On' : Tek12Facts.stored_status (Tek12.loop m1 m2 s) = 1)
      by (rewrite Tek12Facts.loop_stored_status12, Br; exact On).
    assert (St' : Tek12.airStart (Tek12.loop m1 m2 s) = Tek12.airStart s)
      by (rewrite Tek12Facts.loop_airStart12, Br; reflexivity).
    rewrite <- St' in Wrest.
    rewrite (IH (Tek12.loop m1 m2 s) On' Wrest).
    rewrite Tek12Facts.loop_stored_airTime12, Br. reflexivity.
Qed.

(** The single-timestamp sketch keeps the start of an air cycle in RAM
    only; [initAir] reloads [airStart] from the air-time cell, which
    holds the last stop.  So the air cycle does not survive a power loss.
    Take a checkpointed state with the machine OFF and the last stop not
    ahead of the uptime, a cycle that starts the air, then any number of
    cycles within the air duration (no uptime wrap): the air is ON.  Cut
    the power and boot: the first cycle turns the air OFF, drives the
    actuator line low and stores its uptime as the stop time, however
    short the air had been on. *)
Theorem air_cycle_lost_on_reboot12 :
  forall (s : Tek12.state) (m1 m2 : Z) (ticks : list (Z * Z)) (n1 n2 : Z),
    checkpointed12 s ->
    Tek12Facts.stored_status s <> 1 ->
    Tek12Facts.stored_airTime s <= Tek12.uptime s ->
    Tek12.uptime s
    + elapsed (Tek12.previousUptime s) ((m1, m2) :: ticks)
    + Tek12.TO_MACHINE_UPTIME Tek12.UPTIME_STORE_INTERVAL < U32.modulus ->
    U32.sub (Tek12.uptime (Tek12.loop m1 m2 s)) (Tek12Facts.stored_airTime s)
    > Tek12.TO_MACHINE_UPTIME Tek12.AIR_INTERVAL ->
    Forall (fun u =>
              Tek12.uptime (Tek12.loop m1 m2 s) <= u
              < Tek12.uptime (Tek12.loop m1 m2 s)
                + Tek12.TO_MACHINE_UPTIME Tek12.AIR_DURATION)
           (Tek12.uptimes ticks (Tek12.loop m1 m2 s)) ->
    0 <= n1 ->
    Tek12.uptime (Tek12.run ticks (Tek12.loop m1 m2 s)) + n1 < U32.modulus ->
    Tek12Facts.stored_status (Tek12.run ticks (Tek12.loop m1 m2 s)) = 1 /\
    Tek12Facts.stored_status
      (Tek12.loop n1 n2
         (Tek12.setup
            (Board.power_on
               (Board.eeprom
                  (Tek12.board (Tek12.run ticks (Tek12.loop m1 m2 s)))))))
    = 0 /\
    Tek12Facts.actuator
      (Tek12.loop n1 n2
         (Tek12.setup
            (Board.power_on
               (Board.eeprom
                  (Tek12.board (Tek12.run ticks (Tek12.loop m1 m2 s)))))))
    = false /\
    In (DigitalWrite PIN_AIR false)
       (Tek12Facts.cycle_events n1 n2
          (Tek12.setup
             (Board.power_on
                (Board.eeprom
                   (Tek12.board (Tek12.run ticks (Tek12.loop m1 m2 s))))))).
Proof.
  intros s m1 m2 ticks n1 n2 Ck Off Ahead Small Due W Pn Sn.
  rewrite Tek12Facts.store_interval12 in Small.
  rewrite Tek12Facts.interval12 in Due.
  rewrite Tek12Facts.duration12 in W.
  cbn [elapsed] in Small.
  pose proof (elapsed_nonneg ticks (U32.wrap m2)) as Pos.
  pose proof (stored_uptime_nonneg12 s) as P0.
  destruct Ck as (M0 & L0). rewrite M0 in P0.
  destruct (cycle_checkpointed12 s m1 m2 (conj M0 L0)) as (Ck1 & U1 & S1 & _);
    [lia|].
  set (s1 := Tek12.loop m1 m2 s) in *.
  (* the first cycle starts the air *)
  assert (Br : Tek12Facts.branch_of (Tek12.readBack m1 m2 s)
               = Tek12Facts.Start).
  { rewrite Tek12Facts.branch_readBack12.
    apply Z.eqb_neq in Off. rewrite Off.
    unfold s1 in Due. rewrite Tek12Facts.loop_uptime12 in Due.
    apply Z.gt_lt, Z.gtb_lt in Due. rewrite Due. reflexivity. }
  assert (On1 : Tek12Facts.stored_status s1 = 1)
    by (unfold s1; rewrite Tek12Facts.loop_stored_status12, Br; reflexivity).
  assert (St1 : Tek12.airStart s1 = Tek12.uptime s1).
  { unfold s1. rewrite Tek12Facts.loop_airStart12, Br.
    symmetry. apply Tek12Facts.loop_uptime12. }
  assert (T1 : Tek12Facts.stored_airTime s1 = Tek12Facts.stored_airTime s)
    by (unfold s1; rewrite Tek12Facts.loop_stored_airTime12, Br; reflexivity).
  (* the interval had elapsed, as integers *)
  pose proof (U32.sub_range m1 (Tek12.previousUptime s)) as Rd.
  unfold U32.in_range in Rd.
  assert (RT : 0 <= Tek12Facts.stored_airTime s).
  { pose proof (EEPROM.readLong_range (Board.eeprom (Tek12.board s))
                  Tek12.addressAirTime) as R.
    unfold U32.in_range in R. exact (proj1 R). }
  rewrite U32.sub_small in Due by (unfold U32.modulus in *; lia).
  (* the air keeps running *)
  rewrite <- St1 in W.
  destruct (Tek12Facts.stays_on12 ticks s1 On1 W) as (On2 & _).
  pose proof (continue_keeps_airTime12 ticks s1 On1 W) as T2.
  destruct (run_checkpointed12 ticks s1 Ck1) as ((M2 & L2) & U2 & S2 & _).
  { unfold s1 at 2. rewrite Tek12Facts.loop_previous12. lia. }
  set (s2 := Tek12.run ticks s1) in *.
  split; [exact On2|].
  (* the boot after the power loss *)
  set (s3 := Tek12.setup (Board.power_on (Board.eeprom (Tek12.board s2)))).
  assert (On3 : Tek12Facts.stored_status s3 = 1) by exact On2.
  assert (St3 : Tek12.airStart s3 = Tek12Facts.stored_airTime s)
    by (rewrite <- T1, <- T2; reflexivity).
  assert (Adv : Tek12Facts.advanced n1 s3 = Tek12.uptimeStoreTime s2 + n1).
  { unfold Tek12Facts.advanced.
    change (Tek12.uptime s3) with (Tek12Facts.stored_uptime s2).
    change (Tek12.previousUptime s3) with 0.
    rewrite M2. unfold U32.sub. rewrite Z.sub_0_r, U32.add_wrap_r.
    apply U32.add_small. unfold U32.modulus in *. lia. }
  assert (Br3 : Tek12Facts.branch_of (Tek12.readBack n1 n2 s3)
                = Tek12Facts.Stop).
  { apply Tek12Facts.stop12; [exact On3 | rewrite St3; exact RT |].
    rewrite St3, Adv. destruct Ck1 as (_ & L1). lia. }
  destruct (Tek12Facts.cycle_events12 n1 n2 s3) as [level Ev].
  rewrite Tek12Facts.loop_stored_status12, Tek12Facts.loop_actuator12,
    Ev, Br3.
  split; [reflexivity|]. split; [reflexivity|].
  right. apply in_or_app. right. left. reflexivity.
Qed.

(** Booted OFF with uptime 3 600 000 and the last stop at 0: the first
    cycle starts the air, ten cycles later the power is cut, and the
    first cycle after the next boot stops the air. *)
Lemma air_cycle_lost_on_reboot12_witness :
  Tek12Facts.stored_status
    (Tek12.run (cadence 10 1001 1000)
       (Tek12.loop 1 1
          (Tek12.setup (Board.power_on (Tek12.snapshot 3600000 0 0)))))
  = 1 /\
  Tek12Facts.stored_status
    (Tek12.loop 1 1
       (Tek12.setup
          (Board.power_on
             (Board.eeprom
                (Tek12.board
                   (Tek12.run (cadence 10 1001 1000)
                      (Tek12.loop 1 1
                         (Tek12.setup
                            (Board.power_on
                               (Tek12.snapshot 3600000 0 0))))))))))
  = 0.
Proof.
  destruct (air_cycle_lost_on_reboot12
              (Tek12.setup (Board.power_on (Tek12.snapshot 3600000 0 0)))
              1 1 (cadence 10 1001 1000) 1 1) as (A & B & _).
  - apply setup_checkpointed12.
  - by_eval.
  - by_eval.
  - by_eval.
  - by_eval.
  - forall_by_eval.
  - lia.
  - by_eval.
  - split; [exact A | exact B].
Defined.

(** ** The stored fields are independent *)

(** The cells handed out by [initEepromAddressing] do not overlap: each
    of the functions that persist something changes the cells it names
    and no other.  [storeUptime] stores the uptime; [setAirOn] stores
    state 1, the start timestamp and the uptime, and leaves the stop
    timestamp; [setAirOff] stores state 0, the stop timestamp and the
    uptime, and leaves the start timestamp.  Values are stored modulo
    2^32.  Dual-timestamp sketch. *)
Theorem stored_fields_independent13 :
  forall s : Tek13.state,
    (Tek13Facts.stored_uptime (Tek13.storeUptime s) = U32.wrap (Tek13.uptime s) /\
     Tek13Facts.stored_status (Tek13.storeUptime s) = Tek13Facts.stored_status s /\
     Tek13Facts.stored_start (Tek13.storeUptime s) = Tek13Facts.stored_start s /\
     Tek13Facts.stored_stop (Tek13.storeUptime s) = Tek13Facts.stored_stop s) /\
    (Tek13Facts.stored_uptime (Tek13.setAirOn s) = U32.wrap (Tek13.uptime s) /\
     Tek13Facts.stored_status (Tek13.setAirOn s) = 1 /\
     Tek13Facts.stored_start (Tek13.setAirOn s) = U32.wrap (Tek13.uptime s) /\
     Tek13Facts.stored_stop (Tek13.setAirOn s) = Tek13Facts.stored_stop s) /\
    (Tek13Facts.stored_uptime (Tek13.setAirOff s) = U32.wrap (Tek13.uptime s) /\
     Tek13Facts.stored_status (Tek13.setAirOff s) = 0 /\
     Tek13Facts.stored_start (Tek13.setAirOff s) = Tek13Facts.stored_start s /\
     Tek13Facts.stored_stop (Tek13.setAirOff s) = U32.wrap (Tek13.uptime s)).
Proof.
  intros s.
  unfold Tek13Facts.stored_uptime, Tek13Facts.stored_status,
    Tek13Facts.stored_start, Tek13Facts.stored_stop,
    Board.readLong, Board.readByte.
  Tek13Facts.open13. Tek13Facts.layout13.
  repeat split; ee_read; reflexivity.
Qed.

(** The same for the single-timestamp sketch: [storeUptime] stores the
    uptime; [startAir] stores state 1 and leaves the uptime and the air
    time; [stopAir] stores state 0 and the air time and leaves the
    uptime. *)
Theorem stored_fields_independent12 :
  forall s : Tek12.state,
    (Tek12Facts.stored_uptime (Tek12.storeUptime s) = U32.wrap (Tek12.uptime s) /\
     Tek12Facts.stored_status (Tek12.storeUptime s) = Tek12Facts.stored_status s /\
     Tek12Facts.stored_airTime (Tek12.storeUptime s)
     = Tek12Facts.stored_airTime s) /\
    (Tek12Facts.stored_uptime (Tek12.startAir s) = Tek12Facts.stored_uptime s /\
     Tek12Facts.stored_status (Tek12.startAir s) = 1 /\
     Tek12Facts.stored_airTime (Tek12.startAir s)
     = Tek12Facts.stored_airTime s) /\
    (Tek12Facts.stored_uptime (Tek12.stopAir s) = Tek12Facts.stored_uptime s /\
     Tek12Facts.stored_status (Tek12.stopAir s) = 0 /\
     Tek12Facts.stored_airTime (Tek12.stopAir s) = U32.wrap (Tek12.uptime s)).
Proof.
  intros s.
  unfold Tek12Facts.stored_uptime, Tek12Facts.stored_status,
    Tek12Facts.stored_airTime, Board.readLong, Board.readByte.
  Tek12Facts.open12. Tek12Facts.layout12.
  repeat split; ee_read; reflexivity.
Qed.

(** ** How long an air cycle is *)

(** The cycle that ends an air cycle of the dual-timestamp sketch: if
    the machine is ON, the uptime is still inside the air duration after
    the stored start, and the next cycle (no uptime wrap) carries it to
    the end of the duration or past it, then the stop timestamp that
    cycle stores is at least AIR_DURATION_MS after the start timestamp,
    and less than AIR_DURATION_MS plus the cycle's delta after it. *)
Theorem air_cycle_length13 :
  forall (s : Tek13.state) (m1 m2 : Z),
    Tek13Facts.stored_status s = 1 ->
    Tek13Facts.stored_start s <= Tek13.uptime s
    < Tek13Facts.stored_start s + Tek13.TO_MACHINE_TIME Tek13.AIR_DURATION ->
    Tek13.uptime s + U32.sub m1 (Tek13.previousUptime s) < U32.modulus ->
    Tek13Facts.stored_start s + Tek13.TO_MACHINE_TIME Tek13.AIR_DURATION
    <= Tek13.uptime (Tek13.loop m1 m2 s) ->
    Tek13Facts.stored_status (Tek13.loop m1 m2 s) = 0 /\
    Tek13Facts.stored_start (Tek13.loop m1 m2 s) = Tek13Facts.stored_start s /\
    Tek13.TO_MACHINE_TIME Tek13.AIR_DURATION
    <= Tek13Facts.stored_stop (Tek13.loop m1 m2 s)
       - Tek13Facts.stored_start (Tek13.loop m1 m2 s)
    < Tek13.TO_MACHINE_TIME Tek13.AIR_DURATION
      + U32.sub m1 (Tek13.previousUptime s).
Proof.
  intros s m1 m2 On W Small Late.
  rewrite Tek13Facts.duration13 in *.
  pose proof (EEPROM.readLong_range (Board.eeprom (Tek13.board s))
                Tek13.addressAirStart) as Rt.
  fold (Board.readLong (Tek13.board s) Tek13.addressAirStart) in Rt.
  fold (Tek13Facts.stored_start s) in Rt. unfold U32.in_range in Rt.
  pose proof (cycle_uptime13 s m1 m2 ltac:(lia) Small) as U.
  rewrite Tek13Facts.loop_uptime13 in Late, U.
  pose proof (Tek13Facts.stop13 m1 m2 s On Late) as Br.
  rewrite Tek13Facts.loop_stored_status13, Tek13Facts.loop_stored_start13,
    Tek13Facts.loop_stored_stop13, Br, U.
  split; [reflexivity|]. split; [reflexivity|]. lia.
Qed.

(** Booted ON with uptime 119 000 and start 0: the first cycle, 2050 ms
    after reset, stops the air at 121 050. *)
Lemma air_cycle_length13_witness :
  Tek13Facts.stored_status
    (Tek13.loop 2050 2050
       (Tek13.setup (Board.power_on (Tek13.snapshot 119000 1 0 0)))) = 0.
Proof.
  exact (proj1 (air_cycle_length13
                  (Tek13.setup (Board.power_on (Tek13.snapshot 119000 1 0 0)))
                  2050 2050
                  ltac:(by_eval) ltac:(by_eval) ltac:(by_eval)
                  ltac:(by_eval))).
Defined.

(** ** The uptime on the serial port (PF_Tek1.3) *)

Module Tek13Serial.
Import String.

(** What [Serial.print] and [Serial.println] put out. *)
Inductive output : Type :=
| Print (n : Z)
| PrintText (t : string)
| Println.

(** [int] is 16 bits on the AVR. *)
Definition int16 (z : Z) : Z := (z + 32768) mod 65536 - 32768.

(** [(unsigned long)X/1000] *)
Definition TO_HUMAN_TIME (x : Z) : Z := U32.wrap x / 1000.

(** [(unsigned long)(60 * 60 * 24)]: the product is formed in [int]
    before the cast, and 86 400 does not fit 16 bits; avr-gcc folds the
    constant modulo 2^16. *)
Definition SECONDS_IN_DAY : Z := U32.wrap (int16 (int16 (60 * 60) * 24)).

(** [(unsigned long)(60 * 60)] *)
Definition SECONDS_IN_HOUR : Z := U32.wrap (int16 (60 * 60)).

(** The four numbers [serialPrint] computes; [seconds] is an
    [unsigned int]. *)
Record fields : Type := mkFields {
  days : Z; hours : Z; minutes : Z; seconds : Z
}.

Definition human_time (uptime : Z) : fields :=
  let uptime_seconds := TO_HUMAN_TIME uptime in
  mkFields (uptime_seconds / SECONDS_IN_DAY)
           ((uptime_seconds / SECONDS_IN_HOUR) mod 24)
           ((uptime_seconds / 60) mod 60)
           ((uptime_seconds mod 60) mod 65536).

Definition serialPrint (s : Tek13.state) : list output :=
  let f := human_time (Tek13.uptime s) in
  [Print (days f); PrintText " days ";
   Print (hours f); PrintText " hours ";
   Print (minutes f); PrintText " minutes ";
   Print (seconds f); PrintText " seconds";
   Println; Println].

End Tek13Serial.

Module Tek13SerialFacts.
Import String.

(** The hours, minutes and seconds that [serialPrint] of PF_Tek1.3
    prints are the time of day of the uptime: hours below 24, minutes
    and seconds below 60, and together they are the uptime in whole
    seconds modulo one day.  (The days figure is the uptime in seconds
    divided by [SECONDS_IN_DAY].) *)
Theorem serialPrint_time_of_day :
  forall s : Tek13.state,
    exists h m sec : Z,
      Tek13Serial.serialPrint s
      = [Tek13Serial.Print
           (U32.wrap (Tek13.uptime s) / 1000 / Tek13Serial.SECONDS_IN_DAY);
         Tek13Serial.PrintText " days ";
         Tek13Serial.Print h; Tek13Serial.PrintText " hours ";
         Tek13Serial.Print m; Tek13Serial.PrintText " minutes ";
         Tek13Serial.Print sec; Tek13Serial.PrintText " seconds";
         Tek13Serial.Println; Tek13Serial.Println] /\
      0 <= h < 24 /\ 0 <= m < 60 /\ 0 <= sec < 60 /\
      h * 3600 + m * 60 + sec = (U32.wrap (Tek13.uptime s) / 1000) mod 86400.
Proof.
  intros s.
  unfold Tek13Serial.serialPrint, Tek13Serial.human_time,
    Tek13Serial.TO_HUMAN_TIME.
  cbn [Tek13Serial.days Tek13Serial.hours Tek13Serial.minutes
       Tek13Serial.seconds].
  change Tek13Serial.SECONDS_IN_HOUR with 3600.
  set (t := U32.wrap (Tek13.uptime s) / 1000).
  exists ((t / 3600) mod 24), ((t / 60) mod 60), ((t mod 60) mod 65536).
  split; [reflexivity|].
  assert (0 <= t).
  { subst t. pose proof (U32.wrap_range (Tek13.uptime s)) as R.
    unfold U32.in_range in R. apply Z.div_pos; lia. }
  clearbody t.
  Z.div_mod_to_equations. lia.
Qed.

End Tek13SerialFacts.

(** ** Temperature sampling (PF_Tek1_2.ino) *)

Module Tek12Env.

(** What the sketch asks of the DS18B20 driver. *)
Inductive command (address : Type) : Type :=
| StartConversion (a : address)
| GetTemp (a : address).
Arguments StartConversion {address} a.
Arguments GetTemp {address} a.

Section Sensors.

(** A [float] and a sensor address ([byte[8]]); the sketch stores and
    copies them and computes nothing with them here. *)
Variable temp : Type.
Variable address : Type.

(** [struct Temperature] *)
Record Device : Type := mkDevice {
  Address : address;
  Temperature : temp;
  updateTime : Z
}.

(** [conversionRunning], [conversionStart], [Environment.Temperatures]
    and the commands given to the driver, newest first. *)
Record env : Type := mkEnv {
  conversionRunning : bool;
  conversionStart : Z;
  Temperatures : list Device;
  commands : list (command address)
}.

(** [initTemperature]: one device per address, temperature 0.0 and
    update time 0. *)
Definition initTemperature (zero : temp) (sensors : list address)
  : list Device :=
  map (fun a => mkDevice a zero 0) sensors.

(** The loop of [getTemperatureNextDevice] from index [i] on. *)
Fixpoint scan (ts : list Device) (i leastId leastTime : Z) : Z * Z :=
  match ts with
  | [] => (leastId, leastTime)
  | d :: rest =>
      if leastId =? -1 then scan rest (i + 1) i (updateTime d)
      else if updateTime d <=? leastTime
           then scan rest (i + 1) i (updateTime d)
           else scan rest (i + 1) leastId leastTime
  end.

(** The index [getTemperatureNextDevice] returns a pointer to; -1 when
    the array is empty. *)
Definition getTemperatureNextDevice (ts : list Device) : Z :=
  fst (scan ts 0 (-1) 0).

Definition device_at (ts : list Device) (i : Z) : option Device :=
  if i <? 0 then None else nth_error ts (Z.to_nat i).

Fixpoint set_device (ts : list Device) (i : nat) (d : Device) : list Device :=
  match ts, i with
  | [], _ => []
  | _ :: rest, O => d :: rest
  | x :: rest, S k => x :: set_device rest k d
  end.

(** [envTemperature].  [m1] and [m2] are the readings of [millis()], in
    the order the call makes them; [reading] is what [getTemp] returns.
    With no device the pointer is invalid: [None]. *)
Definition envTemperature (m1 m2 : Z) (reading : temp) (e : env)
  : option env :=
  let id := getTemperatureNextDevice (Temperatures e) in
  match device_at (Temperatures e) id with
  | None => None
  | Some dev =>
      if conversionRunning e then
        if U32.sub m1 (conversionStart e) >? 800 then
          Some (mkEnv false (conversionStart e)
                  (set_device (Temperatures e) (Z.to_nat id)
                     (mkDevice (Address dev) reading (U32.wrap m2)))
                  (GetTemp (Address dev) :: commands e))
        else Some e
      else
        Some (mkEnv true (U32.wrap m1) (Temperatures e)
                (StartConversion (Address dev) :: commands e))
  end.

(** Call after call; each call has its tick readings and the value the
    sensor would return. *)
Fixpoint calls (ins : list (Z * Z * temp)) (e : env) : option env :=
  match ins with
  | [] => Some e
  | (m1, m2, reading) :: rest =>
      match envTemperature m1 m2 reading e with
      | None => None
      | Some e' => calls rest e'
      end
  end.

(** Commands, oldest first, that take turns: a conversion is started,
    then read, then the next one is started. *)
Fixpoint takes_turns (running : bool) (cs : list (command address)) : Prop :=
  match cs with
  | [] => True
  | StartConversion _ :: rest => running = false /\ takes_turns true rest
  | GetTemp _ :: rest => running = true /\ takes_turns false rest
  end.

End Sensors.

Arguments mkDevice {temp address}.
Arguments Address {temp address}.
Arguments Temperature {temp address}.
Arguments updateTime {temp address}.
Arguments mkEnv {temp address}.
Arguments conversionRunning {temp address}.
Arguments conversionStart {temp address}.
Arguments Temperatures {temp address}.
Arguments commands {temp address}.
Arguments scan {temp address}.
Arguments getTemperatureNextDevice {temp address}.
Arguments device_at {temp address}.
Arguments set_device {temp address}.
Arguments envTemperature {temp address}.
Arguments calls {temp address}.
Arguments takes_turns {address}.
Arguments initTemperature {temp address}.

End Tek12Env.

Section SensorFacts.

Variable temp : Type.
Variable address : Type.

(** The update time of the device at index [i], if there is one. *)
Definition time_at (ts : list (Tek12Env.Device temp address)) (i : Z)
  : option Z :=
  option_map Tek12Env.updateTime (Tek12Env.device_at ts i).

Lemma time_at_nil j : time_at [] j = None.
Proof.
  unfold time_at, Tek12Env.device_at.
  destruct (j <? 0); [reflexivity|]. destruct (Z.to_nat j); reflexivity.
Qed.

Lemma time_at_head d rest :
  time_at (d :: rest) 0 = Some (Tek12Env.updateTime d).
Proof. reflexivity. Qed.

Lemma time_at_tail d rest j :
  0 < j -> time_at (d :: rest) j = time_at rest (j - 1).
Proof.
  intros Pj. unfold time_at, Tek12Env.device_at.
  destruct (Z.ltb_spec j 0); [lia|].
  destruct (Z.ltb_spec (j - 1) 0); [lia|].
  replace (Z.to_nat j) with (S (Z.to_nat (j - 1))) by lia.
  reflexivity.
Qed.

Lemma time_at_index ts j t : time_at ts j = Some t -> 0 <= j.
Proof.
  unfold time_at, Tek12Env.device_at.
  destruct (Z.ltb_spec j 0); [discriminate | intros _; assumption].
Qed.

(** The scan with a candidate in hand: either the candidate stands and
    every device scanned was updated later than it, or the result is one
    of the devices scanned, no later than the candidate, the earliest of
    them and the last of the earliest. *)
Lemma scan_candidate (ts : list (Tek12Env.Device temp address)) :
  forall i leastId leastTime,
    0 <= i -> leastId <> -1 ->
    (Tek12Env.scan ts i leastId leastTime = (leastId, leastTime) /\
     (forall j x, time_at ts j = Some x -> leastTime < x)) \/
    (exists id t,
        Tek12Env.scan ts i leastId leastTime = (id, t) /\
        i <= id < i + Z.of_nat (length ts) /\
        time_at ts (id - i) = Some t /\
        t <= leastTime /\
        (forall j x, time_at ts j = Some x ->
                     t <= x /\ (id - i < j -> t < x))).
Proof.
  induction ts as [|d rest IH]; intros i leastId leastTime Pi Cand.
  - left. split; [reflexivity|]. intros j x H.
    rewrite time_at_nil in H. discriminate.
  - cbn [Tek12Env.scan].
    apply Z.eqb_neq in Cand. rewrite Cand. apply Z.eqb_neq in Cand.
    cbn [length]. rewrite Nat2Z.inj_succ.
    destruct (Z.leb_spec (Tek12Env.updateTime d) leastTime) as [Le | Gt].
    + (* the device replaces the candidate *)
      right.
      destruct (IH (i + 1) i (Tek12Env.updateTime d) ltac:(lia) ltac:(lia))
        as [[E L] | (id & t & E & R & T & Le' & M)].
      * exists i, (Tek12Env.updateTime d).
        split; [exact E|]. split; [lia|].
        rewrite Z.sub_diag. split; [apply time_at_head|].
        split; [exact Le|].
        intros j x H. pose proof (time_at_index _ _ _ H) as Pj.
        destruct (Z.eq_dec j 0) as [-> | Nj].
        -- rewrite time_at_head in H. injection H as <-. lia.
        -- rewrite time_at_tail in H by lia. specialize (L _ _ H). lia.
      * exists id, t.
        split; [exact E|]. split; [lia|].
        split.
        { rewrite time_at_tail by lia.
          replace (id - i - 1) with (id - (i + 1)) by lia. exact T. }
        split; [lia|].
        intros j x H. pose proof (time_at_index _ _ _ H) as Pj.
        destruct (Z.eq_dec j 0) as [-> | Nj].
        -- rewrite time_at_head in H. injection H as <-. lia.
        -- rewrite time_at_tail in H by lia.
           destruct (M _ _ H) as [M1 M2]. split; [exact M1|].
           intros. apply M2. lia.
    + (* the candidate stays *)
      destruct (IH (i + 1) leastId leastTime ltac:(lia) Cand)
        as [[E L] | (id & t & E & R & T & Le' & M)].
      * left. split; [exact E|].
        intros j x H. pose proof (time_at_index _ _ _ H) as Pj.
        destruct (Z.eq_dec j 0) as [-> | Nj].
        -- rewrite time_at_head in H. injection H as <-. lia.
        -- rewrite time_at_tail in H by lia. exact (L _ _ H).
      * right. exists id, t.
        split; [exact E|]. split; [lia|].
        split.
        { rewrite time_at_tail by lia.
          replace (id - i - 1) with (id - (i + 1)) by lia. exact T. }
        split; [exact Le'|].
        intros j x H. pose proof (time_at_index _ _ _ H) as Pj.
        destruct (Z.eq_dec j 0) as [-> | Nj].
        -- rewrite time_at_head in H. injection H as <-. lia.
        -- rewrite time_at_tail in H by lia.
           destruct (M _ _ H) as [M1 M2]. split; [exact M1|].
           intros. apply M2. lia.
Qed.

(** On a non-empty array the index returned is the index of a device. *)
Lemma next_device_valid (ts : list (Tek12Env.Device temp address)) :
  ts <> [] ->
  exists t, time_at ts (Tek12Env.getTemperatureNextDevice ts) = Some t.
Proof.
  destruct ts as [|d rest]; [congruence | intros _].
  unfold Tek12Env.getTemperatureNextDevice.
  change (Tek12Env.scan (d :: rest) 0 (-1) 0)
    with (Tek12Env.scan rest 1 0 (Tek12Env.updateTime d)).
  destruct (scan_candidate rest 1 0 (Tek12Env.updateTime d)
              ltac:(lia) ltac:(lia))
    as [[E L] | (id & t & E & R & T & Le & M)];
    rewrite E; cbn [fst].
  - exists (Tek12Env.updateTime d). apply time_at_head.
  - exists t. rewrite time_at_tail by lia. exact T.
Qed.

(** [getTemperatureNextDevice] picks the device that has gone longest
    without an update: on a non-empty array it returns a valid index,
    no device has an earlier update time than the one it picks, and
    every device after it has a later one (of devices equally old it
    picks the last).  On an empty array it returns -1. *)
Theorem next_device_is_oldest :
  forall ts : list (Tek12Env.Device temp address),
    (ts = [] -> Tek12Env.getTemperatureNextDevice ts = -1) /\
    (ts <> [] ->
     exists t,
       0 <= Tek12Env.getTemperatureNextDevice ts < Z.of_nat (length ts) /\
       time_at ts (Tek12Env.getTemperatureNextDevice ts) = Some t /\
       forall j x, time_at ts j = Some x ->
                   t <= x /\
                   (Tek12Env.getTemperatureNextDevice ts < j -> t < x)).
Proof.
  intros ts. split; [intros ->; reflexivity|].
  destruct ts as [|d rest]; [congruence | intros _].
  unfold Tek12Env.getTemperatureNextDevice.
  change (Tek12Env.scan (d :: rest) 0 (-1) 0)
    with (Tek12Env.scan rest 1 0 (Tek12Env.updateTime d)).
  cbn [length]. rewrite Nat2Z.inj_succ.
  destruct (scan_candidate rest 1 0 (Tek12Env.updateTime d)
              ltac:(lia) ltac:(lia))
    as [[E L] | (id & t & E & R & T & Le & M)];
    rewrite E; cbn [fst].
  - exists (Tek12Env.updateTime d).
    split; [lia|]. split; [apply time_at_head|].
    intros j x H. pose proof (time_at_index _ _ _ H) as Pj.
    destruct (Z.eq_dec j 0) as [-> | Nj].
    + rewrite time_at_head in H. injection H as <-. lia.
    + rewrite time_at_tail in H by lia. specialize (L _ _ H). lia.
  - exists t.
    split; [lia|].
    split; [rewrite time_at_tail by lia; exact T|].
    intros j x H. pose proof (time_at_index _ _ _ H) as Pj.
    destruct (Z.eq_dec j 0) as [-> | Nj].
    + rewrite time_at_head in H. injection H as <-. lia.
    + rewrite time_at_tail in H by lia.
      destruct (M _ _ H) as [M1 M2]. split; [exact M1|].
      intros. apply M2. lia.
Qed.

Lemma device_at_some (ts : list (Tek12Env.Device temp address)) :
  ts <> [] ->
  exists dev,
    Tek12Env.device_at ts (Tek12Env.getTemperatureNextDevice ts) = Some dev.
Proof.
  intros N. destruct (next_device_valid ts N) as (t & T).
  unfold time_at in T.
  destruct (Tek12Env.device_at ts (Tek12Env.getTemperatureNextDevice ts))
    as [dev|]; [exists dev; reflexivity | discriminate].
Qed.

Lemma set_device_length (ts : list (Tek12Env.Device temp address)) :
  forall i d, length (Tek12Env.set_device ts i d) = length ts.
Proof.
  induction ts as [|x rest IH]; intros i d; [reflexivity|].
  destruct i; cbn [Tek12Env.set_device length]; [reflexivity|].
  rewrite IH. reflexivity.
Qed.

(** One call of [envTemperature] with a device present: it succeeds,
    keeps the number of devices, and either gives no command and leaves
    the running flag, or starts a conversion when none was running, or
    reads the temperature when one was. *)
Lemma envTemperature_step m1 m2 reading (e : Tek12Env.env temp address) :
  Tek12Env.Temperatures e <> [] ->
  exists e',
    Tek12Env.envTemperature m1 m2 reading e = Some e' /\
    length (Tek12Env.Temperatures e') = length (Tek12Env.Temperatures e) /\
    ((Tek12Env.commands e' = Tek12Env.commands e /\
      Tek12Env.conversionRunning e' = Tek12Env.conversionRunning e) \/
     (exists a,
         Tek12Env.commands e'
         = Tek12Env.StartConversion a :: Tek12Env.commands e /\
         Tek12Env.conversionRunning e = false /\
         Tek12Env.conversionRunning e' = true) \/
     (exists a,
         Tek12Env.commands e'
         = Tek12Env.GetTemp a :: Tek12Env.commands e /\
         Tek12Env.conversionRunning e = true /\
         Tek12Env.conversionRunning e' = false)).
Proof.
  intros N. destruct (device_at_some _ N) as [dev D].
  unfold Tek12Env.envTemperature. rewrite D.
  destruct (Tek12Env.conversionRunning e) eqn:Run.
  - destruct (U32.sub m1 (Tek12Env.conversionStart e) >? 800).
    + eexists. split; [reflexivity|].
      cbn [Tek12Env.Temperatures Tek12Env.commands
           Tek12Env.conversionRunning].
      split; [apply set_device_length|].
      right. right. exists (Tek12Env.Address dev).
      split; [reflexivity|]. split; reflexivity.
    + exists e. split; [reflexivity|]. split; [reflexivity|].
      left. split; [reflexivity | exact Run].
  - eexists. split; [reflexivity|].
    cbn [Tek12Env.Temperatures Tek12Env.commands Tek12Env.conversionRunning].
    split; [reflexivity|].
    right. left. exists (Tek12Env.Address dev).
    split; [reflexivity|]. split; reflexivity.
Qed.

(** The sampling protocol of [envTemperature].  With at least one
    device, any sequence of calls succeeds and keeps the number of
    devices, and the commands it gives to the sensor driver take turns:
    a conversion is started only when none is running, and a
    temperature is read only from a running conversion, which the read
    ends. *)
Theorem sensor_commands_take_turns :
  forall (ins : list (Z * Z * temp)) (e : Tek12Env.env temp address),
    Tek12Env.Temperatures e <> [] ->
    exists e' cs,
      Tek12Env.calls ins e = Some e' /\
      length (Tek12Env.Temperatures e') = length (Tek12Env.Temperatures e) /\
      Tek12Env.commands e' = cs ++ Tek12Env.commands e /\
      Tek12Env.takes_turns (Tek12Env.conversionRunning e) (rev cs).
Proof.
  intros ins.
  induction ins as [|[[m1 m2] reading] rest IH]; intros e N.
  - exists e, []. split; [reflexivity|]. split; [reflexivity|].
    split; [reflexivity | exact I].
  - cbn [Tek12Env.calls].
    destruct (envTemperature_step m1 m2 reading e N) as (e1 & E & Len & Cmd).
    rewrite E.
    assert (N1 : Tek12Env.Temperatures e1 <> []).
    { intros Z0. rewrite Z0 in Len. destruct (Tek12Env.Temperatures e);
        [congruence | discriminate]. }
    destruct (IH e1 N1) as (e' & cs & R & Len' & C & T).
    exists e'.
    destruct Cmd as [[C1 R1] | [(a & C1 & R0 & R1) | (a & C1 & R0 & R1)]].
    + exists cs. split; [exact R|]. split; [congruence|].
      split; [congruence|]. rewrite <- R1. exact T.
    + exists (cs ++ [Tek12Env.StartConversion a]).
      split; [exact R|]. split; [congruence|].
      split; [rewrite C, C1, <- app_assoc; reflexivity|].
      rewrite rev_app_distr. cbn [rev app Tek12Env.takes_turns].
      split; [exact R0|]. rewrite <- R1. exact T.
    + exists (cs ++ [Tek12Env.GetTemp a]).
      split; [exact R|]. split; [congruence|].
      split; [rewrite C, C1, <- app_assoc; reflexivity|].
      rewrite rev_app_distr. cbn [rev app Tek12Env.takes_turns].
      split; [exact R0|]. rewrite <- R1. exact T.
Qed.

(** At the loop's cadence every second call refreshes the temperature.
    From a state with no conversion running and a device present, a call
    starts a conversion for the device that has gone longest without an
    update; if the next call comes more than 800 ms of tick time later
    (the tick counter may have wrapped in between), it reads that
    device: the device gets the reading and the call's second tick
    reading as its update time, and no conversion is running. *)
Theorem temperature_refreshed_after_800ms :
  forall (e : Tek12Env.env temp address) (dev : Tek12Env.Device temp address)
         (m1 m2 n1 n2 : Z) (r1 r2 : temp),
    Tek12Env.conversionRunning e = false ->
    Tek12Env.device_at (Tek12Env.Temperatures e)
      (Tek12Env.getTemperatureNextDevice (Tek12Env.Temperatures e))
    = Some dev ->
    800 < U32.sub n1 (U32.wrap m1) ->
    Tek12Env.calls [(m1, m2, r1); (n1, n2, r2)] e
    = Some (Tek12Env.mkEnv false (U32.wrap m1)
              (Tek12Env.set_device (Tek12Env.Temperatures e)
                 (Z.to_nat (Tek12Env.getTemperatureNextDevice
                              (Tek12Env.Temperatures e)))
                 (Tek12Env.mkDevice (Tek12Env.Address dev) r2 (U32.wrap n2)))
              (Tek12Env.GetTemp (Tek12Env.Address dev)
               :: Tek12Env.StartConversion (Tek12Env.Address dev)
               :: Tek12Env.commands e)).
Proof.
  intros e dev m1 m2 n1 n2 r1 r2 Idle D Late.
  assert (First : Tek12Env.envTemperature m1 m2 r1 e
                  = Some (Tek12Env.mkEnv true (U32.wrap m1)
                            (Tek12Env.Temperatures e)
                            (Tek12Env.StartConversion (Tek12Env.Address dev)
                             :: Tek12Env.commands e))).
  { unfold Tek12Env.envTemperature. rewrite D, Idle. reflexivity. }
  cbn [Tek12Env.calls]. rewrite First.
  unfold Tek12Env.envTemperature.
  cbn [Tek12Env.Temperatures Tek12Env.conversionRunning
       Tek12Env.conversionStart Tek12Env.commands].
  rewrite D.
  apply Z.gtb_lt in Late. rewrite Late. reflexivity.
Qed.

End SensorFacts.

(** Three devices updated at 5, 3 and 3. *)
Lemma next_device_is_oldest_witness :
  exists t,
    0 <= Tek12Env.getTemperatureNextDevice
           [Tek12Env.mkDevice 10 0 5; Tek12Env.mkDevice 11 0 3;
            Tek12Env.mkDevice 12 0 3]
    < Z.of_nat (length [Tek12Env.mkDevice 10 0 5; Tek12Env.mkDevice 11 0 3;
                        Tek12Env.mkDevice 12 0 3]) /\
    time_at Z Z
      [Tek12Env.mkDevice 10 0 5; Tek12Env.mkDevice 11 0 3;
       Tek12Env.mkDevice 12 0 3]
      (Tek12Env.getTemperatureNextDevice
         [Tek12Env.mkDevice 10 0 5; Tek12Env.mkDevice 11 0 3;
          Tek12Env.mkDevice 12 0 3]) = Some t /\
    forall j x,
      time_at Z Z
        [Tek12Env.mkDevice 10 0 5; Tek12Env.mkDevice 11 0 3;
         Tek12Env.mkDevice 12 0 3] j = Some x ->
      t <= x /\
      (Tek12Env.getTemperatureNextDevice
         [Tek12Env.mkDevice 10 0 5; Tek12Env.mkDevice 11 0 3;
          Tek12Env.mkDevice 12 0 3] < j -> t < x).
Proof.
  exact (proj2 (next_device_is_oldest Z Z
                  [Tek12Env.mkDevice 10 0 5; Tek12Env.mkDevice 11 0 3;
                   Tek12Env.mkDevice 12 0 3]) ltac:(discriminate)).
Defined.

(** One device, calls at ticks 0, 500, 1000 and 2000: start, nothing,
    read, start. *)
Lemma sensor_commands_take_turns_witness :
  exists e' cs,
    Tek12Env.calls [(0, 0, 0); (500, 500, 21); (1000, 1000, 22);
                    (2000, 2000, 23)]
      (Tek12Env.mkEnv false 0 (Tek12Env.initTemperature 0 [28]) [])
    = Some e' /\
    length (Tek12Env.Temperatures e') = 1%nat /\
    Tek12Env.commands e' = cs ++ [] /\
    Tek12Env.takes_turns false (rev cs).
Proof.
  exact (sensor_commands_take_turns Z Z
           [(0, 0, 0); (500, 500, 21); (1000, 1000, 22); (2000, 2000, 23)]
           (Tek12Env.mkEnv false 0 (Tek12Env.initTemperature 0 [28]) [])
           ltac:(discriminate)).
Defined.

(** The tick counter wraps between the two calls: the conversion starts
    at 4 294 967 000 and is read at tick 505, which is 801 ms later. *)
Lemma temperature_refreshed_after_800ms_witness :
  Tek12Env.calls [(4294967000, 4294967000, 0); (505, 506, 22)]
    (Tek12Env.mkEnv false 0 (Tek12Env.initTemperature 0 [28]) [])
  = Some (Tek12Env.mkEnv false 4294967000
            [Tek12Env.mkDevice 28 22 506]
            [Tek12Env.GetTemp 28; Tek12Env.StartConversion 28]).
Proof.
  exact (temperature_refreshed_after_800ms Z Z
           (Tek12Env.mkEnv false 0 (Tek12Env.initTemperature 0 [28]) [])
           (Tek12Env.mkDevice 28 0 0)
           4294967000 4294967000 505 506 0 22
           eq_refl eq_refl ltac:(by_eval)).
Defined.

(** ** How long the air stays off *)

(** The cycle that starts an air cycle of the dual-timestamp sketch: if
    the machine is OFF, the uptime is still inside the air interval after
    the stored stop, and the next cycle (no uptime wrap) carries it past
    the interval, then the start timestamp that cycle stores is more than
    AIR_INTERVAL_MS after the stop timestamp, and at most AIR_INTERVAL_MS
    plus the cycle's delta after it. *)
Theorem off_interval_length13 :
  forall (s : Tek13.state) (m1 m2 : Z),
    Tek13Facts.stored_status s <> 1 ->
    Tek13Facts.stored_stop s <= Tek13.uptime s
    <= Tek13Facts.stored_stop s + Tek13.TO_MACHINE_TIME Tek13.AIR_INTERVAL ->
    Tek13.uptime s + U32.sub m1 (Tek13.previousUptime s) < U32.modulus ->
    Tek13Facts.stored_stop s + Tek13.TO_MACHINE_TIME Tek13.AIR_INTERVAL
    < Tek13.uptime (Tek13.loop m1 m2 s) ->
    Tek13Facts.stored_status (Tek13.loop m1 m2 s) = 1 /\
    Tek13Facts.stored_stop (Tek13.loop m1 m2 s) = Tek13Facts.stored_stop s /\
    Tek13.TO_MACHINE_TIME Tek13.AIR_INTERVAL
    < Tek13Facts.stored_start (Tek13.loop m1 m2 s)
      - Tek13Facts.stored_stop (Tek13.loop m1 m2 s)
    <= Tek13.TO_MACHINE_TIME Tek13.AIR_INTERVAL
       + U32.sub m1 (Tek13.previousUptime s).
Proof.
  intros s m1 m2 Off W Small Late.
  rewrite Tek13Facts.interval13 in *.
  pose proof (EEPROM.readLong_range (Board.eeprom (Tek13.board s))
                Tek13.addressAirStop) as Rt.
  fold (Board.readLong (Tek13.board s) Tek13.addressAirStop) in Rt.
  fold (Tek13Facts.stored_stop s) in Rt. unfold U32.in_range in Rt.
  pose proof (cycle_uptime13 s m1 m2 ltac:(lia) Small) as U.
  rewrite Tek13Facts.loop_uptime13 in Late, U.
  assert (Br : Tek13Facts.branch_of (Tek13.readBack m1 m2 s)
               = Tek13Facts.Start).
  { rewrite Tek13Facts.branch_readBack13.
    apply Z.eqb_neq in Off. rewrite Off.
    rewrite U32.sub_small by (unfold U32.modulus in *; lia).
    destruct (Z.gtb_spec (Tek13Facts.advanced m1 s - Tek13Facts.stored_stop s)
                3600000); [reflexivity | lia]. }
  rewrite Tek13Facts.loop_stored_status13, Tek13Facts.loop_stored_start13,
    Tek13Facts.loop_stored_stop13, Br, U.
  split; [reflexivity|]. split; [reflexivity|]. lia.
Qed.

(** Booted OFF with uptime 3 599 000 and the last stop at 0: the first
    cycle, 2050 ms after reset, starts the air at 3 601 050. *)
Lemma off_interval_length13_witness :
  Tek13Facts.stored_status
    (Tek13.loop 2050 2050
       (Tek13.setup (Board.power_on (Tek13.snapshot 3599000 0 0 0)))) = 1.
Proof.
  exact (proj1 (off_interval_length13
                  (Tek13.setup (Board.power_on (Tek13.snapshot 3599000 0 0 0)))
                  2050 2050
                  ltac:(by_eval) ltac:(by_eval) ltac:(by_eval)
                  ltac:(by_eval))).
Defined.

(** ** The life LED *)

Definition life_led (s : Tek12.state) : bool :=
  Board.port (Tek12.board s) PIN_LIFE.

Lemma indicateLife_led r : life_led (Tek12.indicateLife r) = negb (life_led r).
Proof. reflexivity. Qed.

Lemma checkpoint_led r : life_led (Tek12.checkpoint r) = life_led r.
Proof.
  unfold Tek12.checkpoint. destruct (Tek12.periodicUptimeSave r); reflexivity.
Qed.

Lemma airMachine_led r : life_led (Tek12.airMachine r) = life_led r.
Proof.
  rewrite Tek12Facts.airMachine_branch12.
  destruct (Tek12Facts.branch_of r); reflexivity.
Qed.

Lemma loop_led m1 m2 s : life_led (Tek12.loop m1 m2 s) = negb (life_led s).
Proof.
  unfold Tek12.loop.
  rewrite indicateLife_led, checkpoint_led, airMachine_led. reflexivity.
Qed.

(** "Indicate life": every cycle of the single-timestamp sketch toggles
    the LED line, whatever else the cycle does, so after a run the line
    is where it was when the number of cycles is even and inverted when
    it is odd. *)
Theorem life_led_toggles_every_cycle :
  forall (ticks : list (Z * Z)) (s : Tek12.state),
    life_led (Tek12.run ticks s)
    = if Nat.even (length ticks) then life_led s else negb (life_led s).
Proof.
  induction ticks as [|[m1 m2] rest IH]; intros s.
  - reflexivity.
  - cbn [Tek12.run length]. rewrite IH, loop_led.
    rewrite Nat.even_succ, <- Nat.negb_even.
    destruct (Nat.even (length rest)), (life_led s); reflexivity.
Qed.

(** ** Why a transition checkpoints the uptime *)






Lemma boot_behind_stop_time12 (s1 : Tek12.state) (n1 n2 u : Z) :
  Tek12Facts.stored_status s1 = 0 ->
  Tek12Facts.stored_airTime s1 = u ->
  0 <= Tek12Facts.stored_uptime s1 ->
  0 <= n1 ->
  Tek12Facts.stored_uptime s1 + n1 < u ->
  u <= Tek12Facts.stored_uptime s1 + 60000 ->
  u < U32.modulus ->
  Tek12Facts.stored_status
    (Tek12.loop n1 n2
       (Tek12.setup (Board.power_on (Board.eeprom (Tek12.board s1))))) = 1 /\
  Tek12Facts.actuator
    (Tek12.loop n1 n2
       (Tek12.setup (Board.power_on (Board.eeprom (Tek12.board s1)))))
  = true /\
  In (DigitalWrite PIN_AIR true)
     (Tek12Facts.cycle_events n1 n2
        (Tek12.setup (Board.power_on (Board.eeprom (Tek12.board s1))))).
Proof.
  intros Off T P0 Pn Before Near Ru.
  set (b := Tek12.setup (Board.power_on (Board.eeprom (Tek12.board s1)))).
  assert (Offb : Tek12Facts.stored_status b = 0) by exact Off.
  assert (Tb : Tek12Facts.stored_airTime b = u) by exact T.
  assert (Advb : Tek12Facts.advanced n1 b
                 = Tek12Facts.stored_uptime s1 + n1).
  { unfold Tek12Facts.advanced.
    change (Tek12.uptime b) with (Tek12Facts.stored_uptime s1).
    change (Tek12.previousUptime b) with 0.
    unfold U32.sub. rewrite Z.sub_0_r, U32.add_wrap_r.
    apply U32.add_small. unfold U32.modulus in *. lia. }
  assert (Brb : Tek12Facts.branch_of (Tek12.readBack n1 n2 b)
                = Tek12Facts.Start).
  { rewrite Tek12Facts.branch_readBack12, Offb, Tb, Advb.
    cbn [Z.eqb].
    assert (E : U32.sub (Tek12Facts.stored_uptime s1 + n1) u
                = Tek12Facts.stored_uptime s1 + n1 - u + U32.modulus).
    { unfold U32.sub, U32.wrap, U32.modulus in *.
      symmetry. apply Z.mod_unique with (q := -1); lia. }
    rewrite E. unfold U32.modulus.
    destruct (Z.gtb_spec
                (Tek12Facts.stored_uptime s1 + n1 - u + 4294967296)
                3600000); [reflexivity | lia]. }
  destruct (Tek12Facts.cycle_events12 n1 n2 b) as [level Ev].
  rewrite Tek12Facts.loop_stored_status12, Tek12Facts.loop_actuator12,
    Ev, Brb.
  split; [reflexivity|]. split; [reflexivity|].
  right. apply in_or_app. right. left. reflexivity.
Qed.

(** The single-timestamp sketch stores the stop time without
    checkpointing the uptime, so after a power loss the restored uptime
    can lie before the stored stop time, and the 32-bit difference
    [uptime - lastAir] is then huge.  Take a checkpointed state with the
    air ON, a cycle that ends the air cycle while no periodic checkpoint
    is due, a power cut, and a first cycle after boot that comes before
    the restored uptime has caught up with the stored stop time: that
    cycle turns the air ON again and drives the actuator line high, with
    no air interval in between. *)
Theorem air_restarts_after_reboot12 :
  forall (s : Tek12.state) (m1 m2 n1 n2 : Z),
    checkpointed12 s ->
    Tek12Facts.stored_status s = 1 ->
    0 <= Tek12.airStart s ->
    Tek12.uptime s + U32.sub m1 (Tek12.previousUptime s)
    + Tek12.TO_MACHINE_UPTIME Tek12.UPTIME_STORE_INTERVAL < U32.modulus ->
    Tek12.airStart s + Tek12.TO_MACHINE_UPTIME Tek12.AIR_DURATION
    <= Tek12.uptime (Tek12.loop m1 m2 s) ->
    Tek12.uptime (Tek12.loop m1 m2 s)
    <= Tek12.uptimeStoreTime s
       + Tek12.TO_MACHINE_UPTIME Tek12.UPTIME_STORE_INTERVAL ->
    0 <= n1 ->
    Tek12.uptimeStoreTime s + n1 < Tek12.uptime (Tek12.loop m1 m2 s) ->
    Tek12Facts.stored_status (Tek12.loop m1 m2 s) = 0 /\
    Tek12Facts.stored_status
      (Tek12.loop n1 n2
         (Tek12.setup
            (Board.power_on
               (Board.eeprom (Tek12.board (Tek12.loop m1 m2 s)))))) = 1 /\
    Tek12Facts.actuator
      (Tek12.loop n1 n2
         (Tek12.setup
            (Board.power_on
               (Board.eeprom (Tek12.board (Tek12.loop m1 m2 s)))))) = true /\
    In (DigitalWrite PIN_AIR true)
       (Tek12Facts.cycle_events n1 n2
          (Tek12.setup
             (Board.power_on
                (Board.eeprom (Tek12.board (Tek12.loop m1 m2 s)))))).
Proof.
  intros s m1 m2 n1 n2 Ck On Pa Small Late NotDue Pn Before.
  rewrite Tek12Facts.store_interval12 in Small, NotDue.
  rewrite Tek12Facts.duration12 in Late.
  pose proof (stored_uptime_nonneg12 s) as P0.
  destruct Ck as (M0 & L0). rewrite M0 in P0.
  destruct (cycle_checkpointed12 s m1 m2 (conj M0 L0) Small)
    as (_ & U1 & _ & _).
  pose proof (U32.sub_range m1 (Tek12.previousUptime s)) as Rd.
  unfold U32.in_range in Rd.
  pose proof (Tek12Facts.loop_uptime12 m1 m2 s) as Adv.
  rewrite U1 in Adv, Late, NotDue, Before.
  assert (Br : Tek12Facts.branch_of (Tek12.readBack m1 m2 s)
               = Tek12Facts.Stop)
    by (apply Tek12Facts.stop12;
        [exact On | exact Pa | rewrite <- Adv; exact Late]).
  assert (Off1 : Tek12Facts.stored_status (Tek12.loop m1 m2 s) = 0)
    by (rewrite Tek12Facts.loop_stored_status12, Br; reflexivity).
  assert (T1 : Tek12Facts.stored_airTime (Tek12.loop m1 m2 s)
               = Tek12.uptime s + U32.sub m1 (Tek12.previousUptime s))
    by (rewrite Tek12Facts.loop_stored_airTime12, Br; symmetry; exact Adv).
  assert (S1 : Tek12Facts.stored_uptime (Tek12.loop m1 m2 s)
               = Tek12.uptimeStoreTime s).
  { rewrite Tek12Facts.loop_stored_uptime12.
    unfold Tek12.periodicUptimeSave.
    rewrite Tek12Facts.airMachine_uptime12, Tek12Facts.airMachine_storeTime12.
    rewrite Tek12Facts.store_interval12.
    rewrite Tek12Facts.readBack_uptime12.
    change (Tek12.uptimeStoreTime (Tek12.readBack m1 m2 s))
      with (Tek12.uptimeStoreTime s).
    rewrite <- Adv.
    rewrite (U32.add_small (Tek12.uptimeStoreTime s) 60000)
      by (unfold U32.modulus in *; lia).
    destruct (Z.gtb_spec (Tek12.uptime s
                          + U32.sub m1 (Tek12.previousUptime s))
                (Tek12.uptimeStoreTime s + 60000));
      [lia | exact M0]. }
  split; [exact Off1|].
  apply (boot_behind_stop_time12 (Tek12.loop m1 m2 s) n1 n2
           (Tek12.uptime s + U32.sub m1 (Tek12.previousUptime s))).
  - exact Off1.
  - exact T1.
  - rewrite S1. exact P0.
  - exact Pn.
  - rewrite S1. exact Before.
  - rewrite S1. exact NotDue.
  - unfold U32.modulus in *. lia.
Qed.

(** Booted ON with uptime 100 000 and [airStart] 0: after twenty cycles
    one second apart the next one stops the air at 120 001, with the
    last checkpoint still 100 000.  The power is cut; the first cycle
    after boot, 1 ms after reset, works with uptime 100 001 and starts
    the air again. *)
Lemma air_restarts_after_reboot12_witness :
  Tek12Facts.stored_status
    (Tek12.loop 20001 20001
       (Tek12.run (cadence 20 1 1000)
          (Tek12.setup (Board.power_on (Tek12.snapshot 100000 1 0))))) = 0 /\
  Tek12Facts.stored_status
    (Tek12.loop 1 1
       (Tek12.setup
          (Board.power_on
             (Board.eeprom
                (Tek12.board
                   (Tek12.loop 20001 20001
                      (Tek12.run (cadence 20 1 1000)
                         (Tek12.setup
                            (Board.power_on
                               (Tek12.snapshot 100000 1 0)))))))))) = 1.
Proof.
  destruct (air_restarts_after_reboot12
              (Tek12.run (cadence 20 1 1000)
                 (Tek12.setup (Board.power_on (Tek12.snapshot 100000 1 0))))
              20001 20001 1 1) as (A & B & _).
  - by_eval.
  - by_eval.
  - by_eval.
  - by_eval.
  - by_eval.
  - by_eval.
  - lia.
  - by_eval.
  - split; [exact A | exact B].
Defined.
